(** * BOT-universal: a shallow embedding of the trading core

    The development follows the Python sources module by module:
    - [core/risk_manager.py]      (module [Risk]),
    - [strategy/base_strategy.py] (module [Strategy]),
    - [core/websocket_manager.py] (module [Feed]),
    - [core/state_store.py]       (module [Store]),
    - [core/order_manager.py]     (module [Orders]),
    - [core/pair_manager.py]      (module [Worker]),
    - [core/backtest_engine.py]   (module [Backtest]).

    Python [float]s are idealised as exact rationals ([Q]); comparisons are
    the boolean ones so that every definition computes.  Python [int]s are
    [Z], [str]s are [string]s.  Calls that leave the process (exchange REST
    calls, the event-loop clock, the indicator library) are explicit
    arguments of the functions that perform them. *)

From Stdlib Require Import ZArith QArith Qcanon Qround Qabs Lia Lqa Bool Ascii String List.
From stdpp Require Import base option list strings gmap fin_maps.
Import ListNotations.

Local Open Scope Z_scope.
Local Open Scope Q_scope.
Local Open Scope string_scope.

(** ** Python values *)

(** Boolean comparisons on floats. *)
Definition Qleb (x y : Q) : bool := Qle_bool x y.
Definition Qltb (x y : Q) : bool := negb (Qle_bool y x).
Definition Qgeb (x y : Q) : bool := Qle_bool y x.
Definition Qgtb (x y : Q) : bool := negb (Qle_bool x y).
Definition Qeqb (x y : Q) : bool := Qeq_bool x y.

(** [max(x, y)] on floats: Python returns the first argument unless the
    second is strictly larger. *)
Definition Qmax (x y : Q) : Q := if Qgtb y x then y else x.

(** A Python exception leaving a call: [Raises], or the value returned. *)
Inductive reply (A : Type) : Type :=
| Raises : reply A
| Returns : A -> reply A.
Arguments Raises {A}.
Arguments Returns {A} _.

(** [str.upper] and [str.lower] on ASCII letters. *)
Definition upper_ascii (c : ascii) : ascii :=
  let n := nat_of_ascii c in
  if ((97 <=? n)%nat && (n <=? 122)%nat)%bool then ascii_of_nat (n - 32) else c.

Definition lower_ascii (c : ascii) : ascii :=
  let n := nat_of_ascii c in
  if ((65 <=? n)%nat && (n <=? 90)%nat)%bool then ascii_of_nat (n + 32) else c.

Fixpoint upper (s : string) : string :=
  match s with
  | EmptyString => EmptyString
  | String c r => String (upper_ascii c) (upper r)
  end.

Fixpoint lower (s : string) : string :=
  match s with
  | EmptyString => EmptyString
  | String c r => String (lower_ascii c) (lower r)
  end.

(** [round(x)] to the nearest integer, ties to even, and [round(x, n)]. *)
Definition round_half_even (x : Q) : Z :=
  let f := Qfloor x in
  let r := x - inject_Z f in
  if Qltb r (1 # 2) then f
  else if Qltb (1 # 2) r then (f + 1)%Z
  else if Z.even f then f else (f + 1)%Z.

Definition pow10 (n : nat) : Q := inject_Z (10 ^ Z.of_nat n).

Definition py_round (x : Q) (n : nat) : Q :=
  inject_Z (round_half_even (x * pow10 n)) / pow10 n.

(** ** core/risk_manager.py *)

Module Risk.

(** [RiskManager]: the only attribute is [consecutive_losses]. *)
Record RiskManager := { consecutive_losses : Z }.

(** [RiskManager.initialize]. *)
Definition initialize : RiskManager := {| consecutive_losses := 0 |}.

(** [register_trade_result(pnl)]: the updated manager and the returned
    boolean. *)
Definition register_trade_result (rm : RiskManager) (pnl : Q)
  : RiskManager * bool :=
  let n := if Qltb pnl 0 then (consecutive_losses rm + 1)%Z else 0%Z in
  ({| consecutive_losses := n |}, (3 <=? n)%Z).

End Risk.

(** ** strategy/base_strategy.py *)

Module Strategy.

(** [Candle] of [core/websocket_manager.py]; a DataFrame of candles is the
    list of its rows, oldest first. *)
Record Candle := {
  open : Q;
  high : Q;
  low : Q;
  close : Q;
  volume : Q
}.

Definition Frame := list Candle.

(** The dataclass [StrategySettings], field by field. *)
Record StrategySettings := {
  rsi_period : Z;
  rsi_level : Q;
  ema_period : Z;
  adx_period : Z;
  timeframe : string;
  take_profit_pct : Q;
  base_order_size_usdt : Q;
  order_timeout_sec : Z;
  use_market_order : bool;
  safety_step_pct : Q;
  safety_orders_count : Z;
  volume_multiplier : Q;
  commission_pct : Q;
  enable_futures : bool;
  leverage : Z;
  margin_mode : string;
  break_even_after_percent : Q;
  futures_position_side : string;
  mode : string;
  cooldown_minutes : Q;
  anti_reentry_threshold_pct : Q;
  run_mode : string;
  use_rsi : bool;
  use_ema_trend_filter : bool;
  use_adx_filter : bool;
  use_volume_filter : bool;
  use_atr_filter : bool;
  adx_threshold : Q;
  volume_spike_multiplier : Q;
  atr_min_value : Q;
  position_size_mode : string;
  risk_per_trade_pct : Q;
  max_total_exposure_pct : Q;
  protection_orders_on_exchange : bool;
  enable_stop_loss : bool;
  stop_loss_mode : string;
  stop_loss_pct : Q;
  auto_resume_running_pairs : bool
}.

(** The defaults of the dataclass. *)
Definition default_settings : StrategySettings := {|
  rsi_period := 14;
  rsi_level := 30;
  ema_period := 200;
  adx_period := 14;
  timeframe := "1m";
  take_profit_pct := 1;
  base_order_size_usdt := 25;
  order_timeout_sec := 30;
  use_market_order := true;
  safety_step_pct := 2;
  safety_orders_count := 3;
  volume_multiplier := 3 # 2;
  commission_pct := 1 # 10;
  enable_futures := false;
  leverage := 5;
  margin_mode := "Cross";
  break_even_after_percent := 3 # 10;
  futures_position_side := "Long";
  mode := "Spot";
  cooldown_minutes := 0;
  anti_reentry_threshold_pct := 2 # 10;
  run_mode := "Live";
  use_rsi := true;
  use_ema_trend_filter := true;
  use_adx_filter := true;
  use_volume_filter := false;
  use_atr_filter := false;
  adx_threshold := 20;
  volume_spike_multiplier := 3 # 2;
  atr_min_value := 0;
  position_size_mode := "Fixed";
  risk_per_trade_pct := 1;
  max_total_exposure_pct := 30;
  protection_orders_on_exchange := true;
  enable_stop_loss := false;
  stop_loss_mode := "Off";
  stop_loss_pct := 1;
  auto_resume_running_pairs := false
|}.

(** [IndicatorEngine] (strategy/indicators.py) delegates to the pandas_ta
    library; each method returns the latest value of the indicator, or
    [None].  The library is taken as given. *)
Record IndicatorEngine := {
  calculate_rsi : Frame -> Z -> option Q;
  calculate_ema : Frame -> Z -> option Q;
  calculate_adx : Frame -> Z -> option Q;
  calculate_atr : Frame -> Z -> option Q
}.


(** [df["col"].iloc[-1]]: the last row's value (the callers guard against an
    empty frame; 0 stands for the unreachable case). *)
Definition last_close (df : Frame) : Q := close (List.last df (Build_Candle 0 0 0 0 0)).
Definition last_volume (df : Frame) : Q := volume (List.last df (Build_Candle 0 0 0 0 0)).

(** [Series.tail(n)]: the last [n] elements. *)
Definition tail_n {A : Type} (n : nat) (l : list A) : list A :=
  List.skipn (List.length l - n) l.

Definition Qsum (l : list Q) : Q := List.fold_right Qplus 0 l.

(** [Series.mean()] of a non-empty series. *)
Definition mean (l : list Q) : Q := Qsum l / inject_Z (Z.of_nat (List.length l)).

(** [ConditionEngine.check_rsi]. *)
Definition check_rsi (ie : IndicatorEngine) (df : Frame)
  (settings : StrategySettings) (direction : string) : bool :=
  match calculate_rsi ie df (rsi_period settings) with
  | None => false
  | Some rsi =>
      if String.eqb direction "LONG"
      then Qltb rsi (rsi_level settings)
      else Qgtb rsi (rsi_level settings)
  end.

(** [ConditionEngine.check_ema_trend]. *)
Definition check_ema_trend (ie : IndicatorEngine) (df : Frame)
  (settings : StrategySettings) (direction : string) : bool :=
  match calculate_ema ie df (ema_period settings) with
  | None => false
  | Some ema =>
      let close_price := last_close df in
      if String.eqb direction "LONG"
      then Qgtb close_price ema
      else Qltb close_price ema
  end.

(** [ConditionEngine.check_adx]. *)
Definition check_adx (ie : IndicatorEngine) (df : Frame)
  (settings : StrategySettings) : bool :=
  match calculate_adx ie df (adx_period settings) with
  | None => false
  | Some adx => Qgtb adx (adx_threshold settings)
  end.

(** [ConditionEngine.check_volume_spike]. *)
Definition check_volume_spike (df : Frame) (settings : StrategySettings) : bool :=
  if (List.length df <? 2)%nat then false
  else
    let current_volume := last_volume df in
    let avg_volume := mean (tail_n 20 (List.map volume (List.removelast df))) in
    if Qleb avg_volume 0 then false
    else Qgtb current_volume (avg_volume * volume_spike_multiplier settings).

(** [ConditionEngine.check_atr_filter]. *)
Definition check_atr_filter (ie : IndicatorEngine) (df : Frame)
  (settings : StrategySettings) : bool :=
  match calculate_atr ie df (adx_period settings) with
  | None => false
  | Some atr => Qgtb atr (atr_min_value settings)
  end.

(** The [checks] dictionary of [evaluate_conditions], in insertion order;
    [None] marks a disabled filter. *)
Definition Checks := list (string * option bool).

Definition build_checks (ie : IndicatorEngine) (df : Frame)
  (settings : StrategySettings) (direction : string) : Checks :=
  [ ("RSI", if use_rsi settings
            then Some (check_rsi ie df settings direction) else None);
    ("EMA", if use_ema_trend_filter settings
            then Some (check_ema_trend ie df settings direction) else None);
    ("ADX", if use_adx_filter settings
            then Some (check_adx ie df settings) else None);
    ("Volume", if use_volume_filter settings
               then Some (check_volume_spike df settings) else None);
    ("ATR", if use_atr_filter settings
            then Some (check_atr_filter ie df settings) else None) ].

(** [[value for value in checks.values() if value is not None]]. *)
Fixpoint enabled_values (checks : Checks) : list bool :=
  match checks with
  | [] => []
  | (_, Some b) :: r => b :: enabled_values r
  | (_, None) :: r => enabled_values r
  end.

(** [ConditionEngine.evaluate_conditions]. *)
Definition evaluate_conditions (ie : IndicatorEngine) (df : Frame)
  (settings : StrategySettings) (direction : string) : bool * Checks :=
  let checks := build_checks ie df settings direction in
  let enabled := enabled_values checks in
  match enabled with
  | [] => (false, checks)
  | _ => (List.forallb (fun b => b) enabled, checks)
  end.

(** [BaseStrategy]: the settings and [last_condition_report].  The report
    keeps the two check dictionaries; its LONG_TEXT and SHORT_TEXT entries
    are renderings of them by [_format_report] and are not kept apart. *)
Record BaseStrategy := {
  settings : StrategySettings;
  last_condition_report : option (Checks * Checks)
}.

(** [BaseStrategy.__init__]. *)
Definition new_strategy (st : StrategySettings) : BaseStrategy :=
  {| settings := st; last_condition_report := None |}.

(** [BaseStrategy.generate_signal(df)]; [df] may be [None], and [df.empty]
    holds of a frame without rows.  Returns the strategy with its updated
    report, and the signal. *)
Definition generate_signal (ie : IndicatorEngine) (self : BaseStrategy)
  (df : option Frame) : BaseStrategy * option string :=
  match df with
  | None => (self, None)
  | Some [] => (self, None)
  | Some df =>
      let '(long_ok, long_checks) :=
        evaluate_conditions ie df (settings self) "LONG" in
      let '(short_ok, short_checks) :=
        evaluate_conditions ie df (settings self) "SHORT" in
      let self' := {| settings := settings self;
                      last_condition_report := Some (long_checks, short_checks) |} in
      if long_ok then (self', Some "LONG")
      else if short_ok then (self', Some "SHORT")
      else (self', None)
  end.

End Strategy.

(** ** core/websocket_manager.py *)

Module Feed.
Import Strategy.

(** A decoded JSON message ([json.loads]): the payloads the listener hands to
    its handlers.  An object is the list of its members (keys are unique in a
    Python dict).  A number without fraction or exponent decodes to an [int]
    of any size ([JInt]), any other number to a [float] ([JNum]).  Floats
    are rationals here, so the floats that are none (the literals [NaN] and
    [Infinity], and the literals beyond the double range, which decode to
    inf) are not values of this type. *)
#[local] Unset Elimination Schemes.
Inductive json : Type :=
| JNull : json
| JBool : bool -> json
| JInt : Z -> json
| JNum : Q -> json
| JStr : string -> json
| JArr : list json -> json
| JObj : list (string * json) -> json.
#[local] Set Elimination Schemes.

(** [d.get(name)] on a dict: [None] when the key is absent. *)
Fixpoint get (name : string) (members : list (string * json)) : option json :=
  match members with
  | [] => None
  | (k, v) :: r => if String.eqb k name then Some v else get name r
  end.

(** Python truth of a value; an absent key reads as [None]. *)
Definition truthy (v : option json) : bool :=
  match v with
  | None => false
  | Some JNull => false
  | Some (JBool b) => b
  | Some (JInt n) => negb (n =? 0)%Z
  | Some (JNum q) => negb (Qeqb q 0)
  | Some (JStr s) => negb (String.eqb s "")
  | Some (JArr l) => match l with [] => false | _ => true end
  | Some (JObj l) => match l with [] => false | _ => true end
  end.

(** What [float(s)] does with a string: it returns a finite float, it
    returns inf, -inf or nan (["inf"], ["nan"], ["1e999"]), or it raises
    ValueError. *)
Inductive parsed : Type :=
| Finite : Q -> parsed
| NonFinite : parsed
| Invalid : parsed.

(** What [float(v)] does with a value: it returns a finite float, it returns
    a float that is no rational, it raises TypeError or ValueError, or it
    raises OverflowError. *)
Inductive conversion : Type :=
| Converted : Q -> conversion
| NotRational : conversion
| Refused : conversion
| Overflow : conversion.

(** [float(n)] of an [int] raises OverflowError ("int too large to convert
    to float") when [n] rounds to a magnitude of [2^1024]: from
    [2^1024 - 2^970] on.  Below that the conversion rounds to the nearest
    double; with floats read as rationals it is exact here. *)
Definition float_limit : Z := (2 ^ 1024 - 2 ^ 970)%Z.

Definition float_of_int (n : Z) : conversion :=
  if (float_limit <=? Z.abs n)%Z then Overflow else Converted (inject_Z n).

(** [float(v)]: floats, ints and booleans convert, strings go through the
    float parser [fs], everything else is TypeError. *)
Definition to_float (fs : string -> parsed) (v : json) : conversion :=
  match v with
  | JNum q => Converted q
  | JInt n => float_of_int n
  | JBool b => Converted (if b then 1 else 0)
  | JStr s => match fs s with
              | Finite q => Converted q
              | NonFinite => NotRational
              | Invalid => Refused
              end
  | JNull | JArr _ | JObj _ => Refused
  end.

(** [float(d[name])]: a missing key is KeyError, which the handler catches
    together with TypeError and ValueError. *)
Definition float_member (fs : string -> parsed) (name : string)
  (members : list (string * json)) : conversion :=
  match get name members with
  | None => Refused
  | Some v => to_float fs v
  end.

(** Keys of the caches.  Strings are keys as they are; Python identifies the
    numeric keys [True], [1] and [1.0], so numbers are keys by value.  Lists
    and dicts are unhashable. *)
Inductive key : Type :=
| KStr : string -> key
| KNum : Qc -> key.

#[global] Instance key_eq_dec : EqDecision key.
Proof. solve_decision. Defined.

#[global] Instance key_countable : Countable key.
Proof.
  refine (inj_countable'
            (fun k => match k with KStr s => inl s | KNum q => inr q end)
            (fun x => match x with inl s => KStr s | inr q => KNum q end) _).
  intros [s|q]; reflexivity.
Defined.

(** The key a truthy value is stored under, [None] when it is unhashable. *)
Definition dict_key (v : json) : option key :=
  match v with
  | JStr s => Some (KStr s)
  | JInt n => Some (KNum (Q2Qc (inject_Z n)))
  | JNum q => Some (KNum (Q2Qc q))
  | JBool b => Some (KNum (Q2Qc (if b then 1 else 0)))
  | JNull | JArr _ | JObj _ => None
  end.

(** The caches of [WebSocketManager] written by the two handlers.  The other
    attributes (connections, listen tasks, subscriptions) are not touched by
    them. *)
Record WebSocketManager := {
  prices : gmap key Q;
  candles : gmap key (list Candle);
  candle_versions : gmap key Z
}.

(** [WebSocketManager.__init__]. *)
Definition new_manager : WebSocketManager :=
  {| prices := ∅; candles := ∅; candle_versions := ∅ |}.

(** How a handler is left. *)
Inductive outcome : Type := Normal | Raised.

(** [_handle_miniticker]: the manager after the call and how the call ended.
    [float(close_price)] is evaluated first; TypeError and ValueError are
    caught, OverflowError is not and leaves the handler.  The assignment
    sits inside the same [try], so an unhashable symbol (TypeError) is
    dropped like an unparsable price.  The result is [None] where the
    handler stores inf or nan, a price the rational cache cannot hold. *)
Definition _handle_miniticker (fs : string -> parsed)
  (self : WebSocketManager) (payload : list (string * json))
  : option (WebSocketManager * outcome) :=
  let symbol := get "s" payload in
  let close_price := get "c" payload in
  match close_price with
  | Some c =>
      if truthy symbol && negb (match c with JNull => true | _ => false end)
      then
        match to_float fs c with
        | Overflow => Some (self, Raised)
        | Refused => Some (self, Normal)
        | Converted p =>
            match symbol ≫= dict_key with
            | Some k =>
                Some ({| prices := <[k := p]> (prices self);
                         candles := candles self;
                         candle_versions := candle_versions self |}, Normal)
            | None => Some (self, Normal)
            end
        | NotRational =>
            match symbol ≫= dict_key with
            | Some _ => None
            | None => Some (self, Normal)
            end
        end
      else Some (self, Normal)
  | None => Some (self, Normal)
  end.

(** What the [Candle(...)] constructor call of [_handle_kline] comes to:
    a candle, a candle with a field that is no rational, an exception the
    handler catches (KeyError, TypeError, ValueError), or OverflowError. *)
Inductive parsed_candle : Type :=
| Parsed : Candle -> parsed_candle
| NotRationalCandle : parsed_candle
| Dropped : parsed_candle
| Overflowed : parsed_candle.

(** One keyword argument of the call: the first conversion that raises ends
    the call; [k] receives the field, [None] for inf or nan. *)
Definition converting (x : conversion) (k : option Q -> parsed_candle)
  : parsed_candle :=
  match x with
  | Converted q => k (Some q)
  | NotRational => k None
  | Refused => Dropped
  | Overflow => Overflowed
  end.

(** The [Candle(...)] constructor call of [_handle_kline]: the keyword
    arguments are evaluated in the order they are written. *)
Definition parse_candle (fs : string -> parsed)
  (kline : list (string * json)) : parsed_candle :=
  converting (float_member fs "o" kline) (fun o =>
  converting (float_member fs "h" kline) (fun h =>
  converting (float_member fs "l" kline) (fun l =>
  converting (float_member fs "c" kline) (fun c =>
  converting (float_member fs "v" kline) (fun v =>
    match o, h, l, c, v with
    | Some o, Some h, Some l, Some c, Some v => Parsed (Build_Candle o h l c v)
    | _, _, _, _, _ => NotRationalCandle
    end))))).

(** [data.append(candle); if len(data) > 200: del data[0]]. *)
Definition append_bounded (data : list Candle) (candle : Candle) : list Candle :=
  let data' := (data ++ [candle])%list in
  if (200 <? List.length data')%nat then List.tl data' else data'.

(** [_handle_kline].  [payload.get("k", {})] is any JSON value; calling
    [.get] on one that is not a dict raises AttributeError, an OverflowError
    of [float] is not among the exceptions the [try] catches, and indexing
    the cache with an unhashable symbol raises TypeError; none of the three
    is caught in the handler.  The caches are [defaultdict]s: a missing
    symbol reads as [[]] and [0].  The result is [None] where the handler
    stores a candle with a field that is inf or nan. *)
Definition _handle_kline (fs : string -> parsed)
  (self : WebSocketManager) (payload : list (string * json))
  : option (WebSocketManager * outcome) :=
  let symbol := get "s" payload in
  let kline := match get "k" payload with
               | None => JObj []
               | Some v => v
               end in
  if negb (truthy symbol) then Some (self, Normal)
  else
    match kline with
    | JObj members =>
        if negb (truthy (get "x" members)) then Some (self, Normal)
        else
          match parse_candle fs members with
          | Dropped => Some (self, Normal)
          | Overflowed => Some (self, Raised)
          | NotRationalCandle =>
              match symbol ≫= dict_key with
              | None => Some (self, Raised)
              | Some _ => None
              end
          | Parsed candle =>
              match symbol ≫= dict_key with
              | None => Some (self, Raised)
              | Some k =>
                  let data := default [] (candles self !! k) in
                  let version := default 0%Z (candle_versions self !! k) in
                  Some ({| prices := prices self;
                           candles :=
                             <[k := append_bounded data candle]> (candles self);
                           candle_versions :=
                             <[k := (version + 1)%Z]> (candle_versions self) |},
                        Normal)
              end
          end
    | _ => Some (self, Raised)
    end.

End Feed.

(** ** core/state_store.py *)

Module Store.

(** [json.dumps] and [json.loads] on the payloads the store is given, with
    the facts about them the store relies on: a dumped object loads back,
    the literal [{}] loads as the empty object, and a dump is never the
    empty text. *)
Class JsonCodec (J : Type) := {
  dumps : J -> string;
  loads : string -> option J;
  empty_object : J;
  loads_dumps : forall v, loads (dumps v) = Some v;
  loads_empty : loads "{}" = Some empty_object;
  dumps_nonempty : forall v, dumps v <> ""
}.

(** A row of [pairs_state], keyed by its primary key [pair_id].  The
    [updated_at] column is written and never read. *)
Record Row := {
  config_json : string;
  runtime_json : string
}.

(** [COALESCE((SELECT col FROM pairs_state WHERE pair_id = ?), '{}')]. *)
Definition coalesce_column (col : Row -> string) (pair_id : string)
  (table : gmap string Row) : string :=
  default "{}" (col <$> table !! pair_id).

(** [save_pair_config]: INSERT of the new row, and on a primary-key
    conflict an UPDATE of [config_json] alone from the excluded row. *)
Definition save_pair_config {J} `{JsonCodec J} (pair_id : string) (data_json : J)
  (table : gmap string Row) : gmap string Row :=
  let excluded := {| config_json := dumps data_json;
                     runtime_json := coalesce_column runtime_json pair_id table |} in
  match table !! pair_id with
  | None => <[pair_id := excluded]> table
  | Some row =>
      <[pair_id := {| config_json := config_json excluded;
                      runtime_json := runtime_json row |}]> table
  end.

(** [save_pair_runtime]: the same with the columns exchanged. *)
Definition save_pair_runtime {J} `{JsonCodec J} (pair_id : string) (data_json : J)
  (table : gmap string Row) : gmap string Row :=
  let excluded := {| config_json := coalesce_column config_json pair_id table;
                     runtime_json := dumps data_json |} in
  match table !! pair_id with
  | None => <[pair_id := excluded]> table
  | Some row =>
      <[pair_id := {| config_json := config_json row;
                      runtime_json := runtime_json excluded |}]> table
  end.

(** [text or "{}"]. *)
Definition or_empty_object (text : string) : string :=
  if String.eqb text "" then "{}" else text.

(** One iteration of the loop of [load_all_pairs]; [None] when [json.loads]
    raises. *)
Definition load_row {J} `{JsonCodec J} (entry : string * Row) : option (string * J * J) :=
  config ← loads (or_empty_object (config_json entry.2));
  runtime ← loads (or_empty_object (runtime_json entry.2));
  Some (entry.1, config, runtime).

(** [load_all_pairs]: every row of the table, decoded. *)
Definition load_all_pairs {J} `{JsonCodec J} (table : gmap string Row)
  : option (list (string * J * J)) :=
  mapM load_row (map_to_list table).

(** [delete_pair]. *)
Definition delete_pair (pair_id : string) (table : gmap string Row) : gmap string Row :=
  delete pair_id table.

(** Every column of every row decodes: the table holds no corrupt text. *)
Definition decodable {J} `{JsonCodec J} (table : gmap string Row) : Prop :=
  forall id row, table !! id = Some row -> is_Some (load_row (id, row)).

(** A codec on tagged texts, to run the store on: an object is any text,
    dumped behind an opening brace. *)
Definition tagged_loads (text : string) : option string :=
  match text with
  | EmptyString => None
  | String _ rest => Some rest
  end.

#[global] Program Instance tagged_codec : JsonCodec string := {|
  dumps := fun v => String "{"%char v;
  loads := tagged_loads;
  empty_object := "}"
|}.
Next Obligation. reflexivity. Qed.
Next Obligation. reflexivity. Qed.
Next Obligation. discriminate. Qed.

End Store.

(** ** core/order_manager.py *)

Module Orders.
Import Strategy Feed.

(** The dict returned by [exchange.get_order_status].  A numeric member is
    [None] when it is absent or falsy, which is when the [d.get(k, dflt) or
    dflt] idiom of the callers falls back to the default. *)
Record OrderStatus := {
  status : string;
  executedQty : option Q;
  cummulativeQuoteQty : option Q;
  avgPrice : option Q
}.

(** The dict returned by [exchange.get_position], read the same way. *)
Record Position := {
  positionAmt : option Q;
  entryPrice : option Q
}.

(** What the exchange answers during one call of the order manager.
    [place_order] gives [int(order.get("orderId", 0))];
    [get_order_status] is indexed by the number of status calls made so far;
    [futures_get_mark_price] is [None] when the adapter has no such method
    ([hasattr] is false); [set_margin_type_and_leverage] is the pair of calls
    made by [configure_futures]. *)
Record Exchange := {
  place_order : reply Z;
  get_order_status : nat -> reply OrderStatus;
  get_position : reply Position;
  futures_get_mark_price : option (reply (option Q));
  get_balance : reply (option Q);
  set_margin_type_and_leverage : reply unit
}.

(** [price_source.get(symbol)]. *)
Definition price_of (price_source : gmap key Q) (symbol : string) : option Q :=
  price_source !! KStr symbol.

(** [current_price = price_source.get(symbol)], replaced by the mark price
    when it is [None] and the adapter has [futures_get_mark_price]. *)
Definition current_price_of (price_source : gmap key Q) (exchange : Exchange)
  (symbol : string) : reply (option Q) :=
  match price_of price_source symbol, futures_get_mark_price exchange with
  | None, Some mark => mark
  | p, _ => Returns p
  end.

(** [calculate_entry_size_usdt]. *)
Definition calculate_entry_size_usdt (price_source : gmap key Q)
  (exchange : Exchange) (symbol : string) (settings : StrategySettings)
  (is_futures : bool) (leverage : Z) (current_exposure_usdt : Q)
  : reply (option Q) :=
  match current_price_of price_source exchange symbol with
  | Raises => Raises
  | Returns None => Returns None
  | Returns (Some current_price) =>
      if Qleb current_price 0 then Returns None
      else
        match get_balance exchange with
        | Raises => Raises
        | Returns None => Returns None
        | Returns (Some balance) =>
            if Qleb balance 0 then Returns None
            else
              let max_exposure_usdt :=
                balance * (max_total_exposure_pct settings / 100) in
              let notional_usdt :=
                if String.eqb (position_size_mode settings) "Risk-based" then
                  let risk_amount := balance * (risk_per_trade_pct settings / 100) in
                  let stop_distance :=
                    Qmax (current_price * (safety_step_pct settings / 100))
                         (current_price * (1 # 1000)) in
                  let position_qty :=
                    risk_amount / Qmax stop_distance (1 # 1000000000) in
                  let base_notional := position_qty * current_price in
                  if is_futures
                  then base_notional * inject_Z (Z.max leverage 1)
                  else base_notional
                else base_order_size_usdt settings in
              if Qgtb (current_exposure_usdt + notional_usdt) max_exposure_usdt
              then Returns None
              else Returns (Some notional_usdt)
        end
  end.

(** [monitor_order_spot] and [monitor_order_futures]: one status call per
    second, [elapsed] counting them, until FILLED or [timeout_sec]; a call
    that raises is logged and counted.  Returns the verdict and the number of
    status calls made. *)
Fixpoint monitor_from (exchange : Exchange) (remaining elapsed : nat)
  : string * nat :=
  match remaining with
  | O => ("TIMEOUT", elapsed)
  | S remaining' =>
      match get_order_status exchange elapsed with
      | Raises => monitor_from exchange remaining' (S elapsed)
      | Returns status_data =>
          if String.eqb (status status_data) "FILLED"
          then ("FILLED", S elapsed)
          else monitor_from exchange remaining' (S elapsed)
      end
  end.

Definition monitor_order_spot (exchange : Exchange) (timeout_sec : Z)
  : string * nat := monitor_from exchange (Z.to_nat timeout_sec) O.

Definition monitor_order_futures (exchange : Exchange) (timeout_sec : Z)
  : string * nat := monitor_from exchange (Z.to_nat timeout_sec) O.

(** The dict returned by a successful open or close: a quantity and the
    price it was filled at. *)
Record Fill := {
  quantity : Q;
  fill_price : Q
}.

(** [open_position_spot]: [None], or the dict with [quantity] and
    [entry_price].  The division raises ZeroDivisionError on a zero price. *)
Definition open_position_spot (price_source : gmap key Q) (exchange : Exchange)
  (pair : string) (amount : Q) (use_market : bool) (timeout_sec : Z)
  : reply (option Fill) :=
  match price_of price_source pair with
  | None => Returns None
  | Some current_price =>
      if Qeqb current_price 0 then Raises
      else
        let quantity := py_round (amount / current_price) 6 in
        if Qleb quantity 0 then Returns None
        else
          match place_order exchange with
          | Raises => Returns None
          | Returns order_id =>
              if (order_id =? 0)%Z then Returns None
              else
                let '(verdict, calls) :=
                  if use_market then ("FILLED", O)
                  else monitor_order_spot exchange timeout_sec in
                if negb (String.eqb verdict "FILLED") then Returns None
                else
                  match get_order_status exchange calls with
                  | Raises => Raises
                  | Returns status_data =>
                      let executed_qty :=
                        default quantity (executedQty status_data) in
                      let cumm_quote :=
                        default 0 (cummulativeQuoteQty status_data) in
                      let entry_price :=
                        if Qgtb cumm_quote 0 && Qgtb executed_qty 0
                        then cumm_quote / executed_qty
                        else current_price in
                      Returns (Some {| quantity := executed_qty;
                                       fill_price := entry_price |})
                  end
          end
  end.

(** What [open_position_futures] returns: [None], the string
    ["not_filled"], or the dict with [qty] and [entry_price]. *)
Inductive FuturesOpen : Type :=
| FuturesNone : FuturesOpen
| FuturesNotFilled : FuturesOpen
| FuturesDict : Fill -> FuturesOpen.

(** [open_position_futures]. *)
Definition open_position_futures (price_source : gmap key Q) (exchange : Exchange)
  (symbol : string) (direction_long_short : string) (usdt_amount : Q)
  (use_market : bool) (timeout_sec : Z) : reply FuturesOpen :=
  match current_price_of price_source exchange symbol with
  | Raises => Raises
  | Returns None => Returns FuturesNone
  | Returns (Some current_price) =>
      if Qleb current_price 0 then Returns FuturesNone
      else
        let qty := py_round (usdt_amount / current_price) 4 in
        if Qleb qty 0 then Returns FuturesNone
        else
          match place_order exchange with
          | Raises => Returns FuturesNone
          | Returns order_id =>
              if (order_id =? 0)%Z then Returns FuturesNone
              else
                let '(verdict, calls) :=
                  if use_market then ("FILLED", O)
                  else monitor_order_futures exchange timeout_sec in
                if negb (String.eqb verdict "FILLED") then Returns FuturesNotFilled
                else
                  match get_order_status exchange calls with
                  | Raises => Raises
                  | Returns order_data =>
                      let executed_qty := default qty (executedQty order_data) in
                      let avg_price0 := default 0 (avgPrice order_data) in
                      let avg_price :=
                        if Qleb avg_price0 0 then current_price else avg_price0 in
                      Returns (FuturesDict {| quantity := executed_qty;
                                              fill_price := avg_price |})
                  end
          end
  end.

(** [close_position_spot]: [None], or the dict with [exit_price] and
    [quantity]. *)
Definition close_position_spot (price_source : gmap key Q) (exchange : Exchange)
  (pair : string) (quantity : Q) : reply (option Fill) :=
  if Qleb quantity 0 then Returns None
  else
    match place_order exchange with
    | Raises => Returns None
    | Returns _ =>
        match get_order_status exchange O with
        | Raises => Raises
        | Returns status_data =>
            let executed_qty := default quantity (executedQty status_data) in
            let cumm_quote := default 0 (cummulativeQuoteQty status_data) in
            let exit_price :=
              if Qgtb cumm_quote 0 && Qgtb executed_qty 0
              then cumm_quote / executed_qty
              else default 0 (price_of price_source pair) in
            Returns (Some {| quantity := executed_qty; fill_price := exit_price |})
        end
    end.

(** [close_position_futures]. *)
Definition close_position_futures (price_source : gmap key Q) (exchange : Exchange)
  (symbol : string) : reply (option Fill) :=
  match get_position exchange with
  | Raises => Raises
  | Returns pos =>
      let position_amt := default 0 (positionAmt pos) in
      if Qeqb position_amt 0 then Returns None
      else
        let qty := Qabs position_amt in
        match place_order exchange with
        | Raises => Returns None
        | Returns _ =>
            match get_order_status exchange O with
            | Raises => Raises
            | Returns order_data =>
                let avg_price0 := default 0 (avgPrice order_data) in
                let avg_price :=
                  if Qleb avg_price0 0
                  then default 0 (price_of price_source symbol)
                  else avg_price0 in
                Returns (Some {| quantity := qty; fill_price := avg_price |})
            end
        end
  end.

End Orders.

(** ** core/pair_manager.py *)

Module Worker.
Import Strategy Feed Orders.

(** One call of the [on_trade_closed] callback:
    [(pair_name, pnl, mode, direction)]. *)
Record TradeReport := {
  report_pair : string;
  report_pnl : Q;
  report_mode : string;
  report_direction : string
}.

(** The attributes of [PairWorker], as [__init__] lists them.  The exchange,
    the feed and the order manager are arguments of the methods that call
    them; [trades_closed] records the calls made to [on_trade_closed], most
    recent first. *)
Record PairWorker := {
  pair_name : string;
  mode : string;
  strategy_settings : StrategySettings;
  strategy : BaseStrategy;
  running : bool;
  candles : list Candle;
  _last_candle_version : Z;
  position_open : bool;
  order_in_progress : bool;
  direction : string;
  entry_price : option Q;
  take_profit_price : option Q;
  stop_loss_price : option Q;
  safety_orders_used : Z;
  total_qty : Q;
  total_cost : Q;
  average_price : Q;
  last_order_usdt : Q;
  _safety_order_in_progress : bool;
  break_even_armed : bool;
  break_even_price : Q;
  _futures_leverage : option Z;
  _futures_margin_mode : option string;
  _last_position_sync : Q;
  _pending_strategy_settings : option StrategySettings;
  _last_close_timestamp : Q;
  _last_close_price : Q;
  needs_resync : bool;
  trades_closed : list TradeReport
}.

Definition set_mode (v : string) (w : PairWorker) : PairWorker :=
  Build_PairWorker (pair_name w) v (strategy_settings w) (strategy w) (running w) (candles w) (_last_candle_version w) (position_open w) (order_in_progress w) (direction w) (entry_price w) (take_profit_price w) (stop_loss_price w) (safety_orders_used w) (total_qty w) (total_cost w) (average_price w) (last_order_usdt w) (_safety_order_in_progress w) (break_even_armed w) (break_even_price w) (_futures_leverage w) (_futures_margin_mode w) (_last_position_sync w) (_pending_strategy_settings w) (_last_close_timestamp w) (_last_close_price w) (needs_resync w) (trades_closed w).

Definition set_strategy_settings (v : StrategySettings) (w : PairWorker) : PairWorker :=
  Build_PairWorker (pair_name w) (mode w) v (strategy w) (running w) (candles w) (_last_candle_version w) (position_open w) (order_in_progress w) (direction w) (entry_price w) (take_profit_price w) (stop_loss_price w) (safety_orders_used w) (total_qty w) (total_cost w) (average_price w) (last_order_usdt w) (_safety_order_in_progress w) (break_even_armed w) (break_even_price w) (_futures_leverage w) (_futures_margin_mode w) (_last_position_sync w) (_pending_strategy_settings w) (_last_close_timestamp w) (_last_close_price w) (needs_resync w) (trades_closed w).

Definition set_strategy (v : BaseStrategy) (w : PairWorker) : PairWorker :=
  Build_PairWorker (pair_name w) (mode w) (strategy_settings w) v (running w) (candles w) (_last_candle_version w) (position_open w) (order_in_progress w) (direction w) (entry_price w) (take_profit_price w) (stop_loss_price w) (safety_orders_used w) (total_qty w) (total_cost w) (average_price w) (last_order_usdt w) (_safety_order_in_progress w) (break_even_armed w) (break_even_price w) (_futures_leverage w) (_futures_margin_mode w) (_last_position_sync w) (_pending_strategy_settings w) (_last_close_timestamp w) (_last_close_price w) (needs_resync w) (trades_closed w).

Definition set_running (v : bool) (w : PairWorker) : PairWorker :=
  Build_PairWorker (pair_name w) (mode w) (strategy_settings w) (strategy w) v (candles w) (_last_candle_version w) (position_open w) (order_in_progress w) (direction w) (entry_price w) (take_profit_price w) (stop_loss_price w) (safety_orders_used w) (total_qty w) (total_cost w) (average_price w) (last_order_usdt w) (_safety_order_in_progress w) (break_even_armed w) (break_even_price w) (_futures_leverage w) (_futures_margin_mode w) (_last_position_sync w) (_pending_strategy_settings w) (_last_close_timestamp w) (_last_close_price w) (needs_resync w) (trades_closed w).

Definition set_candles (v : list Candle) (w : PairWorker) : PairWorker :=
  Build_PairWorker (pair_name w) (mode w) (strategy_settings w) (strategy w) (running w) v (_last_candle_version w) (position_open w) (order_in_progress w) (direction w) (entry_price w) (take_profit_price w) (stop_loss_price w) (safety_orders_used w) (total_qty w) (total_cost w) (average_price w) (last_order_usdt w) (_safety_order_in_progress w) (break_even_armed w) (break_even_price w) (_futures_leverage w) (_futures_margin_mode w) (_last_position_sync w) (_pending_strategy_settings w) (_last_close_timestamp w) (_last_close_price w) (needs_resync w) (trades_closed w).

Definition set_last_candle_version (v : Z) (w : PairWorker) : PairWorker :=
  Build_PairWorker (pair_name w) (mode w) (strategy_settings w) (strategy w) (running w) (candles w) v (position_open w) (order_in_progress w) (direction w) (entry_price w) (take_profit_price w) (stop_loss_price w) (safety_orders_used w) (total_qty w) (total_cost w) (average_price w) (last_order_usdt w) (_safety_order_in_progress w) (break_even_armed w) (break_even_price w) (_futures_leverage w) (_futures_margin_mode w) (_last_position_sync w) (_pending_strategy_settings w) (_last_close_timestamp w) (_last_close_price w) (needs_resync w) (trades_closed w).

Definition set_position_open (v : bool) (w : PairWorker) : PairWorker :=
  Build_PairWorker (pair_name w) (mode w) (strategy_settings w) (strategy w) (running w) (candles w) (_last_candle_version w) v (order_in_progress w) (direction w) (entry_price w) (take_profit_price w) (stop_loss_price w) (safety_orders_used w) (total_qty w) (total_cost w) (average_price w) (last_order_usdt w) (_safety_order_in_progress w) (break_even_armed w) (break_even_price w) (_futures_leverage w) (_futures_margin_mode w) (_last_position_sync w) (_pending_strategy_settings w) (_last_close_timestamp w) (_last_close_price w) (needs_resync w) (trades_closed w).

Definition set_order_in_progress (v : bool) (w : PairWorker) : PairWorker :=
  Build_PairWorker (pair_name w) (mode w) (strategy_settings w) (strategy w) (running w) (candles w) (_last_candle_version w) (position_open w) v (direction w) (entry_price w) (take_profit_price w) (stop_loss_price w) (safety_orders_used w) (total_qty w) (total_cost w) (average_price w) (last_order_usdt w) (_safety_order_in_progress w) (break_even_armed w) (break_even_price w) (_futures_leverage w) (_futures_margin_mode w) (_last_position_sync w) (_pending_strategy_settings w) (_last_close_timestamp w) (_last_close_price w) (needs_resync w) (trades_closed w).

Definition set_direction (v : string) (w : PairWorker) : PairWorker :=
  Build_PairWorker (pair_name w) (mode w) (strategy_settings w) (strategy w) (running w) (candles w) (_last_candle_version w) (position_open w) (order_in_progress w) v (entry_price w) (take_profit_price w) (stop_loss_price w) (safety_orders_used w) (total_qty w) (total_cost w) (average_price w) (last_order_usdt w) (_safety_order_in_progress w) (break_even_armed w) (break_even_price w) (_futures_leverage w) (_futures_margin_mode w) (_last_position_sync w) (_pending_strategy_settings w) (_last_close_timestamp w) (_last_close_price w) (needs_resync w) (trades_closed w).

Definition set_entry_price (v : option Q) (w : PairWorker) : PairWorker :=
  Build_PairWorker (pair_name w) (mode w) (strategy_settings w) (strategy w) (running w) (candles w) (_last_candle_version w) (position_open w) (order_in_progress w) (direction w) v (take_profit_price w) (stop_loss_price w) (safety_orders_used w) (total_qty w) (total_cost w) (average_price w) (last_order_usdt w) (_safety_order_in_progress w) (break_even_armed w) (break_even_price w) (_futures_leverage w) (_futures_margin_mode w) (_last_position_sync w) (_pending_strategy_settings w) (_last_close_timestamp w) (_last_close_price w) (needs_resync w) (trades_closed w).

Definition set_take_profit_price (v : option Q) (w : PairWorker) : PairWorker :=
  Build_PairWorker (pair_name w) (mode w) (strategy_settings w) (strategy w) (running w) (candles w) (_last_candle_version w) (position_open w) (order_in_progress w) (direction w) (entry_price w) v (stop_loss_price w) (safety_orders_used w) (total_qty w) (total_cost w) (average_price w) (last_order_usdt w) (_safety_order_in_progress w) (break_even_armed w) (break_even_price w) (_futures_leverage w) (_futures_margin_mode w) (_last_position_sync w) (_pending_strategy_settings w) (_last_close_timestamp w) (_last_close_price w) (needs_resync w) (trades_closed w).

Definition set_stop_loss_price (v : option Q) (w : PairWorker) : PairWorker :=
  Build_PairWorker (pair_name w) (mode w) (strategy_settings w) (strategy w) (running w) (candles w) (_last_candle_version w) (position_open w) (order_in_progress w) (direction w) (entry_price w) (take_profit_price w) v (safety_orders_used w) (total_qty w) (total_cost w) (average_price w) (last_order_usdt w) (_safety_order_in_progress w) (break_even_armed w) (break_even_price w) (_futures_leverage w) (_futures_margin_mode w) (_last_position_sync w) (_pending_strategy_settings w) (_last_close_timestamp w) (_last_close_price w) (needs_resync w) (trades_closed w).

Definition set_safety_orders_used (v : Z) (w : PairWorker) : PairWorker :=
  Build_PairWorker (pair_name w) (mode w) (strategy_settings w) (strategy w) (running w) (candles w) (_last_candle_version w) (position_open w) (order_in_progress w) (direction w) (entry_price w) (take_profit_price w) (stop_loss_price w) v (total_qty w) (total_cost w) (average_price w) (last_order_usdt w) (_safety_order_in_progress w) (break_even_armed w) (break_even_price w) (_futures_leverage w) (_futures_margin_mode w) (_last_position_sync w) (_pending_strategy_settings w) (_last_close_timestamp w) (_last_close_price w) (needs_resync w) (trades_closed w).

Definition set_total_qty (v : Q) (w : PairWorker) : PairWorker :=
  Build_PairWorker (pair_name w) (mode w) (strategy_settings w) (strategy w) (running w) (candles w) (_last_candle_version w) (position_open w) (order_in_progress w) (direction w) (entry_price w) (take_profit_price w) (stop_loss_price w) (safety_orders_used w) v (total_cost w) (average_price w) (last_order_usdt w) (_safety_order_in_progress w) (break_even_armed w) (break_even_price w) (_futures_leverage w) (_futures_margin_mode w) (_last_position_sync w) (_pending_strategy_settings w) (_last_close_timestamp w) (_last_close_price w) (needs_resync w) (trades_closed w).

Definition set_total_cost (v : Q) (w : PairWorker) : PairWorker :=
  Build_PairWorker (pair_name w) (mode w) (strategy_settings w) (strategy w) (running w) (candles w) (_last_candle_version w) (position_open w) (order_in_progress w) (direction w) (entry_price w) (take_profit_price w) (stop_loss_price w) (safety_orders_used w) (total_qty w) v (average_price w) (last_order_usdt w) (_safety_order_in_progress w) (break_even_armed w) (break_even_price w) (_futures_leverage w) (_futures_margin_mode w) (_last_position_sync w) (_pending_strategy_settings w) (_last_close_timestamp w) (_last_close_price w) (needs_resync w) (trades_closed w).

Definition set_average_price (v : Q) (w : PairWorker) : PairWorker :=
  Build_PairWorker (pair_name w) (mode w) (strategy_settings w) (strategy w) (running w) (candles w) (_last_candle_version w) (position_open w) (order_in_progress w) (direction w) (entry_price w) (take_profit_price w) (stop_loss_price w) (safety_orders_used w) (total_qty w) (total_cost w) v (last_order_usdt w) (_safety_order_in_progress w) (break_even_armed w) (break_even_price w) (_futures_leverage w) (_futures_margin_mode w) (_last_position_sync w) (_pending_strategy_settings w) (_last_close_timestamp w) (_last_close_price w) (needs_resync w) (trades_closed w).

Definition set_last_order_usdt (v : Q) (w : PairWorker) : PairWorker :=
  Build_PairWorker (pair_name w) (mode w) (strategy_settings w) (strategy w) (running w) (candles w) (_last_candle_version w) (position_open w) (order_in_progress w) (direction w) (entry_price w) (take_profit_price w) (stop_loss_price w) (safety_orders_used w) (total_qty w) (total_cost w) (average_price w) v (_safety_order_in_progress w) (break_even_armed w) (break_even_price w) (_futures_leverage w) (_futures_margin_mode w) (_last_position_sync w) (_pending_strategy_settings w) (_last_close_timestamp w) (_last_close_price w) (needs_resync w) (trades_closed w).

Definition set_safety_order_in_progress (v : bool) (w : PairWorker) : PairWorker :=
  Build_PairWorker (pair_name w) (mode w) (strategy_settings w) (strategy w) (running w) (candles w) (_last_candle_version w) (position_open w) (order_in_progress w) (direction w) (entry_price w) (take_profit_price w) (stop_loss_price w) (safety_orders_used w) (total_qty w) (total_cost w) (average_price w) (last_order_usdt w) v (break_even_armed w) (break_even_price w) (_futures_leverage w) (_futures_margin_mode w) (_last_position_sync w) (_pending_strategy_settings w) (_last_close_timestamp w) (_last_close_price w) (needs_resync w) (trades_closed w).

Definition set_break_even_armed (v : bool) (w : PairWorker) : PairWorker :=
  Build_PairWorker (pair_name w) (mode w) (strategy_settings w) (strategy w) (running w) (candles w) (_last_candle_version w) (position_open w) (order_in_progress w) (direction w) (entry_price w) (take_profit_price w) (stop_loss_price w) (safety_orders_used w) (total_qty w) (total_cost w) (average_price w) (last_order_usdt w) (_safety_order_in_progress w) v (break_even_price w) (_futures_leverage w) (_futures_margin_mode w) (_last_position_sync w) (_pending_strategy_settings w) (_last_close_timestamp w) (_last_close_price w) (needs_resync w) (trades_closed w).

Definition set_break_even_price (v : Q) (w : PairWorker) : PairWorker :=
  Build_PairWorker (pair_name w) (mode w) (strategy_settings w) (strategy w) (running w) (candles w) (_last_candle_version w) (position_open w) (order_in_progress w) (direction w) (entry_price w) (take_profit_price w) (stop_loss_price w) (safety_orders_used w) (total_qty w) (total_cost w) (average_price w) (last_order_usdt w) (_safety_order_in_progress w) (break_even_armed w) v (_futures_leverage w) (_futures_margin_mode w) (_last_position_sync w) (_pending_strategy_settings w) (_last_close_timestamp w) (_last_close_price w) (needs_resync w) (trades_closed w).

Definition set_futures_leverage (v : option Z) (w : PairWorker) : PairWorker :=
  Build_PairWorker (pair_name w) (mode w) (strategy_settings w) (strategy w) (running w) (candles w) (_last_candle_version w) (position_open w) (order_in_progress w) (direction w) (entry_price w) (take_profit_price w) (stop_loss_price w) (safety_orders_used w) (total_qty w) (total_cost w) (average_price w) (last_order_usdt w) (_safety_order_in_progress w) (break_even_armed w) (break_even_price w) v (_futures_margin_mode w) (_last_position_sync w) (_pending_strategy_settings w) (_last_close_timestamp w) (_last_close_price w) (needs_resync w) (trades_closed w).

Definition set_futures_margin_mode (v : option string) (w : PairWorker) : PairWorker :=
  Build_PairWorker (pair_name w) (mode w) (strategy_settings w) (strategy w) (running w) (candles w) (_last_candle_version w) (position_open w) (order_in_progress w) (direction w) (entry_price w) (take_profit_price w) (stop_loss_price w) (safety_orders_used w) (total_qty w) (total_cost w) (average_price w) (last_order_usdt w) (_safety_order_in_progress w) (break_even_armed w) (break_even_price w) (_futures_leverage w) v (_last_position_sync w) (_pending_strategy_settings w) (_last_close_timestamp w) (_last_close_price w) (needs_resync w) (trades_closed w).

Definition set_last_position_sync (v : Q) (w : PairWorker) : PairWorker :=
  Build_PairWorker (pair_name w) (mode w) (strategy_settings w) (strategy w) (running w) (candles w) (_last_candle_version w) (position_open w) (order_in_progress w) (direction w) (entry_price w) (take_profit_price w) (stop_loss_price w) (safety_orders_used w) (total_qty w) (total_cost w) (average_price w) (last_order_usdt w) (_safety_order_in_progress w) (break_even_armed w) (break_even_price w) (_futures_leverage w) (_futures_margin_mode w) v (_pending_strategy_settings w) (_last_close_timestamp w) (_last_close_price w) (needs_resync w) (trades_closed w).

Definition set_pending_strategy_settings (v : option StrategySettings) (w : PairWorker) : PairWorker :=
  Build_PairWorker (pair_name w) (mode w) (strategy_settings w) (strategy w) (running w) (candles w) (_last_candle_version w) (position_open w) (order_in_progress w) (direction w) (entry_price w) (take_profit_price w) (stop_loss_price w) (safety_orders_used w) (total_qty w) (total_cost w) (average_price w) (last_order_usdt w) (_safety_order_in_progress w) (break_even_armed w) (break_even_price w) (_futures_leverage w) (_futures_margin_mode w) (_last_position_sync w) v (_last_close_timestamp w) (_last_close_price w) (needs_resync w) (trades_closed w).

Definition set_last_close_timestamp (v : Q) (w : PairWorker) : PairWorker :=
  Build_PairWorker (pair_name w) (mode w) (strategy_settings w) (strategy w) (running w) (candles w) (_last_candle_version w) (position_open w) (order_in_progress w) (direction w) (entry_price w) (take_profit_price w) (stop_loss_price w) (safety_orders_used w) (total_qty w) (total_cost w) (average_price w) (last_order_usdt w) (_safety_order_in_progress w) (break_even_armed w) (break_even_price w) (_futures_leverage w) (_futures_margin_mode w) (_last_position_sync w) (_pending_strategy_settings w) v (_last_close_price w) (needs_resync w) (trades_closed w).

Definition set_last_close_price (v : Q) (w : PairWorker) : PairWorker :=
  Build_PairWorker (pair_name w) (mode w) (strategy_settings w) (strategy w) (running w) (candles w) (_last_candle_version w) (position_open w) (order_in_progress w) (direction w) (entry_price w) (take_profit_price w) (stop_loss_price w) (safety_orders_used w) (total_qty w) (total_cost w) (average_price w) (last_order_usdt w) (_safety_order_in_progress w) (break_even_armed w) (break_even_price w) (_futures_leverage w) (_futures_margin_mode w) (_last_position_sync w) (_pending_strategy_settings w) (_last_close_timestamp w) v (needs_resync w) (trades_closed w).

Definition set_needs_resync (v : bool) (w : PairWorker) : PairWorker :=
  Build_PairWorker (pair_name w) (mode w) (strategy_settings w) (strategy w) (running w) (candles w) (_last_candle_version w) (position_open w) (order_in_progress w) (direction w) (entry_price w) (take_profit_price w) (stop_loss_price w) (safety_orders_used w) (total_qty w) (total_cost w) (average_price w) (last_order_usdt w) (_safety_order_in_progress w) (break_even_armed w) (break_even_price w) (_futures_leverage w) (_futures_margin_mode w) (_last_position_sync w) (_pending_strategy_settings w) (_last_close_timestamp w) (_last_close_price w) v (trades_closed w).

Definition set_trades_closed (v : list TradeReport) (w : PairWorker) : PairWorker :=
  Build_PairWorker (pair_name w) (mode w) (strategy_settings w) (strategy w) (running w) (candles w) (_last_candle_version w) (position_open w) (order_in_progress w) (direction w) (entry_price w) (take_profit_price w) (stop_loss_price w) (safety_orders_used w) (total_qty w) (total_cost w) (average_price w) (last_order_usdt w) (_safety_order_in_progress w) (break_even_armed w) (break_even_price w) (_futures_leverage w) (_futures_margin_mode w) (_last_position_sync w) (_pending_strategy_settings w) (_last_close_timestamp w) (_last_close_price w) (needs_resync w) v.

(** A method of the worker ends normally or by an exception; either way the
    attributes it has assigned so far stay assigned. *)
Definition result : Type := PairWorker * outcome.

Definition done (w : PairWorker) : result := (w, Normal).
Definition raised (w : PairWorker) : result := (w, Raised).

(** Sequencing: the continuation runs unless the first part raised. *)
Definition and_then (r : result) (k : PairWorker -> result) : result :=
  match r with
  | (w, Normal) => k w
  | (w, Raised) => (w, Raised)
  end.

(** [try: ... finally: f]. *)
Definition finally (r : result) (f : PairWorker -> PairWorker) : result :=
  (f (fst r), snd r).

(** [_is_futures_mode]. *)
Definition _is_futures_mode (w : PairWorker) : bool :=
  enable_futures (strategy_settings w) && String.eqb (lower (mode w)) "futures".

(** [_recalculate_tp]. *)
Definition _recalculate_tp (w : PairWorker) : PairWorker :=
  set_take_profit_price
    (Some (if String.eqb (direction w) "LONG"
           then average_price w * (1 + take_profit_pct (strategy_settings w) / 100)
           else average_price w * (1 - take_profit_pct (strategy_settings w) / 100)))
    w.

(** [_recalculate_sl]. *)
Definition _recalculate_sl (w : PairWorker) : PairWorker :=
  set_stop_loss_price
    (Some (if String.eqb (direction w) "LONG"
           then average_price w * (1 - stop_loss_pct (strategy_settings w) / 100)
           else average_price w * (1 + stop_loss_pct (strategy_settings w) / 100)))
    w.

(** [_is_sl_active]. *)
Definition _is_sl_active (w : PairWorker) : bool :=
  let mode := stop_loss_mode (strategy_settings w) in
  if String.eqb mode "Off" then false
  else if String.eqb mode "Always" then true
  else if String.eqb mode "After Last Safety"
       then (safety_orders_count (strategy_settings w) <=? safety_orders_used w)%Z
       else false.

(** [refresh_protection_orders]: the worker recomputes its two prices; the
    orders themselves are placed by [set_futures_protection], which catches
    what the exchange raises and leaves the worker as it is. *)
Definition refresh_protection_orders (w : PairWorker) : PairWorker :=
  if negb (_is_futures_mode w) || negb (position_open w) then w
  else _recalculate_sl (_recalculate_tp w).

(** [_reset_position_state]. *)
Definition _reset_position_state (w : PairWorker) : PairWorker :=
  set_break_even_price 0
    (set_break_even_armed false
      (set_safety_order_in_progress false
        (set_last_order_usdt 0
          (set_average_price 0
            (set_total_cost 0
              (set_total_qty 0
                (set_safety_orders_used 0%Z
                  (set_stop_loss_price None
                    (set_take_profit_price None
                      (set_entry_price None
                        (set_order_in_progress false
                          (set_position_open false w)))))))))))).

(** [_sync_latest_candles]. *)
Definition _sync_latest_candles (feed : WebSocketManager) (w : PairWorker)
  : PairWorker :=
  match default [] (Feed.candles feed !! KStr (pair_name w)) with
  | [] => w
  | cache => set_candles (tail_n 200 cache) w
  end.

(** [_is_entry_blocked]; [now] is the event-loop clock. *)
Definition _is_entry_blocked (feed : WebSocketManager) (now : Q)
  (w : PairWorker) : bool :=
  let cooldown_sec := Qmax 0 (cooldown_minutes (strategy_settings w) * 60) in
  if Qgtb cooldown_sec 0 && Qltb (now - _last_close_timestamp w) cooldown_sec
  then true
  else
    match price_of (prices feed) (pair_name w) with
    | Some price =>
        if Qgtb (_last_close_price w) 0 then
          let delta_pct :=
            Qabs (price - _last_close_price w) / _last_close_price w * 100 in
          Qltb delta_pct (anti_reentry_threshold_pct (strategy_settings w))
        else false
    | None => false
    end.

(** [_ensure_futures_config]: an exception of [configure_futures] is caught
    and the remembered configuration is then not updated. *)
Definition _ensure_futures_config (exchange : Exchange) (w : PairWorker)
  : PairWorker :=
  let margin_api :=
    if String.eqb (lower (margin_mode (strategy_settings w))) "cross"
    then "Cross" else "Isolated" in
  if negb (bool_decide (_futures_margin_mode w = Some margin_api))
     || negb (bool_decide (_futures_leverage w = Some (leverage (strategy_settings w))))
  then
    match set_margin_type_and_leverage exchange with
    | Raises => w
    | Returns _ =>
        set_futures_leverage (Some (leverage (strategy_settings w)))
          (set_futures_margin_mode (Some margin_api) w)
    end
  else w.

(** The body of [_open_order_with_usdt] after a fill of [qty] at [price]:
    the statements from [commission = ...] on.  The division raises
    ZeroDivisionError when the accumulated quantity is zero; the
    assignments before it have then been made. *)
Definition apply_fill (fill : Fill) (w : PairWorker) : result :=
  let qty := quantity fill in
  let price := fill_price fill in
  let commission := (commission_pct (strategy_settings w) / 100) * qty * price in
  let w1 := set_position_open true w in
  let w2 := set_entry_price
              (match entry_price w1 with Some e => Some e | None => Some price end)
              w1 in
  let w3 := set_total_qty (total_qty w2 + qty) w2 in
  let w4 := set_total_cost (total_cost w3 + (qty * price + commission)) w3 in
  if Qeqb (total_qty w4) 0 then raised w4
  else
    let w5 := set_average_price (total_cost w4 / total_qty w4) w4 in
    let w6 := _recalculate_sl (_recalculate_tp w5) in
    let w7 := set_break_even_price (average_price w6) w6 in
    let w8 := if _is_futures_mode w7
                 && protection_orders_on_exchange (strategy_settings w7)
              then refresh_protection_orders w7 else w7 in
    done w8.

(** The three ways [_open_order_with_usdt] obtains a fill: simulated at the
    ticker price in Paper mode, [open_position_futures] (anything but a dict
    counts as no fill), or [open_position_spot]. *)
Definition obtain_fill (feed : WebSocketManager) (exchange : Exchange)
  (usdt_amount : Q) (w : PairWorker) : reply (option Fill) :=
  if String.eqb (run_mode (strategy_settings w)) "Paper" then
    match price_of (prices feed) (pair_name w) with
    | None => Returns None
    | Some current_price =>
        if Qleb current_price 0 then Returns None
        else Returns (Some {| quantity := usdt_amount / current_price;
                              fill_price := current_price |})
    end
  else if _is_futures_mode w then
    match open_position_futures (prices feed) exchange (pair_name w)
            (direction w) usdt_amount
            (use_market_order (strategy_settings w))
            (order_timeout_sec (strategy_settings w)) with
    | Raises => Raises
    | Returns (FuturesDict fill) => Returns (Some fill)
    | Returns _ => Returns None
    end
  else
    open_position_spot (prices feed) exchange (pair_name w) usdt_amount
      (use_market_order (strategy_settings w))
      (order_timeout_sec (strategy_settings w)).

(** [_open_order_with_usdt]. *)
Definition _open_order_with_usdt (feed : WebSocketManager) (exchange : Exchange)
  (usdt_amount : Q) (w : PairWorker) : result :=
  if order_in_progress w then done w
  else
    let w1 := set_last_order_usdt usdt_amount (set_order_in_progress true w) in
    finally
      (match obtain_fill feed exchange usdt_amount w1 with
       | Raises => raised w1
       | Returns None => done w1
       | Returns (Some fill) => apply_fill fill w1
       end)
      (set_order_in_progress false).

(** [_open_initial_position]; [current_exposure] is what the exposure
    provider returns (0 without one). *)
Definition _open_initial_position (feed : WebSocketManager) (exchange : Exchange)
  (current_exposure : Q) (w : PairWorker) : result :=
  if position_open w || order_in_progress w then done w
  else if String.eqb (run_mode (strategy_settings w)) "Backtest" then done w
  else
    let w1 :=
      if _is_futures_mode w
      then set_direction (upper (futures_position_side (strategy_settings w)))
             (_ensure_futures_config exchange w)
      else set_direction "LONG" w in
    match calculate_entry_size_usdt (prices feed) exchange (pair_name w1)
            (strategy_settings w1) (_is_futures_mode w1)
            (if _is_futures_mode w1 then leverage (strategy_settings w1) else 1%Z)
            current_exposure with
    | Raises => raised w1
    | Returns None => done w1
    | Returns (Some base_usdt) => _open_order_with_usdt feed exchange base_usdt w1
    end.

(** [_process_closed_candle_if_needed].  The pandas import is taken to
    succeed; [ie] is the indicator library. *)
Definition _process_closed_candle_if_needed (ie : IndicatorEngine)
  (feed : WebSocketManager) (now : Q) (exchange : Exchange)
  (current_exposure : Q) (w : PairWorker) : result :=
  let version := default 0%Z (candle_versions feed !! KStr (pair_name w)) in
  if (version =? 0)%Z || (version =? _last_candle_version w)%Z then done w
  else
    let w1 := set_last_candle_version version w in
    let min_len := Z.max (Z.max (ema_period (strategy_settings w1))
                                (rsi_period (strategy_settings w1)))
                         (adx_period (strategy_settings w1)) in
    if (Z.of_nat (List.length (candles w1)) <? min_len)%Z then done w1
    else
      let '(strategy', signal) :=
        generate_signal ie (strategy w1) (Some (candles w1)) in
      let w2 := set_strategy strategy' w1 in
      if bool_decide (signal = Some "LONG")
         && negb (position_open w2) && negb (order_in_progress w2)
      then
        if _is_entry_blocked feed now w2 then done w2
        else _open_initial_position feed exchange current_exposure w2
      else done w2.

(** [_close_position]: how the close is obtained in the three modes. *)
Definition obtain_close (feed : WebSocketManager) (exchange : Exchange)
  (w : PairWorker) : reply (option Fill) :=
  if String.eqb (run_mode (strategy_settings w)) "Paper" then
    match price_of (prices feed) (pair_name w) with
    | None => Returns None
    | Some paper_price =>
        Returns (Some {| quantity := total_qty w; fill_price := paper_price |})
    end
  else if _is_futures_mode w then
    close_position_futures (prices feed) exchange (pair_name w)
  else
    close_position_spot (prices feed) exchange (pair_name w) (total_qty w).

(** The PnL computed by [_close_position] for a close of [qty] at
    [exit_price]. *)
Definition close_pnl (w : PairWorker) (exit_price qty : Q) : Q :=
  let exit_commission :=
    (commission_pct (strategy_settings w) / 100) * qty * exit_price in
  let gross := if String.eqb (direction w) "LONG"
               then exit_price * qty
               else (2 * average_price w - exit_price) * qty in
  (gross - exit_commission) - total_cost w.

(** [_close_position]. *)
Definition _close_position (feed : WebSocketManager) (exchange : Exchange)
  (now : Q) (w : PairWorker) : result :=
  match obtain_close feed exchange w with
  | Raises => raised w
  | Returns None => done w
  | Returns (Some close_result) =>
      let exit_price := fill_price close_result in
      let qty := quantity close_result in
      let pnl := close_pnl w exit_price qty in
      let w1 := set_trades_closed
                  ({| report_pair := pair_name w; report_pnl := pnl;
                      report_mode := mode w; report_direction := direction w |}
                   :: trades_closed w) w in
      let w2 := set_last_close_timestamp now w1 in
      let w3 := set_last_close_price exit_price w2 in
      let w4 := _reset_position_state w3 in
      match _pending_strategy_settings w4 with
      | None => done w4
      | Some pending =>
          done (set_pending_strategy_settings None
                  (set_strategy (new_strategy pending)
                     (set_strategy_settings pending w4)))
      end
  end.

(** [_process_dca].  The log line that formats [take_profit_price] raises
    TypeError when that attribute is [None]. *)
Definition _process_dca (feed : WebSocketManager) (exchange : Exchange)
  (w : PairWorker) : result :=
  if negb (position_open w) || _safety_order_in_progress w || order_in_progress w
  then done w
  else if (safety_orders_count (strategy_settings w) <=? safety_orders_used w)%Z
  then done w
  else
    match price_of (prices feed) (pair_name w) with
    | None => done w
    | Some price =>
        if Qleb (average_price w) 0 then done w
        else
          let step := safety_step_pct (strategy_settings w) / 100 in
          let should_place :=
            if String.eqb (direction w) "LONG"
            then Qleb price (average_price w * (1 - step))
            else Qgeb price (average_price w * (1 + step)) in
          if negb should_place then done w
          else
            let w1 := set_safety_order_in_progress true w in
            let safety_usdt :=
              last_order_usdt w1 * volume_multiplier (strategy_settings w1) in
            finally
              (and_then (_open_order_with_usdt feed exchange safety_usdt w1)
                 (fun w2 =>
                    if negb (position_open w2) then done w2
                    else
                      let w3 := set_last_order_usdt safety_usdt w2 in
                      let w4 := set_safety_orders_used
                                  (safety_orders_used w3 + 1)%Z w3 in
                      let w5 := set_break_even_price (average_price w4) w4 in
                      match take_profit_price w5 with
                      | None => raised w5
                      | Some _ =>
                          let w6 :=
                            if _is_futures_mode w5
                               && protection_orders_on_exchange (strategy_settings w5)
                               && String.eqb (stop_loss_mode (strategy_settings w5))
                                             "After Last Safety"
                               && (safety_orders_count (strategy_settings w5)
                                   <=? safety_orders_used w5)%Z
                            then _recalculate_sl w5 else w5 in
                          let w7 :=
                            if _is_futures_mode w6
                               && protection_orders_on_exchange (strategy_settings w6)
                            then refresh_protection_orders w6 else w6 in
                          done w7
                      end))
              (set_safety_order_in_progress false)
    end.

(** [_check_break_even].  The profit percentage divides by the average
    price. *)
Definition _check_break_even (feed : WebSocketManager) (exchange : Exchange)
  (now : Q) (w : PairWorker) : result :=
  if negb (_is_futures_mode w) || negb (position_open w) then done w
  else
    match price_of (prices feed) (pair_name w) with
    | None => done w
    | Some price =>
        let trigger (w : PairWorker) : result :=
          if break_even_armed w then
            if String.eqb (direction w) "LONG" && Qleb price (break_even_price w)
            then _close_position feed exchange now w
            else if String.eqb (direction w) "SHORT"
                    && Qgeb price (break_even_price w)
            then _close_position feed exchange now w
            else done w
          else done w in
        if negb (break_even_armed w) then
          if Qeqb (average_price w) 0 then raised w
          else
            let profit_pct :=
              if String.eqb (direction w) "LONG"
              then (price - average_price w) / average_price w * 100
              else (average_price w - price) / average_price w * 100 in
            if Qgeb profit_pct (break_even_after_percent (strategy_settings w))
            then done (set_break_even_price (average_price w)
                         (set_break_even_armed true w))
            else trigger w
        else trigger w
    end.

(** [_check_take_profit]. *)
Definition _check_take_profit (feed : WebSocketManager) (exchange : Exchange)
  (now : Q) (w : PairWorker) : result :=
  if negb (position_open w) then done w
  else
    match take_profit_price w, price_of (prices feed) (pair_name w) with
    | Some take_profit, Some price =>
        if String.eqb (direction w) "LONG" && Qgeb price take_profit
        then _close_position feed exchange now w
        else if String.eqb (direction w) "SHORT" && Qleb price take_profit
        then _close_position feed exchange now w
        else done w
    | _, _ => done w
    end.

(** [_periodic_position_sync]: an exception of [get_position] is caught. *)
Definition _periodic_position_sync (exchange : Exchange) (now : Q)
  (w : PairWorker) : result :=
  if Qltb (now - _last_position_sync w) 30 then done w
  else
    let w1 := set_last_position_sync now w in
    match get_position exchange with
    | Raises => done w1
    | Returns position =>
        let real_qty := Qabs (default 0 (positionAmt position)) in
        if position_open w1 && Qeqb real_qty 0
        then done (_reset_position_state w1)
        else if position_open w1 && _is_futures_mode w1
                && Qgtb (Qabs (real_qty - total_qty w1)) (1 # 1000000)
        then
          let entry := default (average_price w1) (entryPrice position) in
          let w2 := set_total_qty real_qty w1 in
          let w3 := set_average_price entry w2 in
          let w4 := set_total_cost (average_price w3 * total_qty w3) w3 in
          done (_recalculate_tp w4)
        else done w1
    end.

(** What one iteration of [run_loop] observes: the feed, the clock, the
    exposure reported by the manager, and the answers of the exchange to
    each of the methods that may call it. *)
Record Tick := {
  feed : WebSocketManager;
  now : Q;
  current_exposure : Q;
  entry_exchange : Exchange;
  dca_exchange : Exchange;
  break_even_exchange : Exchange;
  take_profit_exchange : Exchange;
  sync_exchange : Exchange
}.

(** The body of the [while self.running] loop of [run_loop]: the six steps
    in order; an exception ends the iteration, is logged, and the loop goes
    on with the next one. *)
Definition run_loop_iteration (ie : IndicatorEngine) (t : Tick)
  (w : PairWorker) : result :=
  and_then (done (_sync_latest_candles (feed t) w)) (fun w =>
  and_then (_process_closed_candle_if_needed ie (feed t) (now t)
              (entry_exchange t) (current_exposure t) w) (fun w =>
  and_then (_process_dca (feed t) (dca_exchange t) w) (fun w =>
  and_then (_check_break_even (feed t) (break_even_exchange t) (now t) w) (fun w =>
  and_then (_check_take_profit (feed t) (take_profit_exchange t) (now t) w) (fun w =>
  _periodic_position_sync (sync_exchange t) (now t) w))))).

(** [PairWorker.__init__]. *)
Definition new_worker (pair_name mode : string) (settings : StrategySettings)
  : PairWorker := {|
  pair_name := pair_name;
  mode := mode;
  strategy_settings := settings;
  strategy := new_strategy settings;
  running := false;
  candles := [];
  _last_candle_version := 0;
  position_open := false;
  order_in_progress := false;
  direction := "LONG";
  entry_price := None;
  take_profit_price := None;
  stop_loss_price := None;
  safety_orders_used := 0;
  total_qty := 0;
  total_cost := 0;
  average_price := 0;
  last_order_usdt := 0;
  _safety_order_in_progress := false;
  break_even_armed := false;
  break_even_price := 0;
  _futures_leverage := None;
  _futures_margin_mode := None;
  _last_position_sync := 0;
  _pending_strategy_settings := None;
  _last_close_timestamp := 0;
  _last_close_price := 0;
  needs_resync := false;
  trades_closed := []
|}.

(** The runtime invariants of the data model (PairRuntime). *)
Definition runtime_invariants (w : PairWorker) : Prop :=
  (position_open w = true <-> 0 < total_qty w)
  /\ (0 < total_qty w -> average_price w == total_cost w / total_qty w)
  /\ (safety_orders_used w <= safety_orders_count (strategy_settings w))%Z.

End Worker.

(** ** core/backtest_engine.py *)

Module Backtest.
Import Strategy.

(** [BacktestPosition]. *)
Record BacktestPosition := {
  direction : string;
  total_qty : Q;
  total_cost : Q;
  average_price : Q;
  last_order_usdt : Q;
  safety_orders_used : Z;
  break_even_armed : bool
}.

(** A row of the frame after the vectorized pre-calculation of
    [run_backtest]: the close and the three indicator columns computed by
    pandas_ta, [None] where the column holds NaN. *)
Record Bar := {
  bar_close : Q;
  rsi : option Q;
  ema : option Q;
  adx : option Q
}.

(** [simulate_trade]. *)
Definition simulate_trade (direction : string) (usdt_amount price : Q)
  : BacktestPosition :=
  let qty := usdt_amount / Qmax price (1 # 1000000000) in
  {| direction := upper direction;
     total_qty := qty;
     total_cost := qty * price;
     average_price := price;
     last_order_usdt := usdt_amount;
     safety_orders_used := 0;
     break_even_armed := false |}.

(** [BacktestEngine._close_position]. *)
Definition _close_position (position : BacktestPosition)
  (exit_price commission_pct : Q) : Q :=
  let qty := total_qty position in
  let commission := (commission_pct / 100) * qty * exit_price in
  let gross := if String.eqb (direction position) "LONG"
               then qty * exit_price
               else qty * (2 * average_price position - exit_price) in
  (gross - commission) - total_cost position.

(** The variables of the loop of [run_backtest]; the two lists grow at
    their end. *)
Record Run := {
  position : option BacktestPosition;
  equity_curve : list Q;
  trade_results : list Q;
  cumulative_pnl : Q
}.

Definition start : Run :=
  {| position := None; equity_curve := [0]; trade_results := [];
     cumulative_pnl := 0 |}.

(** The entry signal computed inside the loop. *)
Definition bar_signal (strategy_settings : StrategySettings)
  (price row_rsi row_ema row_adx : Q) : option string :=
  if Qltb row_rsi (rsi_level strategy_settings) && Qgtb price row_ema
     && Qgtb row_adx 20
  then Some "LONG"
  else if Qgtb row_rsi (rsi_level strategy_settings) && Qltb price row_ema
          && Qgtb row_adx 20
  then Some "SHORT"
  else None.

(** [self.equity_curve.append(cumulative_pnl)]. *)
Definition append_equity (r : Run) : Run :=
  {| position := position r;
     equity_curve := (equity_curve r ++ [cumulative_pnl r])%list;
     trade_results := trade_results r;
     cumulative_pnl := cumulative_pnl r |}.

(** The two places where the loop closes the position. *)
Definition close_at (strategy_settings : StrategySettings)
  (pos : BacktestPosition) (price : Q) (r : Run) : Run :=
  let pnl := _close_position pos price (commission_pct strategy_settings) in
  {| position := None;
     equity_curve := equity_curve r;
     trade_results := (trade_results r ++ [pnl])%list;
     cumulative_pnl := cumulative_pnl r + pnl |}.

(** The DCA block of the loop. *)
Definition dca_block (strategy_settings : StrategySettings)
  (pos : BacktestPosition) (price : Q) : BacktestPosition :=
  let step := safety_step_pct strategy_settings / 100 in
  let trigger :=
    if String.eqb (direction pos) "LONG"
    then Qleb price (average_price pos * (1 - step))
    else Qgeb price (average_price pos * (1 + step)) in
  if trigger
     && (safety_orders_used pos <? safety_orders_count strategy_settings)%Z
  then
    let next_usdt := last_order_usdt pos * volume_multiplier strategy_settings in
    let added := simulate_trade (direction pos) next_usdt price in
    let qty := total_qty pos + total_qty added in
    let cost := total_cost pos + total_cost added in
    {| direction := direction pos;
       total_qty := qty;
       total_cost := cost;
       average_price := cost / Qmax qty (1 # 1000000000);
       last_order_usdt := next_usdt;
       safety_orders_used := (safety_orders_used pos + 1)%Z;
       break_even_armed := break_even_armed pos |}
  else pos.

(** The arming part of the break-even block.  The gain divides by the
    average price, which is the bar close of the entry: ZeroDivisionError
    when it is zero. *)
Definition arm_block (strategy_settings : StrategySettings)
  (pos : BacktestPosition) (price : Q) : reply BacktestPosition :=
  if enable_futures strategy_settings && negb (break_even_armed pos) then
    if Qeqb (average_price pos) 0 then Raises
    else
      let gain_pct :=
        if String.eqb (direction pos) "LONG"
        then (price - average_price pos) / average_price pos * 100
        else (average_price pos - price) / average_price pos * 100 in
      if Qgeb gain_pct (break_even_after_percent strategy_settings)
      then Returns {| direction := direction pos;
                      total_qty := total_qty pos;
                      total_cost := total_cost pos;
                      average_price := average_price pos;
                      last_order_usdt := last_order_usdt pos;
                      safety_orders_used := safety_orders_used pos;
                      break_even_armed := true |}
      else Returns pos
  else Returns pos.

(** One iteration of the loop over the rows. *)
Definition bar_step (strategy_settings : StrategySettings) (r : Run) (row : Bar)
  : reply Run :=
  match rsi row, ema row, adx row with
  | Some row_rsi, Some row_ema, Some row_adx =>
      let price := bar_close row in
      let signal := bar_signal strategy_settings price row_rsi row_ema row_adx in
      match position r, signal with
      | None, Some sig =>
          let opened :=
            simulate_trade
              (if enable_futures strategy_settings
               then upper (futures_position_side strategy_settings) else sig)
              (base_order_size_usdt strategy_settings) price in
          Returns (append_equity {| position := Some opened;
                                    equity_curve := equity_curve r;
                                    trade_results := trade_results r;
                                    cumulative_pnl := cumulative_pnl r |})
      | None, None => Returns (append_equity r)
      | Some pos0, _ =>
          let pos1 := dca_block strategy_settings pos0 price in
          match arm_block strategy_settings pos1 price with
          | Raises => Raises
          | Returns pos2 =>
              if enable_futures strategy_settings && break_even_armed pos2
                 && ((String.eqb (direction pos2) "LONG"
                      && Qleb price (average_price pos2))
                     || (String.eqb (direction pos2) "SHORT"
                         && Qgeb price (average_price pos2)))
              then Returns (append_equity (close_at strategy_settings pos2 price r))
              else
                let tp :=
                  if String.eqb (direction pos2) "LONG"
                  then average_price pos2
                       * (1 + take_profit_pct strategy_settings / 100)
                  else average_price pos2
                       * (1 - take_profit_pct strategy_settings / 100) in
                let hit_tp := if String.eqb (direction pos2) "LONG"
                              then Qgeb price tp else Qleb price tp in
                if hit_tp
                then Returns (append_equity (close_at strategy_settings pos2 price r))
                else Returns (append_equity
                                {| position := Some pos2;
                                   equity_curve := equity_curve r;
                                   trade_results := trade_results r;
                                   cumulative_pnl := cumulative_pnl r |})
          end
      end
  | _, _, _ => Returns (append_equity r)
  end.

(** The [for] loop of [run_backtest]. *)
Fixpoint run_rows (strategy_settings : StrategySettings) (rows : list Bar)
  (r : Run) : reply Run :=
  match rows with
  | [] => Returns r
  | row :: rest =>
      match bar_step strategy_settings r row with
      | Raises => Raises
      | Returns r' => run_rows strategy_settings rest r'
      end
  end.

(** [run_backtest]: RuntimeError when no (or an empty) frame is loaded. *)
Definition run_backtest (strategy_settings : StrategySettings) (rows : list Bar)
  : reply Run :=
  match rows with
  | [] => Raises
  | _ => run_rows strategy_settings rows start
  end.

End Backtest.

(** ** core/state_store.py: the application state *)

Module AppStore.
Import Store.

(** The table [app_state] holds at most one row ([id = 1]); its
    [data_json] column is all that is read. *)
Definition AppTable : Type := option string.

(** [save_app_state]: INSERT, and on the conflict of the single row an
    UPDATE of [data_json] from the excluded row. *)
Definition save_app_state {J} `{JsonCodec J} (data_json : J) (table : AppTable)
  : AppTable :=
  let excluded := dumps data_json in
  match table with
  | None => Some excluded
  | Some _ => Some excluded
  end.

(** [load_app_state]: [{}] when the row is missing; [None] when
    [json.loads] raises. *)
Definition load_app_state {J} `{JsonCodec J} (table : AppTable) : option J :=
  match table with
  | None => Some empty_object
  | Some text => loads (or_empty_object text)
  end.

End AppStore.

(** ** core/order_manager.py: the manual close *)

Module OrdersControl.
Import Strategy Feed Orders.

(** [OrderManager.close_position_now], after [cancel_all_orders_for_pair]
    (which catches what the exchange raises): whether a closing market order
    was sent.  The answer to [place_order] is not looked at. *)
Definition close_position_now (exchange : Exchange) (mode : string) : bool :=
  if String.eqb (lower mode) "futures" then
    match get_position exchange with
    | Raises => false
    | Returns pos =>
        let position_amt := default 0 (positionAmt pos) in
        if Qeqb position_amt 0 then false
        else match place_order exchange with
             | Raises => false
             | Returns _ => true
             end
    end
  else
    match get_balance exchange with
    | Raises => false
    | Returns base_balance =>
        let qty := py_round (default 0 base_balance) 6 in
        if Qleb qty 0 then false
        else match place_order exchange with
             | Raises => false
             | Returns _ => true
             end
    end.

End OrdersControl.

(** ** core/pair_manager.py: settings, the manual close, the runtime state *)

Module WorkerControl.
Import Strategy Feed Orders Worker.

(** [PairWorker.update_settings]. *)
Definition update_settings (settings : StrategySettings) (w : PairWorker)
  : PairWorker :=
  if position_open w then set_pending_strategy_settings (Some settings) w
  else set_strategy (new_strategy settings) (set_strategy_settings settings w).

(** What [BotManager.update_pair_strategy_settings] does to the worker of
    the pair: it assigns [worker.mode] and calls [update_settings]. *)
Definition update_pair_strategy_settings (settings : StrategySettings)
  (w : PairWorker) : PairWorker :=
  update_settings settings (set_mode (Strategy.mode settings) w).

(** [PairWorker.close_position_now]; its [try] catches every exception. *)
Definition close_position_now (feed : WebSocketManager) (exchange : Exchange)
  (now : Q) (w : PairWorker) : PairWorker :=
  if negb (OrdersControl.close_position_now exchange (mode w)) then w
  else
    let w1 := set_trades_closed
                ({| report_pair := pair_name w; report_pnl := 0;
                    report_mode := mode w; report_direction := direction w |}
                 :: trades_closed w) w in
    let w2 := set_last_close_timestamp now w1 in
    let w3 := set_last_close_price
                (default 0 (price_of (prices feed) (pair_name w2))) w2 in
    _reset_position_state w3.

(** The dictionary of [get_runtime_state], as [apply_runtime_state] reads
    it: a member is [None] when the key is absent. *)
Record RuntimeState := {
  rt_is_running : option bool;
  rt_position_open : option bool;
  rt_direction : option string;
  rt_average_price : option Q;
  rt_total_qty : option Q;
  rt_total_cost : option Q;
  rt_safety_orders_used : option Z;
  rt_take_profit_price : option Q;
  rt_break_even_armed : option bool;
  rt_break_even_price : option Q;
  rt_entry_price : option Q;
  rt_last_entry_time : option Q;
  rt_cooldown_until : option Q;
  rt_last_known_price : option Q;
  rt_needs_resync : option bool
}.

(** [get_runtime_state]. *)
Definition get_runtime_state (w : PairWorker) : RuntimeState := {|
  rt_is_running := Some (running w);
  rt_position_open := Some (position_open w);
  rt_direction := Some (direction w);
  rt_average_price := Some (average_price w);
  rt_total_qty := Some (total_qty w);
  rt_total_cost := Some (total_cost w);
  rt_safety_orders_used := Some (safety_orders_used w);
  rt_take_profit_price := Some (default 0 (take_profit_price w));
  rt_break_even_armed := Some (break_even_armed w);
  rt_break_even_price := Some (break_even_price w);
  rt_entry_price := Some (default 0 (entry_price w));
  rt_last_entry_time := Some (_last_close_timestamp w);
  rt_cooldown_until :=
    Some (_last_close_timestamp w + cooldown_minutes (strategy_settings w) * 60);
  rt_last_known_price := Some 0;
  rt_needs_resync := Some (needs_resync w)
|}.

(** [float(x) or None]. *)
Definition nonzero (x : Q) : option Q := if Qeqb x 0 then None else Some x.

(** [str(runtime.get(k, dflt) or dflt)]. *)
Definition text_or (dflt : string) (member : option string) : string :=
  match member with
  | Some "" | None => dflt
  | Some text => text
  end.

(** [apply_runtime_state]. *)
Definition apply_runtime_state (runtime : RuntimeState) (w : PairWorker)
  : PairWorker :=
  let w := set_running (default false (rt_is_running runtime)) w in
  let w := set_position_open (default false (rt_position_open runtime)) w in
  let w := set_direction (upper (text_or (direction w) (rt_direction runtime))) w in
  let w := set_average_price (default 0 (rt_average_price runtime)) w in
  let w := set_total_qty (default 0 (rt_total_qty runtime)) w in
  let w := set_total_cost (default 0 (rt_total_cost runtime)) w in
  let w := set_safety_orders_used (default 0%Z (rt_safety_orders_used runtime)) w in
  let w := set_take_profit_price
             (nonzero (default 0 (rt_take_profit_price runtime))) w in
  let w := set_break_even_armed (default false (rt_break_even_armed runtime)) w in
  let w := set_break_even_price (default 0 (rt_break_even_price runtime)) w in
  let w := set_entry_price (nonzero (default 0 (rt_entry_price runtime))) w in
  let w := set_last_close_timestamp (default 0 (rt_last_entry_time runtime)) w in
  set_needs_resync true w.

End WorkerControl.

(** ** core/bot_manager.py: the statistics *)

Module Manager.
Import Risk.

(** An entry of [BotManager.statistics]; the [max_drawdown] key holds the
    constant text TODO and is left out. *)
Record PairStatistics := {
  exchange : string;
  mode : string;
  direction : string;
  trades : Z;
  win_trades : Z;
  loss_trades : Z;
  pnl_usdt : Q
}.

(** The attributes of [BotManager] that [record_trade] reads and writes. *)
Record BotManager := {
  statistics : gmap string PairStatistics;
  risk_manager : RiskManager
}.

(** [BotManager.__init__]. *)
Definition new_manager : BotManager :=
  {| statistics := ∅; risk_manager := initialize |}.

(** [_ensure_statistics]. *)
Definition _ensure_statistics (pair mode direction exchange : string)
  (statistics : gmap string PairStatistics) : gmap string PairStatistics :=
  match statistics !! pair with
  | Some _ => statistics
  | None =>
      <[pair := {| exchange := exchange; mode := mode; direction := direction;
                   trades := 0; win_trades := 0; loss_trades := 0;
                   pnl_usdt := 0 |}]> statistics
  end.

(** [record_trade]: the manager after the call, and whether the risk rule
    asked to stop all pairs.  The entry is mutated in place; the lookup
    after [_ensure_statistics] cannot fail. *)
Definition record_trade (pair : string) (pnl : Q) (mode direction : string)
  (m : BotManager) : BotManager * bool :=
  let table := _ensure_statistics pair mode direction "Binance" (statistics m) in
  let table' :=
    match table !! pair with
    | None => table
    | Some stats =>
        <[pair := {| exchange := exchange stats;
                     mode := mode;
                     direction := direction;
                     trades := (trades stats + 1)%Z;
                     win_trades := if Qgeb pnl 0 then (win_trades stats + 1)%Z
                                   else win_trades stats;
                     loss_trades := if Qgeb pnl 0 then loss_trades stats
                                    else (loss_trades stats + 1)%Z;
                     pnl_usdt := pnl_usdt stats + pnl |}]> table
    end in
  let '(risk', stop) := register_trade_result (risk_manager m) pnl in
  ({| statistics := table'; risk_manager := risk' |}, stop).

End Manager.

(** ** core/backtest_engine.py: the report *)

Module BacktestReport.
Import Strategy Backtest.

(** The dictionary [generate_report] returns. *)
Record Report := {
  total_trades : nat;
  win_rate : Q;
  total_profit : Q;
  max_drawdown : Q;
  average_profit : Q;
  average_loss : Q;
  profit_factor : Q
}.

(** [sum(xs)]: the additions from the left, starting at 0. *)
Definition sum (xs : list Q) : Q := List.fold_left Qplus xs 0.

(** [len(xs)] as a float. *)
Definition len (xs : list Q) : Q := inject_Z (Z.of_nat (List.length xs)).

(** One iteration of the drawdown loop; the peak starts at minus infinity
    ([None]), below every equity. *)
Definition drawdown_step (state : option Q * Q) (equity : Q) : option Q * Q :=
  let peak := match fst state with
              | None => equity
              | Some peak => Qmax peak equity
              end in
  let drawdown := peak - equity in
  (Some peak, Qmax (snd state) drawdown).

(** [generate_report]. *)
Definition generate_report (r : Run) : Report :=
  let total := List.length (trade_results r) in
  let wins := List.filter (fun x => Qgtb x 0) (trade_results r) in
  let losses := List.filter (fun x => Qltb x 0) (trade_results r) in
  let gross_profit := sum wins in
  let gross_loss := Qabs (sum losses) in
  {| total_trades := total;
     win_rate := match total with
                 | O => 0
                 | _ => len wins / len (trade_results r) * 100
                 end;
     total_profit := sum (trade_results r);
     max_drawdown := snd (List.fold_left drawdown_step (equity_curve r) (None, 0));
     average_profit := match wins with [] => 0 | _ => sum wins / len wins end;
     average_loss := match losses with [] => 0 | _ => sum losses / len losses end;
     profit_factor := if Qgtb gross_loss 0 then gross_profit / gross_loss else 0 |}.

(** [run_backtest] ends by returning the report. *)
Definition backtest_report (strategy_settings : StrategySettings)
  (rows : list Bar) : reply Report :=
  match run_backtest strategy_settings rows with
  | Raises => Raises
  | Returns r => Returns (generate_report r)
  end.

End BacktestReport.

(** * Properties *)

(** ** Comparisons *)

Lemma Qleb_le (x y : Q) : Qleb x y = true <-> x <= y.
Proof. apply Qle_bool_iff. Qed.

Lemma Qltb_lt (x y : Q) : Qltb x y = true <-> x < y.
Proof.
  unfold Qltb. rewrite negb_true_iff. split.
  - intros H. apply Qnot_le_lt. intros Hle.
    apply Qle_bool_iff in Hle. congruence.
  - intros H. destruct (Qle_bool y x) eqn:E; [|reflexivity].
    apply Qle_bool_iff in E. exfalso. apply (Qlt_not_le _ _ H E).
Qed.

Lemma Qltb_ge (x y : Q) : Qltb x y = false <-> y <= x.
Proof. unfold Qltb. rewrite negb_false_iff. apply Qle_bool_iff. Qed.

Lemma Qleb_gt (x y : Q) : Qleb x y = false <-> y < x.
Proof.
  rewrite <- Qltb_lt. unfold Qltb, Qleb.
  destruct (Qle_bool x y); simpl; split; congruence.
Qed.

Lemma Qgtb_gt (x y : Q) : Qgtb x y = true <-> y < x.
Proof. apply (Qltb_lt y x). Qed.

Lemma Qgtb_le (x y : Q) : Qgtb x y = false <-> x <= y.
Proof. apply (Qltb_ge y x). Qed.

Lemma Qgeb_ge (x y : Q) : Qgeb x y = true <-> y <= x.
Proof. apply Qle_bool_iff. Qed.

Lemma Qeqb_eq (x y : Q) : Qeqb x y = true <-> x == y.
Proof. apply Qeq_bool_iff. Qed.

Lemma Qeqb_neq (x y : Q) : Qeqb x y = false <-> ~ x == y.
Proof.
  unfold Qeqb. split.
  - intros H E. apply Qeq_bool_iff in E. congruence.
  - intros H. destruct (Qeq_bool x y) eqn:E; [|reflexivity].
    apply Qeq_bool_iff in E. contradiction.
Qed.

(** ** Risk manager *)

Module RiskFacts.
Import Risk.

(** The reading of the rule that counts every non-positive result as a
    loss, to compare [register_trade_result] with. *)
Definition register_nonpositive (rm : RiskManager) (pnl : Q)
  : RiskManager * bool :=
  let n := if Qleb pnl 0 then (consecutive_losses rm + 1)%Z else 0%Z in
  ({| consecutive_losses := n |}, (3 <=? n)%Z).

Lemma register_count_negative (rm : RiskManager) (pnl : Q) :
  pnl < 0 ->
  consecutive_losses (fst (register_trade_result rm pnl))
  = (consecutive_losses rm + 1)%Z.
Proof.
  intros H. apply Qltb_lt in H.
  unfold register_trade_result. rewrite H. reflexivity.
Qed.

Lemma register_count_reset (rm : RiskManager) (pnl : Q) :
  0 <= pnl ->
  consecutive_losses (fst (register_trade_result rm pnl)) = 0%Z.
Proof.
  intros H. apply Qltb_ge in H.
  unfold register_trade_result. rewrite H. reflexivity.
Qed.

(** C5, as amended.  [register_trade_result] counts consecutive strictly
    negative results: a call with [pnl < 0] increments the count, a call
    with [pnl >= 0] (a zero result included) resets it to zero, and the
    call returns [true] exactly when the count after the update is at
    least 3. *)
Theorem register_trade_result_spec (rm : RiskManager) (pnl : Q) :
  (pnl < 0 ->
   consecutive_losses (fst (register_trade_result rm pnl))
   = (consecutive_losses rm + 1)%Z)
  /\ (0 <= pnl ->
      consecutive_losses (fst (register_trade_result rm pnl)) = 0%Z)
  /\ (snd (register_trade_result rm pnl) = true
      <-> (3 <= consecutive_losses (fst (register_trade_result rm pnl)))%Z).
Proof.
  split; [|split].
  - apply register_count_negative.
  - apply register_count_reset.
  - unfold register_trade_result; simpl. apply Z.leb_le.
Qed.

Lemma register_trade_result_spec_witness :
  consecutive_losses
    (fst (register_trade_result {| consecutive_losses := 2 |} (-5 # 2)))
  = 3%Z
  /\ snd (register_trade_result {| consecutive_losses := 2 |} (-5 # 2)) = true.
Proof.
  destruct (register_trade_result_spec {| consecutive_losses := 2 |} (-5 # 2))
    as (Hneg & _ & Hret).
  split.
  - rewrite Hneg; reflexivity.
  - apply Hret. rewrite Hneg; [simpl; lia | reflexivity].
Defined.

(** C5, as stated, fails at a zero result: a trade with [pnl = 0] is
    non-positive, yet after two losses it does not bring the count to 3;
    the count is reset. *)
Lemma register_zero_pnl_not_counted :
  ~ (forall (rm : RiskManager) (pnl : Q),
        pnl <= 0 ->
        consecutive_losses (fst (register_trade_result rm pnl))
        = (consecutive_losses rm + 1)%Z).
Proof.
  intros H.
  specialize (H {| consecutive_losses := 2 |} 0 (Qle_refl 0)).
  vm_compute in H. discriminate H.
Qed.

Example register_zero_after_two_losses :
  register_trade_result {| consecutive_losses := 2 |} 0
  = ({| consecutive_losses := 0 |}, false)
  /\ register_nonpositive {| consecutive_losses := 2 |} 0
     = ({| consecutive_losses := 3 |}, true).
Proof. split; reflexivity. Qed.

End RiskFacts.

(** ** Strategy *)

Module StrategyFacts.
Import Strategy.

(** At least one filter toggle is on. *)
Definition some_filter_enabled (s : StrategySettings) : bool :=
  use_rsi s || use_ema_trend_filter s || use_adx_filter s
  || use_volume_filter s || use_atr_filter s.

(** A direction is valid: some filter is enabled, and every enabled filter
    passes for that direction. *)
Definition direction_valid (ie : IndicatorEngine) (df : Frame)
  (s : StrategySettings) (direction : string) : Prop :=
  some_filter_enabled s = true
  /\ (use_rsi s = true -> check_rsi ie df s direction = true)
  /\ (use_ema_trend_filter s = true -> check_ema_trend ie df s direction = true)
  /\ (use_adx_filter s = true -> check_adx ie df s = true)
  /\ (use_volume_filter s = true -> check_volume_spike df s = true)
  /\ (use_atr_filter s = true -> check_atr_filter ie df s = true).

(** The five-entry dictionary, with the toggles and the verdicts of the
    checks abstracted. *)
Definition verdict (toggles checks : list bool) : bool :=
  match List.flat_map (fun p : bool * bool => if fst p then [snd p] else [])
          (List.combine toggles checks) with
  | [] => false
  | enabled => List.forallb (fun b => b) enabled
  end.

Lemma verdict_true (t1 t2 t3 t4 t5 c1 c2 c3 c4 c5 : bool) :
  verdict [t1; t2; t3; t4; t5] [c1; c2; c3; c4; c5] = true
  <-> (t1 || t2 || t3 || t4 || t5 = true
       /\ (t1 = true -> c1 = true) /\ (t2 = true -> c2 = true)
       /\ (t3 = true -> c3 = true) /\ (t4 = true -> c4 = true)
       /\ (t5 = true -> c5 = true)).
Proof.
  destruct t1, t2, t3, t4, t5; cbn;
    repeat match goal with
           | |- context [andb ?c _] => is_var c; destruct c; cbn
           | |- context [?c = true] => is_var c; destruct c; cbn
           end;
    intuition congruence.
Qed.

Lemma evaluate_conditions_verdict (ie : IndicatorEngine) (df : Frame)
  (s : StrategySettings) (direction : string) :
  fst (evaluate_conditions ie df s direction)
  = verdict [use_rsi s; use_ema_trend_filter s; use_adx_filter s;
             use_volume_filter s; use_atr_filter s]
            [check_rsi ie df s direction; check_ema_trend ie df s direction;
             check_adx ie df s; check_volume_spike df s;
             check_atr_filter ie df s].
Proof.
  unfold evaluate_conditions, build_checks, verdict.
  destruct (use_rsi s), (use_ema_trend_filter s), (use_adx_filter s),
    (use_volume_filter s), (use_atr_filter s); reflexivity.
Qed.

(** [evaluate_conditions] accepts a direction exactly when it is valid. *)
Lemma evaluate_conditions_valid (ie : IndicatorEngine) (df : Frame)
  (s : StrategySettings) (direction : string) :
  fst (evaluate_conditions ie df s direction) = true
  <-> direction_valid ie df s direction.
Proof.
  rewrite evaluate_conditions_verdict, verdict_true. reflexivity.
Qed.

Lemma generate_signal_nonempty (ie : IndicatorEngine) (self : BaseStrategy)
  (df : Frame) :
  df <> [] ->
  snd (generate_signal ie self (Some df))
  = if fst (evaluate_conditions ie df (settings self) "LONG") then Some "LONG"
    else if fst (evaluate_conditions ie df (settings self) "SHORT")
         then Some "SHORT" else None.
Proof.
  intros Hne. unfold generate_signal.
  destruct df as [|c df]; [congruence|].
  destruct (evaluate_conditions ie (c :: df) (settings self) "LONG") as [lo lc].
  destruct (evaluate_conditions ie (c :: df) (settings self) "SHORT") as [so sc].
  simpl. destruct lo, so; reflexivity.
Qed.

Lemma generate_signal_all_disabled (ie : IndicatorEngine) (self : BaseStrategy)
  (df : option Frame) :
  some_filter_enabled (settings self) = false ->
  snd (generate_signal ie self df) = None.
Proof.
  intros Hoff.
  destruct df as [df|]; [|reflexivity].
  destruct df as [|c df]; [reflexivity|].
  rewrite generate_signal_nonempty by discriminate.
  assert (Hno : forall d,
             fst (evaluate_conditions ie (c :: df) (settings self) d) = false).
  { intros d.
    destruct (fst (evaluate_conditions ie (c :: df) (settings self) d)) eqn:E;
      [|reflexivity].
    apply evaluate_conditions_valid in E. destruct E as [E _]. congruence. }
  rewrite !Hno. reflexivity.
Qed.

(** C9.  On a frame with rows, [generate_signal] returns LONG when the LONG
    direction is valid (whether or not SHORT is valid too), SHORT when only
    the SHORT direction is valid, and no signal when neither is; a direction
    is valid when some filter is enabled and every enabled filter passes for
    it.  With every filter toggle disabled the signal is none for every
    frame, an empty or a missing one included. *)
Theorem generate_signal_spec (ie : IndicatorEngine) (self : BaseStrategy) :
  (forall df : Frame,
      df <> [] ->
      (direction_valid ie df (settings self) "LONG" ->
       snd (generate_signal ie self (Some df)) = Some "LONG")
      /\ (~ direction_valid ie df (settings self) "LONG" ->
          direction_valid ie df (settings self) "SHORT" ->
          snd (generate_signal ie self (Some df)) = Some "SHORT")
      /\ (~ direction_valid ie df (settings self) "LONG" ->
          ~ direction_valid ie df (settings self) "SHORT" ->
          snd (generate_signal ie self (Some df)) = None))
  /\ (use_rsi (settings self) = false ->
      use_ema_trend_filter (settings self) = false ->
      use_adx_filter (settings self) = false ->
      use_volume_filter (settings self) = false ->
      use_atr_filter (settings self) = false ->
      forall df : option Frame, snd (generate_signal ie self df) = None).
Proof.
  split.
  - intros df Hne. rewrite (generate_signal_nonempty ie self df Hne).
    pose proof (evaluate_conditions_valid ie df (settings self) "LONG") as HL.
    pose proof (evaluate_conditions_valid ie df (settings self) "SHORT") as HS.
    destruct (fst (evaluate_conditions ie df (settings self) "LONG"));
      destruct (fst (evaluate_conditions ie df (settings self) "SHORT"));
      repeat split; intros; try reflexivity;
      try (exfalso; tauto); intuition congruence.
  - intros H1 H2 H3 H4 H5 df. apply generate_signal_all_disabled.
    unfold some_filter_enabled. rewrite H1, H2, H3, H4, H5. reflexivity.
Qed.

(** An indicator library that reports the same values on every frame. *)
Definition constant_indicators (rsi ema adx atr : option Q) : IndicatorEngine :=
  {| calculate_rsi := fun _ _ => rsi;
     calculate_ema := fun _ _ => ema;
     calculate_adx := fun _ _ => adx;
     calculate_atr := fun _ _ => atr |}.

Definition flat_candle (price : Q) : Candle :=
  {| open := price; high := price; low := price; close := price; volume := 1 |}.

Lemma generate_signal_spec_witness :
  snd (generate_signal
         (constant_indicators (Some 25) (Some 90) (Some 25) None)
         (new_strategy default_settings) (Some [flat_candle 100]))
  = Some "LONG".
Proof.
  destruct (generate_signal_spec
              (constant_indicators (Some 25) (Some 90) (Some 25) None)
              (new_strategy default_settings)) as [Hdir _].
  assert (Hne : [flat_candle 100] <> []) by discriminate.
  destruct (Hdir [flat_candle 100] Hne) as [Hlong _].
  apply Hlong. unfold direction_valid.
  repeat split; intros;
    first [ reflexivity
          | match goal with
            | H : _ = true |- _ => vm_compute in H; discriminate H
            end ].
Defined.

(** The tie-break: the ADX filter does not depend on the direction, so with
    it alone both directions pass, and LONG is returned. *)
Example generate_signal_tie_break :
  snd (generate_signal
         (constant_indicators None None (Some 25) None)
         (new_strategy
            {| rsi_period := 14; rsi_level := 30; ema_period := 200;
               adx_period := 14; timeframe := "1m"; take_profit_pct := 1;
               base_order_size_usdt := 25; order_timeout_sec := 30;
               use_market_order := true; safety_step_pct := 2;
               safety_orders_count := 3; volume_multiplier := 3 # 2;
               commission_pct := 1 # 10; enable_futures := false;
               leverage := 5; margin_mode := "Cross";
               break_even_after_percent := 3 # 10;
               futures_position_side := "Long"; mode := "Spot";
               cooldown_minutes := 0; anti_reentry_threshold_pct := 2 # 10;
               run_mode := "Live"; use_rsi := false;
               use_ema_trend_filter := false; use_adx_filter := true;
               use_volume_filter := false; use_atr_filter := false;
               adx_threshold := 20; volume_spike_multiplier := 3 # 2;
               atr_min_value := 0; position_size_mode := "Fixed";
               risk_per_trade_pct := 1; max_total_exposure_pct := 30;
               protection_orders_on_exchange := true;
               enable_stop_loss := false; stop_loss_mode := "Off";
               stop_loss_pct := 1; auto_resume_running_pairs := false |})
         (Some [flat_candle 100]))
  = Some "LONG".
Proof. reflexivity. Qed.

End StrategyFacts.

(** ** Market feed *)

Module FeedFacts.
Import Strategy Feed.

(** A kline payload is well formed and closed: its symbol [s] is a truthy
    hashable value (the key [k] it is stored under), its member [k] is an
    object whose [x] flag is true in the Python sense, and whose [o], [h],
    [l], [c] and [v] members are present and convert to floats (the candle
    [c]): [float] returns on each of them. *)
Definition closed_kline (fs : string -> parsed)
  (payload : list (string * json)) (k : key) (c : Candle) : Prop :=
  exists sym members,
    get "s" payload = Some sym
    /\ truthy (Some sym) = true
    /\ dict_key sym = Some k
    /\ get "k" payload = Some (JObj members)
    /\ truthy (get "x" members) = true
    /\ parse_candle fs members = Parsed c.

(** The same, except that one of the five conversions gives inf or nan: the
    handler stores a candle that is no candle of this development. *)
Definition not_rational_kline (fs : string -> parsed)
  (payload : list (string * json)) : Prop :=
  exists sym members k,
    get "s" payload = Some sym
    /\ truthy (Some sym) = true
    /\ dict_key sym = Some k
    /\ get "k" payload = Some (JObj members)
    /\ truthy (get "x" members) = true
    /\ parse_candle fs members = NotRationalCandle.

(** The effect of one closed candle [c] for the symbol stored under [k]. *)
Definition candle_appended (self : WebSocketManager) (k : key) (c : Candle)
  : WebSocketManager :=
  {| prices := prices self;
     candles :=
       <[k := append_bounded (default [] (candles self !! k)) c]> (candles self);
     candle_versions :=
       <[k := (default 0%Z (candle_versions self !! k) + 1)%Z]>
         (candle_versions self) |}.

Lemma handle_kline_closed (fs : string -> parsed) (self : WebSocketManager)
  (payload : list (string * json)) (k : key) (c : Candle) :
  closed_kline fs payload k c ->
  _handle_kline fs self payload = Some (candle_appended self k c, Normal).
Proof.
  intros (sym & members & Hs & Hts & Hk & Hm & Hx & Hc).
  unfold _handle_kline. rewrite Hs, Hts, Hm. cbn [negb].
  rewrite Hx. cbn [negb]. rewrite Hc. cbn [mbind option_bind].
  rewrite Hk. reflexivity.
Qed.

(** Whatever the payload, the handler stores a closed well-formed candle,
    or it stores a candle that is no rational one, or it leaves the caches
    as they are (returning or raising). *)
Lemma handle_kline_cases (fs : string -> parsed) (self : WebSocketManager)
  (payload : list (string * json)) :
  (exists k c, closed_kline fs payload k c)
  \/ (not_rational_kline fs payload /\ _handle_kline fs self payload = None)
  \/ (exists o, _handle_kline fs self payload = Some (self, o)).
Proof.
  unfold _handle_kline.
  destruct (get "s" payload) as [sym|] eqn:Hs;
    [|right; right; eexists; reflexivity].
  destruct (truthy (Some sym)) eqn:Hts;
    [|right; right; eexists; reflexivity].
  cbn [negb].
  destruct (get "k" payload) as [kv|] eqn:Hk;
    [|right; right; eexists; reflexivity].
  destruct kv as [| | | | | |members];
    try (right; right; eexists; reflexivity).
  destruct (truthy (get "x" members)) eqn:Hx;
    [|right; right; eexists; reflexivity].
  cbn [negb mbind option_bind].
  destruct (parse_candle fs members) as [c| | |] eqn:Hc;
    try (right; right; eexists; reflexivity).
  - destruct (dict_key sym) as [k|] eqn:Hd;
      [|right; right; eexists; reflexivity].
    left. exists k, c, sym, members. repeat split; assumption.
  - destruct (dict_key sym) as [k|] eqn:Hd;
      [|right; right; eexists; reflexivity].
    right; left. split; [|reflexivity].
    exists sym, members, k. repeat split; assumption.
Qed.

Lemma not_rational_not_closed (fs : string -> parsed)
  (payload : list (string * json)) (k : key) (c : Candle) :
  not_rational_kline fs payload -> ~ closed_kline fs payload k c.
Proof.
  intros (sym & members & k' & Hs & _ & _ & Hm & _ & Hp)
         (sym' & members' & Hs' & _ & _ & Hm' & _ & Hp').
  rewrite Hm in Hm'. inversion Hm'; subst members'.
  rewrite Hp in Hp'. discriminate Hp'.
Qed.

Lemma candle_appended_changes (self : WebSocketManager) (k : key) (c : Candle) :
  candle_appended self k c <> self.
Proof.
  intros Heq.
  assert (Hv : candle_versions (candle_appended self k c) !! k
               = candle_versions self !! k) by (rewrite Heq; reflexivity).
  unfold candle_appended in Hv; cbn [candle_versions] in Hv.
  rewrite lookup_insert_eq in Hv.
  destruct (candle_versions self !! k) as [v|]; cbn in Hv.
  - inversion Hv. lia.
  - discriminate Hv.
Qed.

(** Appending to a cache of at most 200 candles keeps the last 200 of the
    extended sequence. *)
Lemma append_bounded_last_200 (data : list Candle) (c : Candle) :
  (List.length data <= 200)%nat ->
  append_bounded data c = tail_n 200 (data ++ [c])%list
  /\ (List.length (append_bounded data c) <= 200)%nat.
Proof.
  intros Hlen. unfold append_bounded, tail_n.
  rewrite List.length_app. cbn [List.length].
  destruct (200 <? List.length data + 1)%nat eqn:E.
  - apply Nat.ltb_lt in E.
    assert (Hd : List.length data = 200%nat) by lia.
    replace (List.length data + 1 - 200)%nat with 1%nat by lia.
    split.
    + destruct data as [|d data]; [discriminate Hd|]. reflexivity.
    + destruct data as [|d data]; [discriminate Hd|].
      cbn [List.app List.tl]. rewrite List.length_app. cbn in *. lia.
  - apply Nat.ltb_ge in E.
    replace (List.length data + 1 - 200)%nat with 0%nat by lia.
    split; [reflexivity|]. rewrite List.length_app. cbn. lia.
Qed.

(** C7.  For every kline payload: if it is well formed and its [k.x] flag is
    true, the handler returns normally, the version of its symbol is
    incremented by exactly 1, exactly one candle is appended to the cache of
    that symbol (which keeps the last 200 when it held at most 200), and the
    versions and candles of the other symbols and all prices stay as they
    were; otherwise (flag false, or payload malformed, whether the handler
    returns or raises) the versions, the candles and the prices are all
    unchanged.  So the caches change exactly for the well-formed closed
    payloads.  This holds for every payload whose candle is made of
    rationals; the handler model has no result exactly for the closed
    payloads with a field that converts to inf or nan. *)
Theorem handle_kline_spec (fs : string -> parsed) (self : WebSocketManager)
  (payload : list (string * json)) :
  (forall k c,
      closed_kline fs payload k c ->
      exists self',
        _handle_kline fs self payload = Some (self', Normal)
        /\ candle_versions self' !! k
           = Some (default 0%Z (candle_versions self !! k) + 1)%Z
        /\ candles self' !! k
           = Some (append_bounded (default [] (candles self !! k)) c)
        /\ ((List.length (default [] (candles self !! k)) <= 200)%nat ->
            candles self' !! k
            = Some (tail_n 200 (default [] (candles self !! k) ++ [c])%list))
        /\ (forall k', k' <> k ->
               candle_versions self' !! k' = candle_versions self !! k'
               /\ candles self' !! k' = candles self !! k')
        /\ prices self' = prices self)
  /\ (forall r,
         _handle_kline fs self payload = Some r ->
         (~ (exists k c, closed_kline fs payload k c) -> fst r = self)
         /\ ((exists k c, closed_kline fs payload k c) <-> fst r <> self))
  /\ (_handle_kline fs self payload = None <-> not_rational_kline fs payload).
Proof.
  split; [|split].
  - intros k c Hclosed. exists (candle_appended self k c).
    split; [apply handle_kline_closed; exact Hclosed|].
    cbn [candle_appended candle_versions candles prices].
    split; [apply lookup_insert_eq|].
    split; [apply lookup_insert_eq|].
    split.
    { intros Hlen. rewrite lookup_insert_eq. f_equal.
      apply append_bounded_last_200. exact Hlen. }
    split; [|reflexivity].
    intros k' Hne. split; apply lookup_insert_ne; congruence.
  - intros r Hr.
    destruct (handle_kline_cases fs self payload)
      as [(k & c & Hclosed) | [(_ & Hnone) | (o & Hsame)]].
    + rewrite (handle_kline_closed fs self payload k c Hclosed) in Hr.
      inversion Hr; subst r. cbn [fst].
      split; [intros Hnot; exfalso; apply Hnot; exists k, c; exact Hclosed|].
      split; [intros _; apply candle_appended_changes|].
      intros _. exists k, c. exact Hclosed.
    + rewrite Hnone in Hr. discriminate Hr.
    + rewrite Hsame in Hr. inversion Hr; subst r. cbn [fst].
      split; [reflexivity|].
      split; [|intros Hne; exfalso; apply Hne; reflexivity].
      intros (k & c & Hclosed).
      rewrite (handle_kline_closed fs self payload k c Hclosed) in Hsame.
      inversion Hsame as [Heq]. exfalso.
      exact (candle_appended_changes self k c Heq).
  - split.
    + intros Hnone.
      destruct (handle_kline_cases fs self payload)
        as [(k & c & Hclosed) | [(Hnr & _) | (o & Hsame)]].
      * rewrite (handle_kline_closed fs self payload k c Hclosed) in Hnone.
        discriminate Hnone.
      * exact Hnr.
      * rewrite Hsame in Hnone. discriminate Hnone.
    + intros Hnr.
      destruct (handle_kline_cases fs self payload)
        as [(k & c & Hclosed) | [(_ & Hnone) | (o & Hsame)]].
      * exfalso. exact (not_rational_not_closed fs payload k c Hnr Hclosed).
      * exact Hnone.
      * exfalso. destruct Hnr as (sym & members & k & Hs & Hts & Hk & Hm & Hx & Hp).
        unfold _handle_kline in Hsame. rewrite Hs, Hts, Hm in Hsame.
        cbn [negb] in Hsame. rewrite Hx in Hsame. cbn [negb] in Hsame.
        rewrite Hp in Hsame. cbn [mbind option_bind] in Hsame.
        rewrite Hk in Hsame. discriminate Hsame.
Qed.

(** A payload whose [k.x] flag is false does not advance the version. *)
Lemma handle_kline_open_candle (fs : string -> parsed)
  (self : WebSocketManager) (payload : list (string * json))
  (members : list (string * json)) :
  get "k" payload = Some (JObj members) ->
  truthy (get "x" members) = false ->
  _handle_kline fs self payload = Some (self, Normal).
Proof.
  intros Hk Hx. unfold _handle_kline. rewrite Hk, Hx.
  destruct (negb (truthy (get "s" payload))); reflexivity.
Qed.

(** A parser of plain decimal numerals ([-12.5]), to run the handlers on. *)
Definition digit_of (c : ascii) : option Z :=
  let n := nat_of_ascii c in
  if ((48 <=? n)%nat && (n <=? 57)%nat)%bool
  then Some (Z.of_nat n - 48)%Z else None.

Fixpoint parse_digits (s : string) (acc : Z) (scale : positive)
  (seen_dot seen_digit : bool) : option Q :=
  match s with
  | EmptyString => if seen_digit then Some (acc # scale) else None
  | String c rest =>
      if Ascii.eqb c "."%char then
        if seen_dot then None else parse_digits rest acc scale true seen_digit
      else
        match digit_of c with
        | None => None
        | Some d =>
            parse_digits rest (acc * 10 + d)%Z
              (if seen_dot then (scale * 10)%positive else scale) seen_dot true
        end
  end.

Definition parse_decimal (s : string) : option Q :=
  match s with
  | String "-"%char rest => Qopp <$> parse_digits rest 0 1 false false
  | _ => parse_digits s 0 1 false false
  end.

(** [float] on the strings of the examples: plain decimal numerals, and
    the three spellings [inf], [-inf] and [nan].  (Python's [float] reads
    more strings than these: exponents, surrounding blanks, either case.) *)
Definition decimal_float (s : string) : parsed :=
  if String.eqb s "inf" || String.eqb s "-inf" || String.eqb s "nan"
  then NonFinite
  else match parse_decimal s with
       | Some q => Finite q
       | None => Invalid
       end.

(** A closed one-minute candle as Binance sends it. *)
Definition sample_kline (closed : bool) : list (string * json) :=
  [ ("e", JStr "kline"); ("s", JStr "BTCUSDT");
    ("k", JObj [ ("i", JStr "1m"); ("x", JBool closed);
                 ("o", JStr "100.5"); ("h", JStr "101");
                 ("l", JStr "99.75"); ("c", JStr "100");
                 ("v", JStr "12.5") ]) ].

Definition sample_candle : Candle :=
  {| open := 1005 # 10; high := 101 # 1; low := 9975 # 100;
     close := 100 # 1; volume := 125 # 10 |}.

Lemma handle_kline_spec_witness :
  exists self',
    _handle_kline decimal_float new_manager (sample_kline true)
    = Some (self', Normal)
    /\ candle_versions self' !! KStr "BTCUSDT" = Some 1%Z
    /\ candles self' !! KStr "BTCUSDT" = Some [sample_candle].
Proof.
  assert (Hclosed : closed_kline decimal_float (sample_kline true)
                      (KStr "BTCUSDT") sample_candle).
  { exists (JStr "BTCUSDT").
    exists [ ("i", JStr "1m"); ("x", JBool true);
             ("o", JStr "100.5"); ("h", JStr "101");
             ("l", JStr "99.75"); ("c", JStr "100"); ("v", JStr "12.5") ].
    repeat split; reflexivity. }
  destruct (handle_kline_spec decimal_float new_manager (sample_kline true))
    as (Hcl & _ & _).
  destruct (Hcl _ _ Hclosed) as (self' & Hrun & Hv & _ & Hlast & _).
  exists self'. split; [exact Hrun|]. split.
  - rewrite Hv. reflexivity.
  - rewrite Hlast; [reflexivity | vm_compute; lia].
Defined.

Example handle_kline_open_sample :
  _handle_kline decimal_float new_manager (sample_kline false)
  = Some (new_manager, Normal).
Proof. reflexivity. Qed.

(** Malformed payloads: a [k] that is not an object raises out of the
    handler, an unparsable price is dropped; the caches stay as they were. *)
Example handle_kline_malformed :
  _handle_kline decimal_float new_manager
    [("e", JStr "kline"); ("s", JStr "BTCUSDT"); ("k", JStr "oops")]
  = Some (new_manager, Raised)
  /\ _handle_kline decimal_float new_manager
       [("e", JStr "kline"); ("s", JStr "BTCUSDT");
        ("k", JObj [("x", JBool true); ("o", JStr "abc")])]
     = Some (new_manager, Normal).
Proof. split; reflexivity. Qed.

(** A closed payload whose open price is the integer [10^400]: [float]
    raises OverflowError, which the handler does not catch; nothing is
    stored.  The integer [10^300] converts.  When a key is missing before
    the integer is reached, the KeyError is caught first. *)
Example handle_kline_overflow :
  _handle_kline decimal_float new_manager
    [("e", JStr "kline"); ("s", JStr "BTCUSDT");
     ("k", JObj [("x", JBool true); ("o", JInt (10 ^ 400)); ("h", JInt 1);
                 ("l", JInt 1); ("c", JInt 1); ("v", JInt 1)])]
  = Some (new_manager, Raised)
  /\ (exists self',
        _handle_kline decimal_float new_manager
          [("e", JStr "kline"); ("s", JStr "BTCUSDT");
           ("k", JObj [("x", JBool true); ("o", JInt (10 ^ 300)); ("h", JInt 1);
                       ("l", JInt 1); ("c", JInt 1); ("v", JInt 1)])]
        = Some (self', Normal)
        /\ candle_versions self' !! KStr "BTCUSDT" = Some 1%Z)
  /\ _handle_kline decimal_float new_manager
       [("e", JStr "kline"); ("s", JStr "BTCUSDT");
        ("k", JObj [("x", JBool true); ("h", JInt (10 ^ 400))])]
     = Some (new_manager, Normal).
Proof.
  split; [vm_compute; reflexivity|].
  split; [|vm_compute; reflexivity].
  eexists. split; [vm_compute; reflexivity|]. vm_compute. reflexivity.
Qed.

End FeedFacts.

(** ** State store *)

Module StoreFacts.
Import Store.

Section Codec.
Context {J : Type} `{JsonCodec J}.

Lemma or_empty_object_dumps (v : J) : or_empty_object (dumps v) = dumps v.
Proof.
  unfold or_empty_object.
  destruct (String.eqb (dumps v) "") eqn:E; [|reflexivity].
  apply String.eqb_eq in E. exfalso. exact (dumps_nonempty v E).
Qed.

Lemma load_row_saved (id : string) (c r : J) :
  load_row (id, {| config_json := dumps c; runtime_json := dumps r |})
  = Some (id, c, r).
Proof.
  unfold load_row. cbn [fst snd config_json runtime_json].
  rewrite !or_empty_object_dumps, !loads_dumps. reflexivity.
Qed.

Lemma load_row_id (entry : string * Row) (y : string * J * J) :
  load_row entry = Some y -> y.1.1 = entry.1.
Proof.
  unfold load_row. intros Hl.
  destruct (loads (or_empty_object (config_json entry.2))); [|discriminate].
  destruct (loads (or_empty_object (runtime_json entry.2))); [|discriminate].
  cbn in Hl. inversion Hl. reflexivity.
Qed.

(** Both saves write the same thing when both have been made: the row of the
    pair holds the two dumps. *)
Lemma save_config_then_runtime (id : string) (c r : J) (table : gmap string Row) :
  save_pair_runtime id r (save_pair_config id c table)
  = <[id := {| config_json := dumps c; runtime_json := dumps r |}]> table.
Proof.
  unfold save_pair_runtime, save_pair_config.
  destruct (table !! id) as [row|] eqn:E;
    rewrite lookup_insert_eq; cbn [config_json runtime_json];
    apply insert_insert_eq.
Qed.

Lemma save_runtime_then_config (id : string) (c r : J) (table : gmap string Row) :
  save_pair_config id c (save_pair_runtime id r table)
  = <[id := {| config_json := dumps c; runtime_json := dumps r |}]> table.
Proof.
  unfold save_pair_runtime, save_pair_config.
  destruct (table !! id) as [row|] eqn:E;
    rewrite lookup_insert_eq; cbn [config_json runtime_json];
    apply insert_insert_eq.
Qed.

(** A save changes the column it writes and keeps the other one. *)
Lemma save_pair_config_sibling (id : string) (c : J) (table : gmap string Row)
  (row : Row) :
  table !! id = Some row ->
  save_pair_config id c table !! id
  = Some {| config_json := dumps c; runtime_json := runtime_json row |}.
Proof.
  intros E. unfold save_pair_config. rewrite E. apply lookup_insert_eq.
Qed.

Lemma save_pair_runtime_sibling (id : string) (r : J) (table : gmap string Row)
  (row : Row) :
  table !! id = Some row ->
  save_pair_runtime id r table !! id
  = Some {| config_json := config_json row; runtime_json := dumps r |}.
Proof.
  intros E. unfold save_pair_runtime. rewrite E. apply lookup_insert_eq.
Qed.

Lemma mapM_elem_of {A B : Type} (f : A -> option B) (l : list A) (k : list B) :
  mapM f l = Some k ->
  forall y, y ∈ k <-> exists x, x ∈ l /\ f x = Some y.
Proof.
  rewrite mapM_Some. induction 1 as [|x y l k Hxy Hrest IH]; intros z.
  - split; [intros Hz; inversion Hz | intros (x & Hx & _); inversion Hx].
  - rewrite elem_of_cons, IH. split.
    + intros [->|(x' & Hx' & Hf)].
      * exists x. split; [left|assumption].
      * exists x'. split; [right; assumption|assumption].
    + intros (x' & Hx' & Hf). apply elem_of_cons in Hx' as [->|Hx'].
      * left. congruence.
      * right. exists x'. split; assumption.
Qed.

Lemma mapM_keys {A B K : Type} (f : A -> option B) (g : B -> K) (h : A -> K)
  (l : list A) (k : list B) :
  (forall x y, f x = Some y -> g y = h x) ->
  mapM f l = Some k -> g <$> k = h <$> l.
Proof.
  intros Hkey. rewrite mapM_Some.
  induction 1 as [|x y l k Hxy Hrest IH]; [reflexivity|].
  cbn. rewrite IH. f_equal. apply Hkey. assumption.
Qed.

Lemma decodable_insert (id : string) (c r : J) (table : gmap string Row) :
  decodable table ->
  decodable (<[id := {| config_json := dumps c; runtime_json := dumps r |}]> table).
Proof.
  intros Hdec id' row. rewrite lookup_insert.
  destruct (decide (id = id')) as [->|Hne].
  - intros Hrow. inversion Hrow. rewrite load_row_saved. eexists; reflexivity.
  - apply Hdec.
Qed.

Lemma load_all_pairs_decodable (table : gmap string Row) :
  decodable table -> is_Some (load_all_pairs table).
Proof.
  intros Hdec. unfold load_all_pairs. apply mapM_is_Some.
  apply Forall_forall. intros [id row] Hin.
  apply elem_of_map_to_list in Hin. apply (Hdec id row Hin).
Qed.

(** After the two saves, loading gives exactly one record for the pair. *)
Lemma load_after_saves (id : string) (c r : J) (table : gmap string Row) :
  decodable table ->
  exists rows,
    load_all_pairs
      (<[id := {| config_json := dumps c; runtime_json := dumps r |}]> table)
    = Some rows
    /\ NoDup ((fun rec : string * J * J => rec.1.1) <$> rows)
    /\ (forall c' r', (id, c', r') ∈ rows <-> c' = c /\ r' = r).
Proof.
  intros Hdec.
  set (table' := <[id := {| config_json := dumps c; runtime_json := dumps r |}]> table).
  destruct (load_all_pairs_decodable table') as [rows Hrows].
  { apply decodable_insert. exact Hdec. }
  exists rows. split; [exact Hrows|]. split.
  - rewrite (mapM_keys load_row (fun rec : string * J * J => rec.1.1) fst
               (map_to_list table') rows); [|apply load_row_id|exact Hrows].
    apply NoDup_fst_map_to_list.
  - intros c' r'. rewrite (mapM_elem_of _ _ _ Hrows). split.
    + intros ([id' row] & Hin & Hload).
      pose proof (load_row_id _ _ Hload) as Hid. cbn in Hid. subst id'.
      apply elem_of_map_to_list in Hin.
      unfold table' in Hin. rewrite lookup_insert_eq in Hin.
      inversion Hin; subst row. rewrite load_row_saved in Hload.
      inversion Hload. split; reflexivity.
    + intros [-> ->].
      exists (id, {| config_json := dumps c; runtime_json := dumps r |}).
      split; [|apply load_row_saved].
      apply elem_of_map_to_list. unfold table'. apply lookup_insert_eq.
Qed.

(** C8.  On a table without corrupt rows, after [save_pair_config id c] and
    [save_pair_runtime id r], in either order, [load_all_pairs] returns a list
    with exactly one record for [id] (pair ids are not repeated), whose config
    is [c] and whose runtime is [r]; and each save on an existing row
    keeps the sibling column: a config save keeps the stored runtime, a
    runtime save keeps the stored config. *)
Theorem save_then_load (id : string) (c r : J) (table : gmap string Row) :
  decodable table ->
  (forall table',
      table' = save_pair_runtime id r (save_pair_config id c table)
      \/ table' = save_pair_config id c (save_pair_runtime id r table) ->
      exists rows,
        load_all_pairs table' = Some rows
        /\ NoDup ((fun rec : string * J * J => rec.1.1) <$> rows)
        /\ (forall c' r', (id, c', r') ∈ rows <-> c' = c /\ r' = r))
  /\ (forall row,
         table !! id = Some row ->
         save_pair_config id c table !! id
         = Some {| config_json := dumps c; runtime_json := runtime_json row |}
         /\ save_pair_runtime id r table !! id
            = Some {| config_json := config_json row; runtime_json := dumps r |}).
Proof.
  intros Hdec. split.
  - intros table' [-> | ->].
    + rewrite save_config_then_runtime. apply load_after_saves. exact Hdec.
    + rewrite save_runtime_then_config. apply load_after_saves. exact Hdec.
  - intros row Hrow. split.
    + apply save_pair_config_sibling. exact Hrow.
    + apply save_pair_runtime_sibling. exact Hrow.
Qed.

End Codec.

Lemma decodable_empty : decodable (J := string) ∅.
Proof. intros id row Hl. rewrite lookup_empty in Hl. discriminate Hl. Qed.

Lemma save_then_load_witness :
  exists rows : list (string * string * string),
    load_all_pairs
      (save_pair_runtime "BTCUSDT" "runtime"
         (save_pair_config "BTCUSDT" "config" ∅))
    = Some rows
    /\ ("BTCUSDT", "config", "runtime") ∈ rows.
Proof.
  destruct (save_then_load "BTCUSDT" "config" "runtime" ∅ decodable_empty)
    as [Hload _].
  destruct (Hload _ (or_introl eq_refl)) as (rows & Hrows & _ & Hmem).
  exists rows. split; [exact Hrows|].
  apply Hmem. split; reflexivity.
Defined.

Example save_then_load_sample :
  load_all_pairs
    (save_pair_config "BTCUSDT" "config2"
       (save_pair_runtime "BTCUSDT" "runtime"
          (save_pair_config "BTCUSDT" "config" ∅)))
  = Some [("BTCUSDT", "config2", "runtime")].
Proof. vm_compute. reflexivity. Qed.

End StoreFacts.

(** ** Pair worker *)

Module WorkerFacts.
Import Strategy Feed Orders Worker.

(** The position attributes of a flat worker: what [_reset_position_state]
    leaves behind. *)
Definition flat (w : PairWorker) : Prop :=
  position_open w = false
  /\ order_in_progress w = false
  /\ entry_price w = None
  /\ take_profit_price w = None
  /\ stop_loss_price w = None
  /\ safety_orders_used w = 0%Z
  /\ total_qty w = 0
  /\ total_cost w = 0
  /\ average_price w = 0
  /\ last_order_usdt w = 0
  /\ _safety_order_in_progress w = false
  /\ break_even_armed w = false
  /\ break_even_price w = 0.

Lemma reset_position_state_flat (w : PairWorker) : flat (_reset_position_state w).
Proof. unfold flat. repeat split. Qed.

(** What [_close_position] does with a close of [qty] at [exit_price]. *)
Lemma close_position_filled (feed : WebSocketManager) (exchange : Exchange)
  (now : Q) (w : PairWorker) (close_result : Fill) :
  obtain_close feed exchange w = Returns (Some close_result) ->
  snd (_close_position feed exchange now w) = Normal
  /\ trades_closed (fst (_close_position feed exchange now w))
     = {| report_pair := pair_name w;
          report_pnl := close_pnl w (fill_price close_result) (quantity close_result);
          report_mode := mode w;
          report_direction := direction w |} :: trades_closed w
  /\ flat (fst (_close_position feed exchange now w))
  /\ _last_close_timestamp (fst (_close_position feed exchange now w)) = now
  /\ _last_close_price (fst (_close_position feed exchange now w))
     = fill_price close_result.
Proof.
  intros Hc. unfold _close_position. rewrite Hc.
  destruct (_pending_strategy_settings w) as [pending|] eqn:Hp.
  - cbn. rewrite Hp. cbn. unfold flat. repeat split.
  - cbn. rewrite Hp. cbn. unfold flat. repeat split.
Qed.

(** The exit price of a close, mode by mode. *)
Lemma obtain_close_paper (feed : WebSocketManager) (exchange : Exchange)
  (w : PairWorker) (price : Q) :
  run_mode (strategy_settings w) = "Paper" ->
  price_of (prices feed) (pair_name w) = Some price ->
  obtain_close feed exchange w
  = Returns (Some {| quantity := total_qty w; fill_price := price |}).
Proof.
  intros Hm Hp. unfold obtain_close. rewrite Hm, Hp. reflexivity.
Qed.

Lemma close_position_futures_exit (price_source : gmap key Q)
  (exchange : Exchange) (symbol : string) (close_result : Fill) :
  close_position_futures price_source exchange symbol
  = Returns (Some close_result) ->
  exists order_data,
    get_order_status exchange O = Returns order_data
    /\ ((exists avg, avgPrice order_data = Some avg /\ 0 < avg
                     /\ fill_price close_result = avg)
        \/ ((forall avg, avgPrice order_data = Some avg -> avg <= 0)
            /\ fill_price close_result
               = default 0 (price_of price_source symbol))).
Proof.
  unfold close_position_futures.
  destruct (get_position exchange) as [|pos]; [discriminate|].
  destruct (Qeqb (default 0 (positionAmt pos)) 0); [discriminate|].
  destruct (place_order exchange) as [|oid]; [discriminate|].
  destruct (get_order_status exchange O) as [|order_data]; [discriminate|].
  intros Hr. inversion Hr; subst close_result; clear Hr.
  exists order_data. split; [reflexivity|]. cbn [fill_price].
  destruct (avgPrice order_data) as [avg|].
  - change (default 0 (Some avg)) with avg.
    destruct (Qleb avg 0) eqn:E.
    + right. split; [|reflexivity].
      intros avg' Ha. inversion Ha; subst avg'. apply Qleb_le. exact E.
    + left. exists avg. repeat split. apply Qleb_gt. exact E.
  - right. split; [intros avg Ha; discriminate Ha|]. reflexivity.
Qed.

Lemma close_position_spot_exit (price_source : gmap key Q)
  (exchange : Exchange) (pair : string) (qty : Q) (close_result : Fill) :
  close_position_spot price_source exchange pair qty
  = Returns (Some close_result) ->
  exists status_data,
    get_order_status exchange O = Returns status_data
    /\ quantity close_result = default qty (executedQty status_data)
    /\ ((0 < default 0 (cummulativeQuoteQty status_data)
         /\ 0 < quantity close_result
         /\ fill_price close_result
            = default 0 (cummulativeQuoteQty status_data) / quantity close_result)
        \/ (~ (0 < default 0 (cummulativeQuoteQty status_data)
               /\ 0 < quantity close_result)
            /\ fill_price close_result = default 0 (price_of price_source pair))).
Proof.
  unfold close_position_spot.
  destruct (Qleb qty 0); [discriminate|].
  destruct (place_order exchange) as [|oid]; [discriminate|].
  destruct (get_order_status exchange O) as [|status_data]; [discriminate|].
  intros Hr. inversion Hr; subst close_result; clear Hr.
  exists status_data. split; [reflexivity|]. cbn [quantity fill_price].
  split; [reflexivity|].
  destruct (Qgtb (default 0 (cummulativeQuoteQty status_data)) 0) eqn:E1;
    destruct (Qgtb (default qty (executedQty status_data)) 0) eqn:E2;
    cbn [andb].
  - left. apply Qgtb_gt in E1. apply Qgtb_gt in E2. repeat split; assumption.
  - right. split; [|reflexivity]. intros [_ H2].
    apply Qgtb_gt in H2. congruence.
  - right. split; [|reflexivity]. intros [H1 _].
    apply Qgtb_gt in H1. congruence.
  - right. split; [|reflexivity]. intros [H1 _].
    apply Qgtb_gt in H1. congruence.
Qed.

(** The exit price of a close is the fill average of the closing order, and
    the ticker price when the exchange reports no average (or, in Paper
    mode, always). *)
Definition exit_price_source (feed : WebSocketManager) (exchange : Exchange)
  (w : PairWorker) (close_result : Fill) : Prop :=
  if String.eqb (run_mode (strategy_settings w)) "Paper" then
    price_of (prices feed) (pair_name w) = Some (fill_price close_result)
  else
    exists status_data,
      get_order_status exchange O = Returns status_data
      /\ if _is_futures_mode w then
           (exists avg, avgPrice status_data = Some avg /\ 0 < avg
                        /\ fill_price close_result = avg)
           \/ ((forall avg, avgPrice status_data = Some avg -> avg <= 0)
               /\ fill_price close_result
                  = default 0 (price_of (prices feed) (pair_name w)))
         else
           (0 < default 0 (cummulativeQuoteQty status_data)
            /\ 0 < quantity close_result
            /\ fill_price close_result
               = default 0 (cummulativeQuoteQty status_data)
                 / quantity close_result)
           \/ (~ (0 < default 0 (cummulativeQuoteQty status_data)
                  /\ 0 < quantity close_result)
               /\ fill_price close_result
                  = default 0 (price_of (prices feed) (pair_name w))).

Lemma obtain_close_exit_price (feed : WebSocketManager) (exchange : Exchange)
  (w : PairWorker) (close_result : Fill) :
  obtain_close feed exchange w = Returns (Some close_result) ->
  exit_price_source feed exchange w close_result.
Proof.
  unfold obtain_close, exit_price_source.
  destruct (String.eqb (run_mode (strategy_settings w)) "Paper").
  - destruct (price_of (prices feed) (pair_name w)) as [p|]; [|discriminate].
    intros Hr. inversion Hr. reflexivity.
  - destruct (_is_futures_mode w).
    + apply close_position_futures_exit.
    + intros Hr. apply close_position_spot_exit in Hr.
      destruct Hr as (sd & Hs & _ & Hcases). exists sd. split; assumption.
Qed.

(** C3.  When a position closes with exit price [exit] and quantity [qty],
    the PnL reported to [on_trade_closed] equals
    [(gross - exit_commission) - total_cost] with
    [exit_commission = commission_pct/100 * qty * exit] and
    [gross = exit * qty] for LONG, [(2 * average_price - exit) * qty] for
    SHORT; the exit price is the fill average with the ticker price as the
    fallback; after the close the runtime is flat and the close time and
    the close price are recorded. *)
Theorem close_position_accounting (feed : WebSocketManager)
  (exchange : Exchange) (now : Q) (w : PairWorker) (close_result : Fill) :
  obtain_close feed exchange w = Returns (Some close_result) ->
  (exists report,
      trades_closed (fst (_close_position feed exchange now w))
      = report :: trades_closed w
      /\ (direction w = "LONG" ->
          report_pnl report
          == (fill_price close_result * quantity close_result
              - commission_pct (strategy_settings w) / 100
                * quantity close_result * fill_price close_result)
             - total_cost w)
      /\ (direction w = "SHORT" ->
          report_pnl report
          == ((2 * average_price w - fill_price close_result)
              * quantity close_result
              - commission_pct (strategy_settings w) / 100
                * quantity close_result * fill_price close_result)
             - total_cost w))
  /\ exit_price_source feed exchange w close_result
  /\ flat (fst (_close_position feed exchange now w))
  /\ _last_close_timestamp (fst (_close_position feed exchange now w)) = now
  /\ _last_close_price (fst (_close_position feed exchange now w))
     = fill_price close_result.
Proof.
  intros Hc.
  destruct (close_position_filled feed exchange now w close_result Hc)
    as (_ & Hrep & Hflat & Hts & Hpr).
  split; [|split; [apply obtain_close_exit_price; exact Hc|]].
  - eexists. split; [exact Hrep|]. cbn [report_pnl]. unfold close_pnl.
    split; intros Hd; rewrite Hd; cbn [String.eqb Ascii.eqb Bool.eqb];
      reflexivity.
  - split; [exact Hflat | split; [exact Hts | exact Hpr]].
Qed.

(** *** Scenarios to run the worker on *)

(** Settings for the scenarios: the defaults of the dataclass, one-candle
    indicator periods, and the fields the scenarios vary. *)
Definition scenario_settings (run_mode mode side : string)
  (futures use_market : bool) (base commission cooldown adx_level : Q)
  (count : Z) : StrategySettings := {|
  rsi_period := 1;
  rsi_level := 30;
  ema_period := 1;
  adx_period := 1;
  timeframe := "1m";
  take_profit_pct := 1;
  base_order_size_usdt := base;
  order_timeout_sec := 3;
  use_market_order := use_market;
  safety_step_pct := 2;
  safety_orders_count := count;
  volume_multiplier := 3 # 2;
  commission_pct := commission;
  enable_futures := futures;
  leverage := 5;
  margin_mode := "Cross";
  break_even_after_percent := 3 # 10;
  futures_position_side := side;
  Strategy.mode := mode;
  cooldown_minutes := cooldown;
  anti_reentry_threshold_pct := 2 # 10;
  run_mode := run_mode;
  use_rsi := true;
  use_ema_trend_filter := true;
  use_adx_filter := true;
  use_volume_filter := false;
  use_atr_filter := false;
  adx_threshold := adx_level;
  volume_spike_multiplier := 3 # 2;
  atr_min_value := 0;
  position_size_mode := "Fixed";
  risk_per_trade_pct := 1;
  max_total_exposure_pct := 30;
  protection_orders_on_exchange := true;
  enable_stop_loss := false;
  stop_loss_mode := "Off";
  stop_loss_pct := 1;
  auto_resume_running_pairs := false
|}.

(** A worker holding a position of [qty] bought for [cost] in all, after one
    order of [last_usdt]. *)
Definition holding (direction : string) (qty cost last_usdt : Q)
  (w : PairWorker) : PairWorker :=
  _recalculate_sl
    (_recalculate_tp
       (set_break_even_price (cost / qty)
          (set_last_order_usdt last_usdt
             (set_average_price (cost / qty)
                (set_total_cost cost
                   (set_total_qty qty
                      (set_entry_price (Some (cost / qty))
                         (set_direction direction
                            (set_position_open true w))))))))).

(** An exchange every call of which raises. *)
Definition unreachable_exchange : Exchange := {|
  place_order := Raises;
  get_order_status := fun _ => Raises;
  get_position := Raises;
  futures_get_mark_price := None;
  get_balance := Raises;
  set_margin_type_and_leverage := Raises
|}.

(** An exchange that accepts an order and reports it with the given
    status on every status call. *)
Definition answering_exchange (status : OrderStatus) (balance : Q) : Exchange := {|
  place_order := Returns 42%Z;
  get_order_status := fun _ => Returns status;
  get_position := Returns {| positionAmt := None; entryPrice := None |};
  futures_get_mark_price := None;
  get_balance := Returns (Some balance);
  set_margin_type_and_leverage := Returns tt
|}.

(** The feed after [version] closed candles, the last trade at [price]. *)
Definition feed_at (price : Q) (closes : list Q) : WebSocketManager := {|
  prices := {[ KStr "BTCUSDT" := price ]};
  Feed.candles := {[ KStr "BTCUSDT" := List.map StrategyFacts.flat_candle closes ]};
  candle_versions := {[ KStr "BTCUSDT" := Z.of_nat (List.length closes) ]}
|}.

(** A live spot worker holding 1 BTC bought for 100 closes at an average of
    101.1 with a commission of 0.1 percent. *)
Lemma close_position_accounting_witness :
  exists report,
    trades_closed
      (fst (_close_position (feed_at 101 [100])
              (answering_exchange
                 {| status := "FILLED"; executedQty := Some 1;
                    cummulativeQuoteQty := Some (1011 # 10);
                    avgPrice := None |} 1000)
              7
              (holding "LONG" 1 100 100
                 (new_worker "BTCUSDT" "Spot"
                    (scenario_settings "Live" "Spot" "Long" false true
                       100 (1 # 10) 0 20 0)))))
    = [report]
    /\ report_pnl report == 9989 # 10000.
Proof.
  set (w := holding "LONG" 1 100 100
              (new_worker "BTCUSDT" "Spot"
                 (scenario_settings "Live" "Spot" "Long" false true
                    100 (1 # 10) 0 20 0))).
  set (ex := answering_exchange
               {| status := "FILLED"; executedQty := Some 1;
                  cummulativeQuoteQty := Some (1011 # 10);
                  avgPrice := None |} 1000).
  assert (Hc : obtain_close (feed_at 101 [100]) ex w
               = Returns (Some {| quantity := 1;
                                  fill_price := (1011 # 10) / 1 |}))
    by reflexivity.
  destruct (close_position_accounting (feed_at 101 [100]) ex 7 w _ Hc)
    as ((report & Hrep & Hlong & _) & _).
  exists report. split; [exact Hrep|].
  rewrite Hlong by reflexivity. reflexivity.
Defined.

(** *** The entry gate *)









(** *** Entries need a LONG signal *)

(** The attributes that describe the position and its history. *)
Definition position_of (w : PairWorker) :=
  (position_open w, direction w, entry_price w, take_profit_price w,
   stop_loss_price w, safety_orders_used w, total_qty w, total_cost w,
   average_price w, last_order_usdt w, break_even_armed w,
   break_even_price w, trades_closed w).

Lemma sync_latest_candles_position (feed : WebSocketManager) (w : PairWorker) :
  position_of (_sync_latest_candles feed w) = position_of w
  /\ strategy (_sync_latest_candles feed w) = strategy w.
Proof.
  unfold _sync_latest_candles.
  destruct (default [] (Feed.candles feed !! KStr (pair_name w)));
    split; reflexivity.
Qed.

Lemma process_closed_candle_not_long (ie : IndicatorEngine)
  (feed : WebSocketManager) (now : Q) (exchange : Exchange) (exposure : Q)
  (w : PairWorker) :
  snd (generate_signal ie (strategy w) (Some (candles w))) <> Some "LONG" ->
  exists w',
    _process_closed_candle_if_needed ie feed now exchange exposure w = done w'
    /\ position_of w' = position_of w.
Proof.
  intros Hsig. unfold _process_closed_candle_if_needed.
  destruct ((default 0%Z (candle_versions feed !! KStr (pair_name w)) =? 0)%Z
            || (default 0%Z (candle_versions feed !! KStr (pair_name w))
                =? _last_candle_version w)%Z);
    [exists w; split; reflexivity|].
  cbn [strategy_settings candles strategy set_last_candle_version].
  match goal with
  | |- context [if ?c then _ else _] => destruct c
  end; [eexists; split; reflexivity|].
  destruct (generate_signal ie (strategy w) (Some (candles w))) as [st sig].
  cbn [snd] in Hsig. rewrite bool_decide_eq_false_2 by exact Hsig.
  cbn [andb]. eexists; split; reflexivity.
Qed.

Lemma process_dca_flat (feed : WebSocketManager) (exchange : Exchange)
  (w : PairWorker) :
  position_open w = false -> _process_dca feed exchange w = done w.
Proof. intros H. unfold _process_dca. rewrite H. reflexivity. Qed.

Lemma check_break_even_flat (feed : WebSocketManager) (exchange : Exchange)
  (now : Q) (w : PairWorker) :
  position_open w = false -> _check_break_even feed exchange now w = done w.
Proof.
  intros H. unfold _check_break_even. rewrite H.
  destruct (_is_futures_mode w); reflexivity.
Qed.

Lemma check_take_profit_flat (feed : WebSocketManager) (exchange : Exchange)
  (now : Q) (w : PairWorker) :
  position_open w = false -> _check_take_profit feed exchange now w = done w.
Proof. intros H. unfold _check_take_profit. rewrite H. reflexivity. Qed.

Lemma periodic_position_sync_flat (exchange : Exchange) (now : Q)
  (w : PairWorker) :
  position_open w = false ->
  exists w', _periodic_position_sync exchange now w = done w'
             /\ position_of w' = position_of w.
Proof.
  intros H. unfold _periodic_position_sync.
  destruct (Qltb (now - _last_position_sync w) 30);
    [exists w; split; reflexivity|].
  destruct (get_position exchange) as [|position];
    [eexists; split; reflexivity|].
  cbn [position_open set_last_position_sync]. rewrite H. cbn [andb].
  eexists; split; reflexivity.
Qed.

Lemma position_of_open (w w' : PairWorker) :
  position_of w' = position_of w -> position_open w' = position_open w.
Proof. unfold position_of. intros H. inversion H. reflexivity. Qed.

(** C10.  From a flat worker, an iteration of the loop whose strategy signal
    is not LONG (SHORT or none) ends normally and leaves the worker flat:
    no position is opened, quantity, cost, direction and the list of closed
    trades are what they were.  This holds for every settings record,
    futures with [futures_position_side = Short] included: the entry path
    is guarded by [signal == "LONG"]. *)
Theorem short_signal_never_opens (ie : IndicatorEngine) (t : Tick)
  (w : PairWorker) :
  position_open w = false ->
  snd (generate_signal ie (strategy w)
         (Some (candles (_sync_latest_candles (feed t) w))))
  <> Some "LONG" ->
  snd (run_loop_iteration ie t w) = Normal
  /\ position_open (fst (run_loop_iteration ie t w)) = false
  /\ position_of (fst (run_loop_iteration ie t w)) = position_of w.
Proof.
  intros Hflat Hsig.
  destruct (sync_latest_candles_position (feed t) w) as [Hp0 Hs0].
  set (w0 := _sync_latest_candles (feed t) w) in *.
  rewrite <- Hs0 in Hsig.
  destruct (process_closed_candle_not_long ie (feed t) (now t)
              (entry_exchange t) (current_exposure t) w0 Hsig)
    as (w1 & Hstep1 & Hp1).
  assert (Hflat1 : position_open w1 = false).
  { rewrite (position_of_open _ _ Hp1), (position_of_open _ _ Hp0). exact Hflat. }
  destruct (periodic_position_sync_flat (sync_exchange t) (now t) w1 Hflat1)
    as (w2 & Hstep2 & Hp2).
  assert (Hrun : run_loop_iteration ie t w = done w2).
  { unfold run_loop_iteration. cbn [and_then done]. fold w0.
    rewrite Hstep1. cbn [and_then done].
    rewrite (process_dca_flat _ _ _ Hflat1). cbn [and_then done].
    rewrite (check_break_even_flat _ _ _ _ Hflat1). cbn [and_then done].
    rewrite (check_take_profit_flat _ _ _ _ Hflat1). cbn [and_then done].
    exact Hstep2. }
  rewrite Hrun. cbn [fst snd done].
  assert (Hall : position_of w2 = position_of w) by congruence.
  split; [reflexivity|]. split; [|exact Hall].
  rewrite (position_of_open _ _ Hall). exact Hflat.
Qed.

(** A futures worker configured for the Short side sees a SHORT signal
    (RSI above the level, close below the EMA, ADX above the threshold) and
    stays flat. *)
Definition short_side_worker : PairWorker :=
  new_worker "BTCUSDT" "Futures"
    (scenario_settings "Live" "Futures" "Short" true true 25 (1 # 10) 0 20 3).

Definition short_signal_tick : Tick := {|
  feed := feed_at 80 [80];
  now := 1;
  current_exposure := 0;
  entry_exchange := answering_exchange
                      {| status := "FILLED"; executedQty := None;
                         cummulativeQuoteQty := None; avgPrice := None |} 1000;
  dca_exchange := unreachable_exchange;
  break_even_exchange := unreachable_exchange;
  take_profit_exchange := unreachable_exchange;
  sync_exchange := unreachable_exchange
|}.

Lemma short_signal_never_opens_witness :
  snd (generate_signal
         (StrategyFacts.constant_indicators (Some 75) (Some 90) (Some 25) None)
         (strategy short_side_worker)
         (Some (candles (_sync_latest_candles (feed short_signal_tick)
                           short_side_worker))))
  = Some "SHORT"
  /\ position_open
       (fst (run_loop_iteration
               (StrategyFacts.constant_indicators (Some 75) (Some 90) (Some 25) None)
               short_signal_tick short_side_worker))
     = false.
Proof.
  split; [reflexivity|].
  apply (short_signal_never_opens
           (StrategyFacts.constant_indicators (Some 75) (Some 90) (Some 25) None)
           short_signal_tick short_side_worker).
  - reflexivity.
  - vm_compute. discriminate.
Defined.

(** *** Safety orders that are not filled *)

(** Reading an attribute through the recalculation of the protective
    prices: these only write [take_profit_price] and [stop_loss_price]. *)
Ltac through_protection :=
  unfold refresh_protection_orders, _recalculate_sl, _recalculate_tp, done;
  repeat match goal with
         | |- context [if ?c then _ else _] => destruct c
         end;
  try reflexivity.

(** Whether an order fills does not depend on the in-flight flags or on the
    remembered order size. *)
Lemma obtain_fill_flags (feed : WebSocketManager) (exchange : Exchange)
  (usdt_amount last : Q) (a b : bool) (w : PairWorker) :
  obtain_fill feed exchange usdt_amount
    (set_last_order_usdt last
       (set_order_in_progress a (set_safety_order_in_progress b w)))
  = obtain_fill feed exchange usdt_amount w.
Proof. reflexivity. Qed.

(** The DCA trigger of [_process_dca] at [price]. *)
Definition dca_triggered (w : PairWorker) (price : Q) : bool :=
  if String.eqb (direction w) "LONG"
  then Qleb price
         (average_price w * (1 - safety_step_pct (strategy_settings w) / 100))
  else Qgeb price
         (average_price w * (1 + safety_step_pct (strategy_settings w) / 100)).

(** A triggered safety order that does not fill (the order manager returns
    [None] or ["not_filled"]) is counted all the same: the guard
    [if not self.position_open] of the DCA path reads a flag that is already
    true, so the used count and the order size are stepped. *)
Lemma dca_counts_unfilled_order (feed : WebSocketManager) (exchange : Exchange)
  (w : PairWorker) (price take_profit : Q) :
  position_open w = true ->
  _safety_order_in_progress w = false ->
  order_in_progress w = false ->
  (safety_orders_used w < safety_orders_count (strategy_settings w))%Z ->
  price_of (prices feed) (pair_name w) = Some price ->
  0 < average_price w ->
  dca_triggered w price = true ->
  take_profit_price w = Some take_profit ->
  obtain_fill feed exchange
    (last_order_usdt w * volume_multiplier (strategy_settings w)) w
  = Returns None ->
  safety_orders_used (fst (_process_dca feed exchange w))
  = (safety_orders_used w + 1)%Z
  /\ last_order_usdt (fst (_process_dca feed exchange w))
     = last_order_usdt w * volume_multiplier (strategy_settings w)
  /\ total_qty (fst (_process_dca feed exchange w)) = total_qty w
  /\ total_cost (fst (_process_dca feed exchange w)) = total_cost w.
Proof.
  intros Hopen Hsafe Hidle Hused Hprice Havg Htrig Htp Hnofill.
  unfold _process_dca. rewrite Hopen, Hsafe, Hidle. cbn [negb orb].
  apply Z.leb_gt in Hused. rewrite Hused. rewrite Hprice.
  apply Qleb_gt in Havg. rewrite Havg.
  unfold dca_triggered in Htrig. rewrite Htrig. cbn [negb].
  unfold _open_order_with_usdt.
  cbn [order_in_progress set_safety_order_in_progress].
  rewrite Hidle.
  cbn [last_order_usdt strategy_settings set_safety_order_in_progress].
  rewrite obtain_fill_flags, Hnofill.
  cbn [finally done and_then fst snd position_open set_order_in_progress
       set_last_order_usdt set_safety_order_in_progress].
  rewrite Hopen. cbn [negb].
  cbn [take_profit_price set_break_even_price set_safety_orders_used
       set_last_order_usdt set_order_in_progress set_safety_order_in_progress].
  rewrite Htp.
  repeat split; through_protection.
Qed.

(** A live futures worker, LONG 0.25 BTC at 100 after a first order of 25
    USDT, with three safety orders allowed and limit orders. *)
Definition dca_worker : PairWorker :=
  holding "LONG" (1 # 4) 25 25
    (new_worker "BTCUSDT" "Futures"
       (scenario_settings "Live" "Futures" "Long" true false
          25 (1 # 10) 0 20 3)).

(** The exchange accepts the limit order and keeps reporting it NEW until
    the order timeout. *)
Definition never_filling_exchange : Exchange :=
  answering_exchange
    {| status := "NEW"; executedQty := None; cummulativeQuoteQty := None;
       avgPrice := None |} 1000.

(** C4, on the code.  The price falls to 97, two percent and more below the
    average of 100, so the first safety order is placed; it times out and
    [open_position_futures] returns ["not_filled"].  The position is what it
    was, and yet [safety_orders_used] has gone from 0 to 1 and
    [last_order_usdt] from 25 to 37.5. *)
Theorem unfilled_safety_order_is_counted :
  open_position_futures (prices (feed_at 97 [100])) never_filling_exchange
    "BTCUSDT" "LONG" (25 * (3 # 2)) false 3
  = Returns FuturesNotFilled
  /\ safety_orders_used dca_worker = 0%Z
  /\ last_order_usdt dca_worker = 25
  /\ snd (_process_dca (feed_at 97 [100]) never_filling_exchange dca_worker)
     = Normal
  /\ total_qty
       (fst (_process_dca (feed_at 97 [100]) never_filling_exchange dca_worker))
     = total_qty dca_worker
  /\ safety_orders_used
       (fst (_process_dca (feed_at 97 [100]) never_filling_exchange dca_worker))
     = 1%Z
  /\ last_order_usdt
       (fst (_process_dca (feed_at 97 [100]) never_filling_exchange dca_worker))
     = 75 # 2.
Proof.
  split; [vm_compute; reflexivity|].
  split; [vm_compute; reflexivity|].
  split; [vm_compute; reflexivity|].
  split; [vm_compute; reflexivity|].
  split; [vm_compute; reflexivity|].
  split; [vm_compute; reflexivity|].
  vm_compute; reflexivity.
Qed.

(** The same with an order the exchange rejects ([place_order] raises and
    the order manager returns [None]), on a spot worker. *)
Example rejected_safety_order_is_counted :
  safety_orders_used
    (fst (_process_dca (feed_at 97 [100]) unreachable_exchange
            (holding "LONG" (1 # 4) 25 25
               (new_worker "BTCUSDT" "Spot"
                  (scenario_settings "Live" "Spot" "Long" false true
                     25 (1 # 10) 0 20 3)))))
  = 1%Z.
Proof. vm_compute. reflexivity. Qed.

(** *** The runtime invariants *)

(** A Paper worker whose base order size is 0 (any text the settings form
    parses as a float is accepted). *)
Definition zero_size_worker : PairWorker :=
  new_worker "BTCUSDT" "Spot"
    (scenario_settings "Paper" "Spot" "Long" false true 0 (1 # 10) 0 20 3).

Definition funded_exchange : Exchange :=
  answering_exchange
    {| status := "FILLED"; executedQty := None; cummulativeQuoteQty := None;
       avgPrice := None |} 1000.

(** C1, on the code.  A flat Paper worker with [base_order_size_usdt = 0]
    satisfies the invariants.  Its entry at a ticker price of 100 is a paper
    fill of quantity [0 / 100]: [position_open] is set, the quantity stays
    zero, and the division [total_cost / total_qty] raises.  The worker is
    left with [position_open = True] and [total_qty = 0], which breaks
    [position_open <-> total_qty > 0].  The live paths return before the
    fill when the rounded quantity is not positive; the Paper path has no
    such guard. *)
Theorem zero_size_paper_entry_breaks_invariants :
  runtime_invariants zero_size_worker
  /\ obtain_fill (feed_at 100 [100]) funded_exchange 0 zero_size_worker
     = Returns (Some {| quantity := 0 / 100; fill_price := 100 |})
  /\ snd (_open_initial_position (feed_at 100 [100]) funded_exchange 0
            zero_size_worker) = Raised
  /\ position_open
       (fst (_open_initial_position (feed_at 100 [100]) funded_exchange 0
               zero_size_worker)) = true
  /\ total_qty
       (fst (_open_initial_position (feed_at 100 [100]) funded_exchange 0
               zero_size_worker)) == 0
  /\ ~ runtime_invariants
         (fst (_open_initial_position (feed_at 100 [100]) funded_exchange 0
                 zero_size_worker)).
Proof.
  split.
  { unfold runtime_invariants. split; [|split].
    - split; intros H; vm_compute in H; discriminate H.
    - intros H. vm_compute in H. discriminate H.
    - vm_compute. discriminate. }
  split; [vm_compute; reflexivity|].
  split; [vm_compute; reflexivity|].
  assert (Hopen : position_open
                    (fst (_open_initial_position (feed_at 100 [100])
                            funded_exchange 0 zero_size_worker)) = true)
    by (vm_compute; reflexivity).
  split; [exact Hopen|].
  split; [vm_compute; reflexivity|].
  intros (Hiff & _ & _). apply Hiff in Hopen.
  vm_compute in Hopen. discriminate Hopen.
Qed.

(** The same entry seen from the loop: a LONG signal on the first closed
    candle, and the iteration ends by the exception with the worker marked
    open on a zero quantity. *)
Example zero_size_paper_iteration :
  let t := {| feed := feed_at 100 [100]; now := 1; current_exposure := 0;
              entry_exchange := funded_exchange;
              dca_exchange := unreachable_exchange;
              break_even_exchange := unreachable_exchange;
              take_profit_exchange := unreachable_exchange;
              sync_exchange := unreachable_exchange |} in
  let r := run_loop_iteration
             (StrategyFacts.constant_indicators (Some 25) (Some 90) (Some 25) None)
             t zero_size_worker in
  snd r = Raised /\ position_open (fst r) = true /\ total_qty (fst r) == 0.
Proof.
  cbv zeta.
  split; [vm_compute; reflexivity|].
  split; [vm_compute; reflexivity|].
  vm_compute; reflexivity.
Qed.

(** Reading attributes through assignments. *)
Ltac fields :=
  cbn [pair_name mode strategy_settings strategy running candles
       _last_candle_version position_open order_in_progress direction
       entry_price take_profit_price stop_loss_price safety_orders_used
       total_qty total_cost average_price last_order_usdt
       _safety_order_in_progress break_even_armed break_even_price
       _futures_leverage _futures_margin_mode _last_position_sync
       _pending_strategy_settings _last_close_timestamp _last_close_price
       needs_resync trades_closed
       set_mode set_strategy_settings set_strategy set_running set_candles
       set_last_candle_version set_position_open set_order_in_progress
       set_direction set_entry_price set_take_profit_price
       set_stop_loss_price set_safety_orders_used set_total_qty
       set_total_cost set_average_price set_last_order_usdt
       set_safety_order_in_progress set_break_even_armed
       set_break_even_price set_futures_leverage set_futures_margin_mode
       set_last_position_sync set_pending_strategy_settings
       set_last_close_timestamp set_last_close_price set_needs_resync
       set_trades_closed fst snd] in *.

(** The attributes the invariants read. *)
Definition accounts (w : PairWorker) :=
  (position_open w, total_qty w, total_cost w, average_price w,
   safety_orders_used w, strategy_settings w).

Lemma accounts_invariants (w w' : PairWorker) :
  accounts w' = accounts w ->
  (runtime_invariants w' /\ 0 <= total_qty w')
  <-> (runtime_invariants w /\ 0 <= total_qty w).
Proof.
  unfold accounts, runtime_invariants. intros H. inversion H as [[H1 H2 H3 H4 H5 H6]].
  rewrite H1, H2, H3, H4, H5, H6. reflexivity.
Qed.

Lemma accounts_protection (w : PairWorker) :
  accounts (refresh_protection_orders w) = accounts w
  /\ accounts (_recalculate_sl w) = accounts w
  /\ accounts (_recalculate_tp w) = accounts w.
Proof.
  unfold refresh_protection_orders.
  destruct (negb (_is_futures_mode w) || negb (position_open w));
    repeat split.
Qed.

(** [_reset_position_state] keeps the invariants (the count of safety
    orders allowed is not negative). *)
Lemma reset_position_state_invariants (w : PairWorker) :
  (0 <= safety_orders_count (strategy_settings w))%Z ->
  runtime_invariants (_reset_position_state w)
  /\ 0 <= total_qty (_reset_position_state w).
Proof.
  intros Hcount. unfold runtime_invariants, _reset_position_state. fields.
  split; [|apply Qle_refl].
  split; [|split].
  - split; [discriminate|]. intros H. exfalso. apply (Qlt_irrefl 0 H).
  - intros H. exfalso. apply (Qlt_irrefl 0 H).
  - exact Hcount.
Qed.


End WorkerFacts.

(** ** Backtest engine against the live rules *)

Module BacktestFacts.
Import Strategy Feed Orders Worker.

(** The indicator values of the comparison: on every bar the RSI is 25, the
    EMA 90 and the ADX [adx]. *)
Definition bar_at (adx close : Q) : Backtest.Bar :=
  {| Backtest.bar_close := close; Backtest.rsi := Some 25;
     Backtest.ema := Some 90; Backtest.adx := Some adx |}.

(** The Paper iteration of the live worker on the candle that closes at the
    last of [closes], the ticker at that close. *)
Definition paper_tick (closes : list Q) (price : Q) : Tick := {|
  feed := WorkerFacts.feed_at price closes;
  now := 1;
  current_exposure := 0;
  entry_exchange := WorkerFacts.funded_exchange;
  dca_exchange := WorkerFacts.funded_exchange;
  break_even_exchange := WorkerFacts.funded_exchange;
  take_profit_exchange := WorkerFacts.funded_exchange;
  sync_exchange := WorkerFacts.funded_exchange
|}.

Definition comparison_settings (adx_level : Q) : StrategySettings :=
  WorkerFacts.scenario_settings "Paper" "Spot" "Long" false true
    25 (1 # 10) 0 adx_level 3.

(** The live worker fed the candles closing at 100 and then at 102. *)
Definition live_after_two_candles (adx adx_level : Q) : PairWorker :=
  let ie := StrategyFacts.constant_indicators (Some 25) (Some 90) (Some adx) None in
  let w0 := new_worker "BTCUSDT" "Spot" (comparison_settings adx_level) in
  let w1 := fst (run_loop_iteration ie (paper_tick [100] 100) w0) in
  fst (run_loop_iteration ie (paper_tick [100; 102] 102) w1).

(** The PnL of the trades a run has closed, oldest first. *)
Definition live_pnls (w : PairWorker) : list Q :=
  List.rev (List.map report_pnl (trades_closed w)).

Definition backtest_pnls (r : reply Backtest.Run) : list Q :=
  match r with
  | Raises => []
  | Returns run => Backtest.trade_results run
  end.

(** C2, on the code.  Three runs in which the backtest and the live rules
    part on the same candles.
    - Commission: with the default filters the two take the same entry at
      100 and the same take-profit exit at 102, but the live worker books
      the entry commission into [total_cost] and the backtest does not: the
      live trade closes with 0.4495 and the simulated one with 0.4745.
    - Threshold: with [adx_threshold = 25] and an ADX of 22 the strategy
      gives no signal, while the backtest, which compares the ADX with the
      constant 20, enters and closes a trade.
    - Direction: on a SHORT signal (RSI above the level, close below the
      EMA) the backtest opens a position and the live worker does not. *)
Theorem backtest_diverges_from_live :
  (exists live simulated,
      live_pnls (live_after_two_candles 25 20) = [live]
      /\ backtest_pnls
           (Backtest.run_backtest (comparison_settings 20)
              [bar_at 25 100; bar_at 25 102]) = [simulated]
      /\ live == 899 # 2000
      /\ simulated == 949 # 2000
      /\ ~ live == simulated)
  /\ (snd (generate_signal
             (StrategyFacts.constant_indicators (Some 25) (Some 90) (Some 22) None)
             (new_strategy (comparison_settings 25))
             (Some [StrategyFacts.flat_candle 100])) = None
      /\ Backtest.bar_signal (comparison_settings 25) 100 25 90 22 = Some "LONG"
      /\ live_pnls (live_after_two_candles 22 25) = []
      /\ List.length
           (backtest_pnls
              (Backtest.run_backtest (comparison_settings 25)
                 [bar_at 22 100; bar_at 22 102])) = 1%nat)
  /\ (snd (generate_signal
             (StrategyFacts.constant_indicators (Some 75) (Some 90) (Some 25) None)
             (new_strategy (comparison_settings 20))
             (Some [StrategyFacts.flat_candle 80])) = Some "SHORT"
      /\ position_open
           (fst (run_loop_iteration
                   (StrategyFacts.constant_indicators
                      (Some 75) (Some 90) (Some 25) None)
                   (paper_tick [80] 80)
                   (new_worker "BTCUSDT" "Spot" (comparison_settings 20))))
         = false
      /\ exists run pos,
           Backtest.run_backtest (comparison_settings 20)
             [{| Backtest.bar_close := 80; Backtest.rsi := Some 75;
                 Backtest.ema := Some 90; Backtest.adx := Some 25 |}]
           = Returns run
           /\ Backtest.position run = Some pos
           /\ Backtest.direction pos = "SHORT").
Proof.
  split; [|split].
  - eexists. eexists.
    split; [vm_compute; reflexivity|].
    split; [vm_compute; reflexivity|].
    split; [vm_compute; reflexivity|].
    split; [vm_compute; reflexivity|].
    intros H. vm_compute in H. discriminate H.
  - split; [vm_compute; reflexivity|].
    split; [vm_compute; reflexivity|].
    split; [vm_compute; reflexivity|].
    vm_compute; reflexivity.
  - split; [vm_compute; reflexivity|].
    split; [vm_compute; reflexivity|].
    eexists. eexists.
    split; [vm_compute; reflexivity|].
    split; [vm_compute; reflexivity|].
    vm_compute; reflexivity.
Qed.

End BacktestFacts.

(** * Further properties of the code *)

(** ** Risk manager: the streak over a sequence of trades *)

Module RiskStreak.
Import Risk.

(** The manager after the results [results] have been registered in order. *)
Definition register_all (rm : RiskManager) (results : list Q) : RiskManager :=
  List.fold_left (fun rm pnl => fst (register_trade_result rm pnl)) results rm.

(** The number of strictly negative results at the head of a list. *)
Fixpoint leading_losses (results : list Q) : nat :=
  match results with
  | [] => O
  | pnl :: rest => if Qltb pnl 0 then S (leading_losses rest) else O
  end.

(** The number of strictly negative results at the end of a list. *)
Definition trailing_losses (results : list Q) : nat :=
  leading_losses (List.rev results).

Lemma register_all_snoc (rm : RiskManager) (results : list Q) (pnl : Q) :
  register_all rm (results ++ [pnl])%list
  = fst (register_trade_result (register_all rm results) pnl).
Proof. unfold register_all. rewrite List.fold_left_app. reflexivity. Qed.

Lemma trailing_losses_snoc (results : list Q) (pnl : Q) :
  trailing_losses (results ++ [pnl])%list
  = if Qltb pnl 0 then S (trailing_losses results) else O.
Proof. unfold trailing_losses. rewrite List.rev_unit. reflexivity. Qed.

(** Starting from a fresh manager, the counter is the length of the run of
    losses that ends the history; in particular it is never negative, and a
    single result that is not a loss forgets every earlier loss. *)
Theorem consecutive_losses_is_trailing_run (results : list Q) :
  consecutive_losses (register_all initialize results)
  = Z.of_nat (trailing_losses results).
Proof.
  induction results as [|pnl results IH] using List.rev_ind; [reflexivity|].
  rewrite register_all_snoc, trailing_losses_snoc.
  unfold register_trade_result. cbn [fst consecutive_losses].
  destruct (Qltb pnl 0); [rewrite IH; lia | reflexivity].
Qed.

(** The call that registers the last result of a history asks for the
    global stop exactly when the history ends with three losses or more. *)
Theorem stop_after_three_trailing_losses (results : list Q) (pnl : Q) :
  snd (register_trade_result (register_all initialize results) pnl) = true
  <-> (3 <= trailing_losses (results ++ [pnl])%list)%nat.
Proof.
  rewrite trailing_losses_snoc.
  pose proof (consecutive_losses_is_trailing_run results) as Hc.
  unfold register_trade_result. cbn [snd].
  destruct (Qltb pnl 0).
  - rewrite Hc, Z.leb_le. lia.
  - cbn. split; [discriminate | lia].
Qed.

End RiskStreak.

(** ** Strategy: what the filters exclude *)

Module StrategyFilters.
Import Strategy StrategyFacts.

(** The default settings with the five filter toggles chosen. *)
Definition filter_settings (rsi ema adx vol atr : bool) : StrategySettings := {|
  rsi_period := 14; rsi_level := 30; ema_period := 200; adx_period := 14;
  timeframe := "1m"; take_profit_pct := 1; base_order_size_usdt := 25;
  order_timeout_sec := 30; use_market_order := true; safety_step_pct := 2;
  safety_orders_count := 3; volume_multiplier := 3 # 2;
  commission_pct := 1 # 10; enable_futures := false; leverage := 5;
  margin_mode := "Cross"; break_even_after_percent := 3 # 10;
  futures_position_side := "Long"; mode := "Spot"; cooldown_minutes := 0;
  anti_reentry_threshold_pct := 2 # 10; run_mode := "Live";
  use_rsi := rsi; use_ema_trend_filter := ema; use_adx_filter := adx;
  use_volume_filter := vol; use_atr_filter := atr;
  adx_threshold := 20; volume_spike_multiplier := 3 # 2; atr_min_value := 0;
  position_size_mode := "Fixed"; risk_per_trade_pct := 1;
  max_total_exposure_pct := 30; protection_orders_on_exchange := true;
  enable_stop_loss := false; stop_loss_mode := "Off"; stop_loss_pct := 1;
  auto_resume_running_pairs := false
|}.

Lemma rsi_one_direction (ie : IndicatorEngine) (df : Frame) (s : StrategySettings) :
  check_rsi ie df s "LONG" = true -> check_rsi ie df s "SHORT" = true -> False.
Proof.
  unfold check_rsi. cbn [String.eqb Ascii.eqb Bool.eqb].
  destruct (calculate_rsi ie df (rsi_period s)) as [rsi|]; [|discriminate].
  intros Hl Hs. apply Qltb_lt in Hl. apply Qgtb_gt in Hs.
  apply (Qlt_irrefl rsi). apply Qlt_trans with (rsi_level s); assumption.
Qed.

Lemma ema_one_direction (ie : IndicatorEngine) (df : Frame) (s : StrategySettings) :
  check_ema_trend ie df s "LONG" = true ->
  check_ema_trend ie df s "SHORT" = true -> False.
Proof.
  unfold check_ema_trend. cbn [String.eqb Ascii.eqb Bool.eqb].
  destruct (calculate_ema ie df (ema_period s)) as [ema|]; [|discriminate].
  intros Hl Hs. apply Qgtb_gt in Hl. apply Qltb_lt in Hs.
  apply (Qlt_irrefl ema). apply Qlt_trans with (last_close df); assumption.
Qed.

(** With the RSI filter or the EMA trend filter enabled, the two directions
    never pass together: the LONG-first tie-break of [generate_signal] is
    only ever used when both of these filters are off. *)
Theorem directional_filter_excludes_tie (ie : IndicatorEngine) (df : Frame)
  (s : StrategySettings) :
  use_rsi s = true \/ use_ema_trend_filter s = true ->
  fst (evaluate_conditions ie df s "LONG") = true ->
  fst (evaluate_conditions ie df s "SHORT") = true ->
  False.
Proof.
  intros Hdir Hl Hs.
  apply evaluate_conditions_valid in Hl. apply evaluate_conditions_valid in Hs.
  destruct Hl as (_ & Hlr & Hle & _). destruct Hs as (_ & Hsr & Hse & _).
  destruct Hdir as [Hr|He].
  - apply (rsi_one_direction ie df s); auto.
  - apply (ema_one_direction ie df s); auto.
Qed.

Lemma directional_filter_excludes_tie_witness :
  fst (evaluate_conditions
         (constant_indicators (Some 25) (Some 90) (Some 25) None)
         [flat_candle 100] default_settings "LONG") = true
  /\ fst (evaluate_conditions
            (constant_indicators (Some 25) (Some 90) (Some 25) None)
            [flat_candle 100] default_settings "SHORT") = false.
Proof.
  split; [reflexivity|].
  destruct (fst (evaluate_conditions
                   (constant_indicators (Some 25) (Some 90) (Some 25) None)
                   [flat_candle 100] default_settings "SHORT")) eqn:E;
    [|reflexivity].
  exfalso.
  apply (directional_filter_excludes_tie
           (constant_indicators (Some 25) (Some 90) (Some 25) None)
           [flat_candle 100] default_settings).
  - left. reflexivity.
  - reflexivity.
  - exact E.
Defined.

(** With both directional filters off, the remaining filters (ADX, volume,
    ATR) do not look at the direction: the two verdicts agree and the
    signal is never SHORT, for any frame and any indicator values. *)
Theorem no_short_without_directional_filter (ie : IndicatorEngine)
  (self : BaseStrategy) (df : option Frame) :
  use_rsi (settings self) = false ->
  use_ema_trend_filter (settings self) = false ->
  snd (generate_signal ie self df) <> Some "SHORT".
Proof.
  intros Hr He.
  destruct df as [df|]; [|discriminate].
  destruct df as [|c df]; [discriminate|].
  rewrite generate_signal_nonempty by discriminate.
  assert (Hsame : fst (evaluate_conditions ie (c :: df) (settings self) "SHORT")
                  = fst (evaluate_conditions ie (c :: df) (settings self) "LONG")).
  { rewrite !evaluate_conditions_verdict, Hr, He. reflexivity. }
  rewrite Hsame.
  destruct (fst (evaluate_conditions ie (c :: df) (settings self) "LONG"));
    discriminate.
Qed.

Lemma no_short_without_directional_filter_witness :
  snd (generate_signal
         (constant_indicators (Some 75) (Some 90) (Some 25) None)
         (new_strategy (filter_settings true true true false false))
         (Some [flat_candle 80])) = Some "SHORT"
  /\ snd (generate_signal
            (constant_indicators (Some 75) (Some 90) (Some 25) None)
            (new_strategy (filter_settings false false true false false))
            (Some [flat_candle 80])) <> Some "SHORT".
Proof.
  split; [reflexivity|].
  apply (no_short_without_directional_filter
           (constant_indicators (Some 75) (Some 90) (Some 25) None)
           (new_strategy (filter_settings false false true false false))
           (Some [flat_candle 80])); reflexivity.
Defined.

(** The volume filter needs a previous candle: with it enabled, a frame of
    fewer than two rows gives no signal, whatever the other filters say. *)
Theorem volume_filter_needs_two_candles (ie : IndicatorEngine)
  (self : BaseStrategy) (df : Frame) :
  use_volume_filter (settings self) = true ->
  (List.length df < 2)%nat ->
  snd (generate_signal ie self (Some df)) = None.
Proof.
  intros Hv Hlen.
  destruct df as [|c df]; [reflexivity|].
  rewrite generate_signal_nonempty by discriminate.
  assert (Hno : forall d,
             fst (evaluate_conditions ie (c :: df) (settings self) d) = false).
  { intros d.
    destruct (fst (evaluate_conditions ie (c :: df) (settings self) d)) eqn:E;
      [|reflexivity].
    apply evaluate_conditions_valid in E.
    destruct E as (_ & _ & _ & _ & Hvol & _). specialize (Hvol Hv).
    unfold check_volume_spike in Hvol.
    apply Nat.ltb_lt in Hlen. rewrite Hlen in Hvol. discriminate Hvol. }
  rewrite !Hno. reflexivity.
Qed.

Lemma volume_filter_needs_two_candles_witness :
  snd (generate_signal
         (constant_indicators (Some 25) (Some 90) (Some 25) None)
         (new_strategy (filter_settings true true true false false))
         (Some [flat_candle 100])) = Some "LONG"
  /\ snd (generate_signal
            (constant_indicators (Some 25) (Some 90) (Some 25) None)
            (new_strategy (filter_settings true true true true false))
            (Some [flat_candle 100])) = None.
Proof.
  split; [reflexivity|].
  apply (volume_filter_needs_two_candles
           (constant_indicators (Some 25) (Some 90) (Some 25) None)
           (new_strategy (filter_settings true true true true false))
           [flat_candle 100]).
  - reflexivity.
  - cbn. lia.
Defined.

End StrategyFilters.

(** ** Market feed: tickers, and the caches over a stream of payloads *)

Module FeedStream.
Import Strategy Feed FeedFacts.

(** A ticker payload carries a price: its symbol [s] is truthy and hashable
    (the key [k]) and its member [c] is present, not null and converts to
    the float [p]. *)
Definition priced_ticker (fs : string -> parsed)
  (payload : list (string * json)) (k : key) (p : Q) : Prop :=
  exists sym c,
    get "s" payload = Some sym
    /\ truthy (Some sym) = true
    /\ dict_key sym = Some k
    /\ get "c" payload = Some c
    /\ c <> JNull
    /\ to_float fs c = Converted p.

(** A ticker payload on whose price [float] raises OverflowError: the
    symbol is truthy and [c] is an integer beyond the double range. *)
Definition overflowing_ticker (fs : string -> parsed)
  (payload : list (string * json)) : Prop :=
  exists sym c,
    get "s" payload = Some sym
    /\ truthy (Some sym) = true
    /\ get "c" payload = Some c
    /\ to_float fs c = Overflow.

(** A ticker payload whose price converts to inf or nan and is stored. *)
Definition not_rational_ticker (fs : string -> parsed)
  (payload : list (string * json)) : Prop :=
  exists sym c k,
    get "s" payload = Some sym
    /\ truthy (Some sym) = true
    /\ dict_key sym = Some k
    /\ get "c" payload = Some c
    /\ to_float fs c = NotRational.

(** No payload of the three kinds fits the facts at hand. *)
Ltac no_such_ticker :=
  unfold priced_ticker, overflowing_ticker, not_rational_ticker;
  intros;
  repeat match goal with
         | H : ex _ |- _ => destruct H
         | H : _ /\ _ |- _ => destruct H
         end;
  subst; cbn [to_float] in *; congruence.

Lemma overflow_not_null (fs : string -> parsed) (c : json) :
  to_float fs c = Overflow -> c <> JNull.
Proof. intros H ->. discriminate H. Qed.

Lemma not_rational_not_null (fs : string -> parsed) (c : json) :
  to_float fs c = NotRational -> c <> JNull.
Proof. intros H ->. discriminate H. Qed.

Lemma not_null_test (c : json) :
  c <> JNull -> (match c with JNull => true | _ => false end) = false.
Proof. destruct c; intros H; try reflexivity. contradiction. Qed.

(** What the handler does with each kind of payload. *)
Lemma handle_miniticker_priced (fs : string -> parsed)
  (self : WebSocketManager) (payload : list (string * json)) (k : key) (p : Q) :
  priced_ticker fs payload k p ->
  _handle_miniticker fs self payload
  = Some ({| prices := <[k := p]> (prices self);
             candles := candles self;
             candle_versions := candle_versions self |}, Normal).
Proof.
  intros (sym & c & Hs & Ht & Hd & Hc & Hne & Hf).
  unfold _handle_miniticker. rewrite Hc, Hs, Ht, (not_null_test c Hne), Hf.
  cbn [andb negb mbind option_bind]. rewrite Hd. reflexivity.
Qed.

Lemma handle_miniticker_overflowing (fs : string -> parsed)
  (self : WebSocketManager) (payload : list (string * json)) :
  overflowing_ticker fs payload ->
  _handle_miniticker fs self payload = Some (self, Raised).
Proof.
  intros (sym & c & Hs & Ht & Hc & Hf).
  unfold _handle_miniticker.
  rewrite Hc, Hs, Ht, (not_null_test c (overflow_not_null fs c Hf)), Hf.
  reflexivity.
Qed.

Lemma handle_miniticker_not_rational (fs : string -> parsed)
  (self : WebSocketManager) (payload : list (string * json)) :
  not_rational_ticker fs payload ->
  _handle_miniticker fs self payload = None.
Proof.
  intros (sym & c & k & Hs & Ht & Hd & Hc & Hf).
  unfold _handle_miniticker.
  rewrite Hc, Hs, Ht, (not_null_test c (not_rational_not_null fs c Hf)), Hf.
  cbn [andb negb mbind option_bind]. rewrite Hd. reflexivity.
Qed.

(** Every payload is of one of the three kinds or is dropped. *)
Lemma handle_miniticker_cases (fs : string -> parsed)
  (self : WebSocketManager) (payload : list (string * json)) :
  (exists k p, priced_ticker fs payload k p)
  \/ overflowing_ticker fs payload
  \/ not_rational_ticker fs payload
  \/ _handle_miniticker fs self payload = Some (self, Normal).
Proof.
  unfold _handle_miniticker.
  destruct (get "c" payload) as [c|] eqn:Hc; [|right; right; right; reflexivity].
  destruct (get "s" payload) as [sym|] eqn:Hs;
    [|right; right; right; reflexivity].
  destruct (truthy (Some sym)) eqn:Ht; [|right; right; right; reflexivity].
  destruct (match c with JNull => true | _ => false end) eqn:Hnull;
    [right; right; right; reflexivity|].
  assert (Hne : c <> JNull) by (intros ->; discriminate Hnull).
  cbn [andb negb mbind option_bind].
  destruct (to_float fs c) as [p| | |] eqn:Hf.
  - destruct (dict_key sym) as [k|] eqn:Hd; [|right; right; right; reflexivity].
    left. exists k, p, sym, c. repeat split; assumption.
  - destruct (dict_key sym) as [k|] eqn:Hd; [|right; right; right; reflexivity].
    right; right; left. exists sym, c, k. repeat split; assumption.
  - right; right; right. reflexivity.
  - right; left. exists sym, c. repeat split; assumption.
Qed.

(** [_handle_miniticker] never touches the candle caches.  A payload that
    carries a price stores it under its symbol and leaves the other prices
    alone.  The handler raises exactly on the payloads on whose price
    [float] raises OverflowError, and then it changes nothing; any other
    payload is dropped and changes nothing either.  The handler model has
    no result exactly for the payloads whose price converts to inf or nan
    and is stored. *)
Theorem handle_miniticker_spec (fs : string -> parsed)
  (self : WebSocketManager) (payload : list (string * json)) :
  (forall k p,
      priced_ticker fs payload k p ->
      _handle_miniticker fs self payload
      = Some ({| prices := <[k := p]> (prices self);
                 candles := candles self;
                 candle_versions := candle_versions self |}, Normal))
  /\ (overflowing_ticker fs payload ->
      _handle_miniticker fs self payload = Some (self, Raised))
  /\ (forall r,
         _handle_miniticker fs self payload = Some r ->
         candles (fst r) = candles self
         /\ candle_versions (fst r) = candle_versions self
         /\ (snd r = Raised <-> overflowing_ticker fs payload)
         /\ (~ (exists k p, priced_ticker fs payload k p) -> fst r = self))
  /\ (_handle_miniticker fs self payload = None
      <-> not_rational_ticker fs payload).
Proof.
  split; [apply handle_miniticker_priced|].
  split; [apply handle_miniticker_overflowing|].
  split.
  - intros r Hr.
    destruct (handle_miniticker_cases fs self payload)
      as [(k & p & Hp) | [Ho | [Hn | Hsame]]].
    + rewrite (handle_miniticker_priced fs self payload k p Hp) in Hr.
      inversion Hr; subst r. cbn [fst snd candles candle_versions].
      split; [reflexivity|]. split; [reflexivity|].
      split; [split; [discriminate|]|].
      * intros Ho. exfalso. revert Hp Ho. clear. no_such_ticker.
      * intros Hnot. exfalso. apply Hnot. exists k, p. exact Hp.
    + rewrite (handle_miniticker_overflowing fs self payload Ho) in Hr.
      inversion Hr; subst r. cbn [fst snd].
      split; [reflexivity|]. split; [reflexivity|].
      split; [split; [intros _; exact Ho | reflexivity]|reflexivity].
    + rewrite (handle_miniticker_not_rational fs self payload Hn) in Hr.
      discriminate Hr.
    + rewrite Hsame in Hr. inversion Hr; subst r. cbn [fst snd].
      split; [reflexivity|]. split; [reflexivity|].
      split; [split; [discriminate|]|reflexivity].
      intros Ho.
      rewrite (handle_miniticker_overflowing fs self payload Ho) in Hsame.
      discriminate Hsame.
  - split; [|apply handle_miniticker_not_rational].
    intros Hnone.
    destruct (handle_miniticker_cases fs self payload)
      as [(k & p & Hp) | [Ho | [Hn | Hsame]]].
    + rewrite (handle_miniticker_priced fs self payload k p Hp) in Hnone.
      discriminate Hnone.
    + rewrite (handle_miniticker_overflowing fs self payload Ho) in Hnone.
      discriminate Hnone.
    + exact Hn.
    + rewrite Hsame in Hnone. discriminate Hnone.
Qed.

Lemma handle_miniticker_spec_witness :
  exists self',
    _handle_miniticker decimal_float new_manager
      [("e", JStr "24hrMiniTicker"); ("s", JStr "BTCUSDT");
       ("c", JStr "101.25")]
    = Some (self', Normal)
    /\ prices self' !! KStr "BTCUSDT" = Some (10125 # 100).
Proof.
  destruct (handle_miniticker_spec decimal_float new_manager
              [("e", JStr "24hrMiniTicker"); ("s", JStr "BTCUSDT");
               ("c", JStr "101.25")]) as (Hset & _).
  eexists. split.
  - apply (Hset (KStr "BTCUSDT") (10125 # 100)).
    exists (JStr "BTCUSDT"), (JStr "101.25").
    repeat split; try reflexivity. discriminate.
  - apply lookup_insert_eq.
Defined.

(** A ticker whose price is the integer [10^400] makes the handler raise
    and stores nothing; the integer [10^300] is stored. *)
Example handle_miniticker_overflow :
  _handle_miniticker decimal_float new_manager
    [("e", JStr "24hrMiniTicker"); ("s", JStr "BTCUSDT");
     ("c", JInt (10 ^ 400))]
  = Some (new_manager, Raised)
  /\ (exists self',
        _handle_miniticker decimal_float new_manager
          [("e", JStr "24hrMiniTicker"); ("s", JStr "BTCUSDT");
           ("c", JInt (10 ^ 300))]
        = Some (self', Normal)
        /\ prices self' !! KStr "BTCUSDT" = Some (inject_Z (10 ^ 300))).
Proof.
  split; [vm_compute; reflexivity|].
  eexists. split; [vm_compute; reflexivity|]. vm_compute. reflexivity.
Qed.

(** The key a kline payload is stored under, when it is a well-formed
    closed candle. *)
Definition kline_key (fs : string -> parsed) (payload : list (string * json))
  : option key :=
  match get "s" payload, get "k" payload with
  | Some sym, Some (JObj members) =>
      if truthy (Some sym) && truthy (get "x" members) then
        match parse_candle fs members with
        | Parsed _ => dict_key sym
        | _ => None
        end
      else None
  | _, _ => None
  end.

Lemma kline_key_closed (fs : string -> parsed)
  (payload : list (string * json)) (k : key) :
  kline_key fs payload = Some k <-> exists c, closed_kline fs payload k c.
Proof.
  unfold kline_key, closed_kline. split.
  - destruct (get "s" payload) as [sym|]; [|discriminate].
    destruct (get "k" payload) as [kv|]; [|discriminate].
    destruct kv as [| | | | | |members]; try discriminate.
    destruct (truthy (Some sym)) eqn:Ht; [|discriminate].
    destruct (truthy (get "x" members)) eqn:Hx; [|discriminate].
    cbn [andb].
    destruct (parse_candle fs members) as [c| | |] eqn:Hc; try discriminate.
    intros Hd. exists c, sym, members. repeat split; assumption.
  - intros (c & sym & members & Hs & Ht & Hd & Hk & Hx & Hc).
    rewrite Hs, Hk, Ht, Hx, Hc. exact Hd.
Qed.

(** The caches after the kline payloads [payloads] have been handled in
    order.  A payload that makes the handler raise only costs the listener
    its connection: [_listen_binance] catches the exception, reconnects and
    goes on with the messages that follow; the caches stay.  There is no
    result when one of the payloads stores a candle that is no rational
    one. *)
Fixpoint handle_klines (fs : string -> parsed)
  (payloads : list (list (string * json))) (self : WebSocketManager)
  : option WebSocketManager :=
  match payloads with
  | [] => Some self
  | payload :: rest =>
      match _handle_kline fs self payload with
      | None => None
      | Some r => handle_klines fs rest (fst r)
      end
  end.

(** How many of the payloads are well-formed closed candles of [k]. *)
Definition closed_count (fs : string -> parsed) (k : key)
  (payloads : list (list (string * json))) : nat :=
  List.length
    (List.filter (fun payload => bool_decide (kline_key fs payload = Some k))
       payloads).

Lemma length_tl_pred {A : Type} (l : list A) :
  List.length (List.tl l) = (List.length l - 1)%nat.
Proof. destruct l; cbn [List.tl List.length]; lia. Qed.

Lemma append_bounded_length (data : list Candle) (c : Candle) :
  (List.length data <= 200)%nat ->
  List.length (append_bounded data c) = Nat.min 200 (List.length data + 1).
Proof.
  intros Hlen. unfold append_bounded.
  destruct (200 <? List.length (data ++ [c])%list)%nat eqn:E.
  - apply Nat.ltb_lt in E. rewrite length_tl_pred.
    rewrite List.length_app in *. cbn [List.length] in *. lia.
  - apply Nat.ltb_ge in E.
    rewrite List.length_app in *. cbn [List.length] in *. lia.
Qed.

Lemma handle_kline_step (fs : string -> parsed) (self : WebSocketManager)
  (payload : list (string * json)) (k : key) (r : WebSocketManager * outcome) :
  _handle_kline fs self payload = Some r ->
  let hit := if bool_decide (kline_key fs payload = Some k) then 1%nat else 0%nat in
  default 0%Z (candle_versions (fst r) !! k)
  = (default 0%Z (candle_versions self !! k) + Z.of_nat hit)%Z
  /\ ((List.length (default [] (candles self !! k)) <= 200)%nat ->
      List.length (default [] (candles (fst r) !! k))
      = Nat.min 200 (List.length (default [] (candles self !! k)) + hit))
  /\ prices (fst r) = prices self.
Proof.
  intros Hr. cbv zeta.
  destruct (handle_kline_cases fs self payload)
    as [(k0 & c & Hclosed) | [(_ & Hnone) | (o & Hsame)]].
  - rewrite (handle_kline_closed fs self payload k0 c Hclosed) in Hr.
    inversion Hr; subst r.
    assert (Hkey : kline_key fs payload = Some k0)
      by (apply kline_key_closed; exists c; exact Hclosed).
    rewrite Hkey. cbn [fst candle_appended candle_versions candles prices].
    destruct (decide (k0 = k)) as [->|Hne].
    + rewrite bool_decide_eq_true_2 by reflexivity.
      rewrite !lookup_insert_eq. cbn [default from_option id].
      split; [reflexivity|]. split; [|reflexivity].
      intros Hlen. rewrite append_bounded_length by exact Hlen. reflexivity.
    + rewrite bool_decide_eq_false_2 by congruence.
      rewrite !lookup_insert_ne by exact Hne.
      split; [lia|]. split; [|reflexivity]. intros Hlen. lia.
  - rewrite Hnone in Hr. discriminate Hr.
  - assert (Hkey : kline_key fs payload <> Some k).
    { intros Hk. apply kline_key_closed in Hk as [c Hc].
      rewrite (handle_kline_closed fs self payload k c Hc) in Hsame.
      inversion Hsame as [Heq].
      exact (candle_appended_changes self k c Heq). }
    rewrite Hsame in Hr. inversion Hr; subst r. cbn [fst].
    rewrite bool_decide_eq_false_2 by exact Hkey.
    split; [lia|]. split; [|reflexivity]. intros Hlen. lia.
Qed.

(** Over any stream of kline payloads (well formed or not, closed or not,
    making the handler raise or not): the version of a symbol grows by
    exactly the number of its well-formed closed candles, so it never
    decreases; a cache that held at most 200 candles holds
    [min 200 (held + closed)] of them, so it never exceeds 200; and no
    price is touched. *)
Theorem versions_count_closed_candles (fs : string -> parsed)
  (payloads : list (list (string * json))) (self self' : WebSocketManager)
  (k : key) :
  handle_klines fs payloads self = Some self' ->
  default 0%Z (candle_versions self' !! k)
  = (default 0%Z (candle_versions self !! k)
     + Z.of_nat (closed_count fs k payloads))%Z
  /\ ((List.length (default [] (candles self !! k)) <= 200)%nat ->
      List.length (default [] (candles self' !! k))
      = Nat.min 200 (List.length (default [] (candles self !! k))
                     + closed_count fs k payloads))
  /\ prices self' = prices self.
Proof.
  revert self. induction payloads as [|payload payloads IH]; intros self Hrun.
  - cbn [handle_klines] in Hrun. inversion Hrun; subst self'.
    unfold closed_count. cbn [List.filter List.length].
    split; [lia|]. split; [|reflexivity]. intros Hlen. lia.
  - cbn [handle_klines] in Hrun.
    destruct (_handle_kline fs self payload) as [r|] eqn:Hstep;
      [|discriminate Hrun].
    destruct (handle_kline_step fs self payload k r Hstep) as (Hv & Hc & Hp).
    destruct (IH (fst r) Hrun) as (IHv & IHc & IHp).
    unfold closed_count in *. cbn [List.filter].
    destruct (bool_decide (kline_key fs payload = Some k));
      cbn [List.length] in *.
    + split; [rewrite IHv, Hv; lia|]. split; [|congruence].
      intros Hlen. specialize (Hc Hlen). rewrite IHc; rewrite Hc; lia.
    + split; [rewrite IHv, Hv; lia|]. split; [|congruence].
      intros Hlen. specialize (Hc Hlen). rewrite IHc; rewrite Hc; lia.
Qed.

Lemma versions_count_closed_candles_witness :
  exists self',
    handle_klines decimal_float
      [sample_kline true; sample_kline false; sample_kline true]
      new_manager = Some self'
    /\ List.length (default [] (candles self' !! KStr "BTCUSDT")) = 2%nat.
Proof.
  destruct (handle_klines decimal_float
              [sample_kline true; sample_kline false; sample_kline true]
              new_manager) as [self'|] eqn:Hrun;
    [|vm_compute in Hrun; discriminate Hrun].
  exists self'. split; [reflexivity|].
  destruct (versions_count_closed_candles decimal_float
              [sample_kline true; sample_kline false; sample_kline true]
              new_manager self' (KStr "BTCUSDT") Hrun) as (_ & Hlen & _).
  rewrite Hlen; [reflexivity | vm_compute; lia].
Defined.

(** A closed candle whose volume is the integer [10^400]: the handler
    raises on it, the listener goes on, and the stream counts the two
    candles around it. *)
Definition overflowing_kline : list (string * json) :=
  [ ("e", JStr "kline"); ("s", JStr "BTCUSDT");
    ("k", JObj [ ("i", JStr "1m"); ("x", JBool true);
                 ("o", JStr "100.5"); ("h", JStr "101");
                 ("l", JStr "99.75"); ("c", JStr "100");
                 ("v", JInt (10 ^ 400)) ]) ].

Example overflowing_kline_is_skipped :
  _handle_kline decimal_float new_manager overflowing_kline
  = Some (new_manager, Raised)
  /\ kline_key decimal_float overflowing_kline = None
  /\ match handle_klines decimal_float
             [sample_kline true; overflowing_kline; sample_kline true]
             new_manager with
     | Some after => candle_versions after !! KStr "BTCUSDT"
     | None => None
     end = Some 2%Z.
Proof.
  split; [vm_compute; reflexivity|].
  split; vm_compute; reflexivity.
Qed.

End FeedStream.

(** ** State store: deletion, first saves, the application state *)

Module StoreRows.
Import Store AppStore StoreFacts.

Section Codec.
Context {J : Type} `{JsonCodec J}.

(** A save writes the row of its own pair only, the last save of a column
    wins, and the first save of a pair fills the sibling column with the
    empty object. *)
Theorem save_touches_one_row (id : string) (c c' r : J)
  (table : gmap string Row) :
  (forall id', id' <> id ->
      save_pair_config id c table !! id' = table !! id'
      /\ save_pair_runtime id r table !! id' = table !! id')
  /\ save_pair_config id c' (save_pair_config id c table)
     = save_pair_config id c' table
  /\ (table !! id = None ->
      load_row (id, default {| config_json := ""; runtime_json := "" |}
                      (save_pair_config id c table !! id))
      = Some (id, c, empty_object)
      /\ load_row (id, default {| config_json := ""; runtime_json := "" |}
                         (save_pair_runtime id r table !! id))
         = Some (id, empty_object, r)).
Proof.
  split; [|split].
  - intros id' Hne. unfold save_pair_config, save_pair_runtime.
    destruct (table !! id); split; apply lookup_insert_ne; congruence.
  - unfold save_pair_config.
    destruct (table !! id) as [row|] eqn:E;
      rewrite lookup_insert_eq; cbn [config_json runtime_json];
      apply insert_insert_eq.
  - intros Hnone. unfold save_pair_config, save_pair_runtime, coalesce_column.
    rewrite Hnone. rewrite !lookup_insert_eq.
    cbn [fmap option_fmap option_map]. unfold default, from_option, Datatypes.id.
    unfold load_row. cbn [fst snd config_json runtime_json].
    rewrite !or_empty_object_dumps, !loads_dumps.
    replace (or_empty_object "{}") with "{}" by reflexivity.
    rewrite loads_empty. split; reflexivity.
Qed.

Lemma mapM_all_some {A B : Type} (f : A -> option B) (l : list A) (k : list B) :
  mapM f l = Some k -> forall x, x ∈ l -> is_Some (f x).
Proof.
  intros Hm x Hx. assert (Hs : is_Some (mapM f l)) by (eexists; exact Hm).
  rewrite mapM_is_Some in Hs. rewrite Forall_forall in Hs. apply Hs. exact Hx.
Qed.

(** [delete_pair] removes the row of the pair and nothing else: what
    [load_all_pairs] returns afterwards is what it returned before, less the
    records of that pair. *)
Theorem delete_pair_removes_one (id : string) (table : gmap string Row)
  (rows : list (string * J * J)) :
  load_all_pairs table = Some rows ->
  exists rows',
    load_all_pairs (delete_pair id table) = Some rows'
    /\ forall rec : string * J * J,
         rec ∈ rows' <-> (rec ∈ rows /\ rec.1.1 <> id).
Proof.
  intros Hload. unfold load_all_pairs, delete_pair in *.
  assert (Hsome : is_Some (mapM load_row (map_to_list (delete id table)))).
  { apply mapM_is_Some. apply Forall_forall. intros [id' row] Hin.
    apply elem_of_map_to_list in Hin. apply lookup_delete_Some in Hin as [_ Hin].
    apply (mapM_all_some _ _ _ Hload). apply elem_of_map_to_list. exact Hin. }
  destruct Hsome as [rows' Hrows']. exists rows'. split; [exact Hrows'|].
  intros rec. rewrite (mapM_elem_of _ _ _ Hrows'), (mapM_elem_of _ _ _ Hload).
  split.
  - intros ([id' row] & Hin & Hrow).
    apply elem_of_map_to_list in Hin. apply lookup_delete_Some in Hin as [Hne Hin].
    split.
    + exists (id', row). split; [apply elem_of_map_to_list; exact Hin|exact Hrow].
    + rewrite (load_row_id _ _ Hrow). cbn. congruence.
  - intros (([id' row] & Hin & Hrow) & Hne).
    exists (id', row). split; [|exact Hrow].
    apply elem_of_map_to_list. apply lookup_delete_Some.
    apply elem_of_map_to_list in Hin. split; [|exact Hin].
    rewrite (load_row_id _ _ Hrow) in Hne. cbn in Hne. congruence.
Qed.

(** The application state: what is saved is what is loaded, the last save
    wins, and a store that was never written loads as the empty object. *)
Theorem app_state_round_trip (data data' : J) (table : AppTable) :
  load_app_state (save_app_state data table) = Some data
  /\ save_app_state data' (save_app_state data table) = save_app_state data' table
  /\ load_app_state (J := J) None = Some empty_object.
Proof.
  unfold load_app_state, save_app_state. repeat split.
  - destruct table; rewrite or_empty_object_dumps; apply loads_dumps.
  - destruct table; reflexivity.
Qed.

End Codec.

Lemma save_touches_one_row_witness :
  save_pair_config (J := string) "ETHUSDT" "c2"
    (save_pair_config "BTCUSDT" "c1" ∅) !! "BTCUSDT"
  = Some {| config_json := "{c1"; runtime_json := "{}" |}.
Proof.
  destruct (save_touches_one_row (J := string) "ETHUSDT" "c2" "c2" "r"
              (save_pair_config "BTCUSDT" "c1" ∅)) as (Hother & _ & _).
  destruct (Hother "BTCUSDT") as [Hcfg _]; [discriminate|].
  rewrite Hcfg. vm_compute. reflexivity.
Defined.

Lemma delete_pair_removes_one_witness :
  exists rows' : list (string * string * string),
    load_all_pairs
      (delete_pair "ETHUSDT"
         (save_pair_config "ETHUSDT" "c2"
            (save_pair_config "BTCUSDT" "c1" ∅)))
    = Some rows'
    /\ ("BTCUSDT", "c1", "}") ∈ rows'
    /\ ("ETHUSDT", "c2", "}") ∉ rows'.
Proof.
  assert (Hload : load_all_pairs
                    (save_pair_config "ETHUSDT" "c2"
                       (save_pair_config "BTCUSDT" "c1" ∅))
                  = Some [("ETHUSDT", "c2", "}"); ("BTCUSDT", "c1", "}")])
    by (vm_compute; reflexivity).
  destruct (delete_pair_removes_one "ETHUSDT" _ _ Hload) as (rows' & Hrows' & Hmem).
  exists rows'. split; [exact Hrows'|]. split.
  - apply Hmem. split; [|cbn; discriminate].
    apply elem_of_cons. right. apply elem_of_cons. left. reflexivity.
  - intros Hin. apply Hmem in Hin as [_ Hne]. apply Hne. reflexivity.
Defined.

End StoreRows.

(** ** Order manager: polling, sizing, fills *)

Module OrdersFacts.
Import Strategy Feed Orders.

(** The [i]-th status call answers FILLED. *)
Definition filled_at (exchange : Exchange) (i : nat) : Prop :=
  exists status_data,
    get_order_status exchange i = Returns status_data
    /\ status status_data = "FILLED".

Lemma filled_at_dec (exchange : Exchange) (i : nat) :
  {filled_at exchange i} + {~ filled_at exchange i}.
Proof.
  unfold filled_at.
  destruct (get_order_status exchange i) as [|sd] eqn:E.
  - right. intros (sd & H & _). discriminate H.
  - destruct (String.eqb (status sd) "FILLED") eqn:Es.
    + left. exists sd. split; [reflexivity|]. apply String.eqb_eq. exact Es.
    + right. intros (sd' & H & Hs). inversion H; subst sd'.
      apply String.eqb_neq in Es. contradiction.
Qed.

Lemma monitor_from_spec (exchange : Exchange) (remaining elapsed : nat) :
  (fst (monitor_from exchange remaining elapsed) = "FILLED"
   /\ (elapsed < snd (monitor_from exchange remaining elapsed)
       <= elapsed + remaining)%nat
   /\ filled_at exchange (snd (monitor_from exchange remaining elapsed) - 1)
   /\ forall j, (elapsed <= j < snd (monitor_from exchange remaining elapsed) - 1)%nat ->
                ~ filled_at exchange j)
  \/ (fst (monitor_from exchange remaining elapsed) = "TIMEOUT"
      /\ snd (monitor_from exchange remaining elapsed) = (elapsed + remaining)%nat
      /\ forall j, (elapsed <= j < elapsed + remaining)%nat ->
                   ~ filled_at exchange j).
Proof.
  revert elapsed. induction remaining as [|remaining IH]; intros elapsed.
  - right. cbn. split; [reflexivity|]. split; [lia|]. intros j Hj. lia.
  - cbn [monitor_from].
    destruct (filled_at_dec exchange elapsed) as [Hf|Hnf].
    + destruct Hf as (sd & Hsd & Hst). rewrite Hsd.
      apply String.eqb_eq in Hst. rewrite Hst. left. cbn [fst snd].
      split; [reflexivity|]. split; [lia|].
      replace (S elapsed - 1)%nat with elapsed by lia.
      split; [|intros j Hj; lia].
      exists sd. split; [exact Hsd|]. apply String.eqb_eq. exact Hst.
    + assert (Hstep : match get_order_status exchange elapsed with
                      | Raises => monitor_from exchange remaining (S elapsed)
                      | Returns status_data =>
                          if String.eqb (status status_data) "FILLED"
                          then ("FILLED", S elapsed)
                          else monitor_from exchange remaining (S elapsed)
                      end = monitor_from exchange remaining (S elapsed)).
      { destruct (get_order_status exchange elapsed) as [|sd] eqn:E;
          [reflexivity|].
        destruct (String.eqb (status sd) "FILLED") eqn:Es; [|reflexivity].
        exfalso. apply Hnf. exists sd. split; [exact E|].
        apply String.eqb_eq. exact Es. }
      rewrite Hstep.
      destruct (IH (S elapsed)) as [(Hv & Hc & Hat & Hbefore)|(Hv & Hc & Hnone)].
      * left. split; [exact Hv|]. split; [lia|]. split; [exact Hat|].
        intros j Hj. destruct (Nat.eq_dec j elapsed) as [->|Hne];
          [exact Hnf | apply Hbefore; lia].
      * right. split; [exact Hv|]. split; [lia|].
        intros j Hj. destruct (Nat.eq_dec j elapsed) as [->|Hne];
          [exact Hnf | apply Hnone; lia].
Qed.

(** The fill watchdog polls the order status once per second: it answers
    FILLED exactly when one of the first [timeout_sec] polls reports FILLED,
    and then it has stopped at the first such poll; otherwise it answers
    TIMEOUT after exactly [timeout_sec] polls (none at all when
    [timeout_sec <= 0]).  A poll that raises counts as a poll that did not
    report FILLED. *)
Theorem monitor_order_spec (exchange : Exchange) (timeout_sec : Z) :
  (fst (monitor_order_futures exchange timeout_sec) = "FILLED"
   <-> exists i, (i < Z.to_nat timeout_sec)%nat /\ filled_at exchange i)
  /\ (fst (monitor_order_futures exchange timeout_sec) = "FILLED"
      \/ fst (monitor_order_futures exchange timeout_sec) = "TIMEOUT")
  /\ (fst (monitor_order_futures exchange timeout_sec) = "FILLED" ->
      (snd (monitor_order_futures exchange timeout_sec) <= Z.to_nat timeout_sec)%nat
      /\ filled_at exchange (snd (monitor_order_futures exchange timeout_sec) - 1)
      /\ forall j, (j < snd (monitor_order_futures exchange timeout_sec) - 1)%nat ->
                   ~ filled_at exchange j)
  /\ (fst (monitor_order_futures exchange timeout_sec) = "TIMEOUT" ->
      snd (monitor_order_futures exchange timeout_sec) = Z.to_nat timeout_sec)
  /\ monitor_order_spot exchange timeout_sec
     = monitor_order_futures exchange timeout_sec.
Proof.
  unfold monitor_order_futures, monitor_order_spot.
  destruct (monitor_from_spec exchange (Z.to_nat timeout_sec) O)
    as [(Hv & Hc & Hat & Hbefore)|(Hv & Hc & Hnone)].
  - rewrite Hv. split; [|split; [|split; [|split]]].
    + split; [intros _|reflexivity].
      exists (snd (monitor_from exchange (Z.to_nat timeout_sec) O) - 1)%nat.
      split; [lia|exact Hat].
    + left. reflexivity.
    + intros _. split; [lia|]. split; [exact Hat|].
      intros j Hj. apply Hbefore. lia.
    + discriminate.
    + reflexivity.
  - rewrite Hv. split; [|split; [|split; [|split]]].
    + split; [discriminate|]. intros (i & Hi & Hf). exfalso.
      apply (Hnone i); [lia|exact Hf].
    + right. reflexivity.
    + discriminate.
    + intros _. rewrite Hc. reflexivity.
    + reflexivity.
Qed.

(** An exchange whose third status poll is the first to report FILLED. *)
Definition filling_at_third_poll : Exchange := {|
  place_order := Returns 42%Z;
  get_order_status := fun i =>
    if (i <? 2)%nat
    then Returns {| status := "NEW"; executedQty := None;
                    cummulativeQuoteQty := None; avgPrice := None |}
    else Returns {| status := "FILLED"; executedQty := Some (1 # 4);
                    cummulativeQuoteQty := Some 25; avgPrice := Some 100 |};
  get_position := Raises;
  futures_get_mark_price := None;
  get_balance := Raises;
  set_margin_type_and_leverage := Raises
|}.

Lemma monitor_order_spec_witness :
  monitor_order_futures filling_at_third_poll 30 = ("FILLED", 3%nat)
  /\ exists i, (i < Z.to_nat 30)%nat /\ filled_at filling_at_third_poll i.
Proof.
  split; [reflexivity|].
  apply (monitor_order_spec filling_at_third_poll 30). reflexivity.
Defined.

(** [calculate_entry_size_usdt] never proposes an order that would take the
    total exposure over the cap: whenever it returns a notional there are a
    positive price and a positive balance, the current exposure plus the
    notional is at most [balance * max_total_exposure_pct / 100], and in
    Fixed mode the notional is [base_order_size_usdt] itself. *)
Theorem entry_size_respects_exposure_cap (price_source : gmap key Q)
  (exchange : Exchange) (symbol : string) (settings : StrategySettings)
  (is_futures : bool) (leverage : Z) (current_exposure_usdt notional : Q) :
  calculate_entry_size_usdt price_source exchange symbol settings is_futures
    leverage current_exposure_usdt = Returns (Some notional) ->
  exists price balance,
    current_price_of price_source exchange symbol = Returns (Some price)
    /\ 0 < price
    /\ get_balance exchange = Returns (Some balance)
    /\ 0 < balance
    /\ current_exposure_usdt + notional
       <= balance * (max_total_exposure_pct settings / 100)
    /\ (position_size_mode settings <> "Risk-based" ->
        notional = base_order_size_usdt settings).
Proof.
  unfold calculate_entry_size_usdt.
  destruct (current_price_of price_source exchange symbol) as [|[price|]];
    try discriminate.
  destruct (Qleb price 0) eqn:Hp; [discriminate|].
  destruct (get_balance exchange) as [|[balance|]]; try discriminate.
  destruct (Qleb balance 0) eqn:Hb; [discriminate|].
  match goal with
  | |- context [Qgtb ?a ?b] => destruct (Qgtb a b) eqn:Hcap
  end; [discriminate|].
  intros Hr. inversion Hr as [Hn]. clear Hr.
  exists price, balance.
  split; [reflexivity|]. split; [apply Qleb_gt; exact Hp|].
  split; [reflexivity|]. split; [apply Qleb_gt; exact Hb|].
  split.
  - apply Qgtb_le in Hcap. exact Hcap.
  - intros Hmode. apply String.eqb_neq in Hmode. rewrite Hmode. reflexivity.
Qed.

Lemma entry_size_respects_exposure_cap_witness :
  exists price balance,
    current_price_of (prices (WorkerFacts.feed_at 100 [100]))
      WorkerFacts.funded_exchange "BTCUSDT" = Returns (Some price)
    /\ 0 < price
    /\ get_balance WorkerFacts.funded_exchange = Returns (Some balance)
    /\ 0 < balance
    /\ 250 + 25 <= balance * (max_total_exposure_pct default_settings / 100).
Proof.
  destruct (entry_size_respects_exposure_cap
              (prices (WorkerFacts.feed_at 100 [100]))
              WorkerFacts.funded_exchange "BTCUSDT" default_settings
              false 1 250 25)
    as (price & balance & H1 & H2 & H3 & H4 & H5 & _).
  - vm_compute. reflexivity.
  - exists price, balance. repeat split; assumption.
Defined.

(** An order that would take the exposure over the cap is refused. *)
Example entry_size_over_cap :
  calculate_entry_size_usdt (prices (WorkerFacts.feed_at 100 [100]))
    WorkerFacts.funded_exchange "BTCUSDT" default_settings false 1 290
  = Returns None.
Proof. vm_compute. reflexivity. Qed.

(** In Risk-based mode the stop distance is the safety step, so the price
    cancels: when the step is at least 0.1 percent (and the stop distance at
    least 1e-9) the spot notional is
    [balance * risk_per_trade_pct / safety_step_pct], whatever the price. *)
Theorem risk_based_size_ignores_price (price_source : gmap key Q)
  (exchange : Exchange) (symbol : string) (settings : StrategySettings)
  (current_exposure_usdt notional price balance : Q) :
  position_size_mode settings = "Risk-based" ->
  current_price_of price_source exchange symbol = Returns (Some price) ->
  get_balance exchange = Returns (Some balance) ->
  1 # 10 <= safety_step_pct settings ->
  1 # 1000000000 <= price * (safety_step_pct settings / 100) ->
  calculate_entry_size_usdt price_source exchange symbol settings false 1
    current_exposure_usdt = Returns (Some notional) ->
  notional == balance * risk_per_trade_pct settings / safety_step_pct settings.
Proof.
  intros Hmode Hprice Hbal Hstep Hfloor.
  unfold calculate_entry_size_usdt. rewrite Hprice, Hbal, Hmode.
  cbn [String.eqb Ascii.eqb Bool.eqb].
  destruct (Qleb price 0) eqn:Hp; [discriminate|].
  destruct (Qleb balance 0) eqn:Hb; [discriminate|].
  apply Qleb_gt in Hp.
  assert (Hstop : Qmax (price * (safety_step_pct settings / 100))
                       (price * (1 # 1000))
                  = price * (safety_step_pct settings / 100)).
  { unfold Qmax.
    destruct (Qgtb (price * (1 # 1000))
                (price * (safety_step_pct settings / 100))) eqn:E;
      [|reflexivity].
    apply Qgtb_gt in E. exfalso.
    apply (Qlt_not_le _ _ E). apply Qmult_le_l; [exact Hp|].
    apply Qle_shift_div_l; [reflexivity|].
    apply Qle_trans with (1 # 10); [apply Qle_lteq; right; reflexivity|].
    exact Hstep. }
  rewrite Hstop.
  assert (Hfl : Qmax (price * (safety_step_pct settings / 100)) (1 # 1000000000)
                = price * (safety_step_pct settings / 100)).
  { unfold Qmax.
    destruct (Qgtb (1 # 1000000000)
                (price * (safety_step_pct settings / 100))) eqn:E;
      [|reflexivity].
    apply Qgtb_gt in E. exfalso. apply (Qlt_not_le _ _ E Hfloor). }
  rewrite Hfl.
  match goal with
  | |- context [Qgtb ?a ?b] => destruct (Qgtb a b)
  end; [discriminate|].
  intros Hr. inversion Hr as [Hn]. clear Hr Hn.
  assert (Hs : 0 < safety_step_pct settings)
    by (apply Qlt_le_trans with (1 # 10); [reflexivity|exact Hstep]).
  field. split.
  - intros E. rewrite E in Hs. apply (Qlt_irrefl 0 Hs).
  - intros E. rewrite E in Hp. apply (Qlt_irrefl 0 Hp).
Qed.


(** The default settings in Risk-based mode with the whole balance allowed
    as exposure. *)
Definition risk_based_settings : StrategySettings := {|
  rsi_period := 14; rsi_level := 30; ema_period := 200; adx_period := 14;
  timeframe := "1m"; take_profit_pct := 1; base_order_size_usdt := 25;
  order_timeout_sec := 30; use_market_order := true; safety_step_pct := 2;
  safety_orders_count := 3; volume_multiplier := 3 # 2;
  commission_pct := 1 # 10; enable_futures := false; leverage := 5;
  margin_mode := "Cross"; break_even_after_percent := 3 # 10;
  futures_position_side := "Long"; mode := "Spot"; cooldown_minutes := 0;
  anti_reentry_threshold_pct := 2 # 10; run_mode := "Live";
  use_rsi := true; use_ema_trend_filter := true; use_adx_filter := true;
  use_volume_filter := false; use_atr_filter := false;
  adx_threshold := 20; volume_spike_multiplier := 3 # 2; atr_min_value := 0;
  position_size_mode := "Risk-based"; risk_per_trade_pct := 1;
  max_total_exposure_pct := 100; protection_orders_on_exchange := true;
  enable_stop_loss := false; stop_loss_mode := "Off"; stop_loss_pct := 1;
  auto_resume_running_pairs := false
|}.

Lemma risk_based_size_ignores_price_witness :
  exists notional,
    calculate_entry_size_usdt (prices (WorkerFacts.feed_at 100 [100]))
      WorkerFacts.funded_exchange "BTCUSDT" risk_based_settings false 1 0
    = Returns (Some notional)
    /\ notional == 500.
Proof.
  eexists. split; [vm_compute; reflexivity|].
  rewrite (risk_based_size_ignores_price
             (prices (WorkerFacts.feed_at 100 [100]))
             WorkerFacts.funded_exchange "BTCUSDT" risk_based_settings
             0 _ 100 1000); try reflexivity; vm_compute; discriminate.
Defined.



(** An exchange that fills at once but reports no average price, or a
    negative one: the entry price is the current price. *)
Example futures_fill_without_average :
  open_position_futures (prices (WorkerFacts.feed_at 100 [100]))
    (WorkerFacts.answering_exchange
       {| status := "FILLED"; executedQty := None;
          cummulativeQuoteQty := None; avgPrice := None |} 1000)
    "BTCUSDT" "LONG" 25 true 30
  = Returns (FuturesDict {| quantity := py_round (25 / 100) 4;
                            fill_price := 100 |})
  /\ open_position_futures (prices (WorkerFacts.feed_at 100 [100]))
       (WorkerFacts.answering_exchange
          {| status := "FILLED"; executedQty := Some (1 # 5);
             cummulativeQuoteQty := None; avgPrice := Some (-1) |} 1000)
       "BTCUSDT" "LONG" 25 true 30
     = Returns (FuturesDict {| quantity := 1 # 5; fill_price := 100 |})
  /\ open_position_futures (prices (WorkerFacts.feed_at 100 [100]))
       (WorkerFacts.answering_exchange
          {| status := "FILLED"; executedQty := Some (1 # 5);
             cummulativeQuoteQty := None; avgPrice := Some 101 |} 1000)
       "BTCUSDT" "LONG" 25 true 30
     = Returns (FuturesDict {| quantity := 1 # 5; fill_price := 101 |}).
Proof. split; [|split]; reflexivity. Qed.



(** [close_position_futures] closes the whole exchange position: a close is
    returned only when the exchange reports a non-zero position amount, and
    its quantity is the absolute value of that amount, which is positive. *)
Theorem futures_close_takes_whole_position (price_source : gmap key Q)
  (exchange : Exchange) (symbol : string) (close_result : Fill) :
  close_position_futures price_source exchange symbol
  = Returns (Some close_result) ->
  exists pos amount,
    get_position exchange = Returns pos
    /\ positionAmt pos = Some amount
    /\ quantity close_result = Qabs amount
    /\ 0 < quantity close_result.
Proof.
  unfold close_position_futures.
  destruct (get_position exchange) as [|pos]; [discriminate|].
  destruct (positionAmt pos) as [amount|] eqn:Hamt.
  2:{ cbn. discriminate. }
  change (default 0 (Some amount)) with amount.
  destruct (Qeqb amount 0) eqn:Hz; [discriminate|]. apply Qeqb_neq in Hz.
  destruct (place_order exchange) as [|order_id]; [discriminate|].
  destruct (get_order_status exchange O) as [|order_data]; [discriminate|].
  intros Hr. inversion Hr; subst close_result; clear Hr. cbn [quantity].
  exists pos, amount. repeat split; try assumption.
  destruct (Qlt_le_dec 0 (Qabs amount)) as [Hpos|Hle]; [exact Hpos|].
  exfalso. apply Hz.
  assert (Habs : Qabs amount == 0)
    by (apply Qle_antisym; [exact Hle | apply Qabs_nonneg]).
  destruct (Qlt_le_dec amount 0) as [Hneg|Hnonneg].
  - rewrite Qabs_neg in Habs by (apply Qlt_le_weak; exact Hneg). lra.
  - rewrite Qabs_pos in Habs by exact Hnonneg. exact Habs.
Qed.

Lemma futures_close_takes_whole_position_witness :
  exists close_result,
    close_position_futures (prices (WorkerFacts.feed_at 100 [100]))
      {| place_order := Returns 7%Z;
         get_order_status := fun _ =>
           Returns {| status := "FILLED"; executedQty := None;
                      cummulativeQuoteQty := None; avgPrice := Some 101 |};
         get_position := Returns {| positionAmt := Some (- (1 # 4));
                                    entryPrice := Some 100 |};
         futures_get_mark_price := None;
         get_balance := Raises;
         set_margin_type_and_leverage := Raises |} "BTCUSDT"
    = Returns (Some close_result)
    /\ 0 < quantity close_result.
Proof.
  eexists. split; [vm_compute; reflexivity|].
  destruct (futures_close_takes_whole_position
              (prices (WorkerFacts.feed_at 100 [100]))
              {| place_order := Returns 7%Z;
                 get_order_status := fun _ =>
                   Returns {| status := "FILLED"; executedQty := None;
                              cummulativeQuoteQty := None;
                              avgPrice := Some 101 |};
                 get_position := Returns {| positionAmt := Some (- (1 # 4));
                                            entryPrice := Some 100 |};
                 futures_get_mark_price := None;
                 get_balance := Raises;
                 set_margin_type_and_leverage := Raises |} "BTCUSDT"
              {| quantity := Qabs (- (1 # 4)); fill_price := 101 |})
    as (pos & amount & _ & _ & _ & Hpos).
  - vm_compute. reflexivity.
  - exact Hpos.
Defined.

End OrdersFacts.

(** ** Backtest engine: the equity curve and the report *)

Module BacktestReportFacts.
Import Strategy Backtest BacktestReport.

Lemma sum_snoc (xs : list Q) (x : Q) : sum (xs ++ [x])%list = sum xs + x.
Proof. unfold sum. rewrite List.fold_left_app. reflexivity. Qed.

(** What the loop keeps true after [k] rows. *)
Definition accounted (k : nat) (r : Run) : Prop :=
  List.length (equity_curve r) = S k
  /\ (List.length (trade_results r) <= k)%nat
  /\ cumulative_pnl r == sum (trade_results r)
  /\ List.last (equity_curve r) 0 == cumulative_pnl r.

Lemma accounted_append (k : nat) (r : Run) :
  List.length (equity_curve r) = S k ->
  (List.length (trade_results r) <= S k)%nat ->
  cumulative_pnl r == sum (trade_results r) ->
  accounted (S k) (append_equity r).
Proof.
  intros Hlen Htr Hsum. unfold accounted, append_equity. cbn.
  rewrite List.length_app, Hlen. cbn. split; [lia|]. split; [exact Htr|].
  split; [exact Hsum|]. rewrite List.last_last. reflexivity.
Qed.

Lemma bar_step_accounted (strategy_settings : StrategySettings) (k : nat)
  (r r' : Run) (row : Bar) :
  accounted k r -> bar_step strategy_settings r row = Returns r' ->
  accounted (S k) r'.
Proof.
  intros (Hlen & Htr & Hsum & _). unfold bar_step.
  destruct (rsi row) as [row_rsi|], (ema row) as [row_ema|],
    (adx row) as [row_adx|];
    try (intros Hr; inversion Hr; subst r'; apply accounted_append;
         [exact Hlen | lia | exact Hsum]).
  destruct (position r) as [pos0|].
  - destruct (arm_block strategy_settings
                (dca_block strategy_settings pos0 (bar_close row)) (bar_close row))
      as [|pos2]; [discriminate|].
    assert (Hclose : accounted (S k)
              (append_equity (close_at strategy_settings pos2 (bar_close row) r))).
    { apply accounted_append; unfold close_at;
        cbn [cumulative_pnl trade_results equity_curve].
      - exact Hlen.
      - rewrite List.length_app. cbn. lia.
      - rewrite sum_snoc, Hsum. reflexivity. }
    destruct (_ && _ && _).
    + intros Hr; inversion Hr; subst r'. exact Hclose.
    + destruct (if String.eqb (direction pos2) "LONG" then _ else _);
        intros Hr; inversion Hr; subst r'; [exact Hclose|].
      apply accounted_append; cbn [cumulative_pnl trade_results equity_curve];
        [exact Hlen | lia | exact Hsum].
  - destruct (bar_signal strategy_settings (bar_close row) row_rsi row_ema row_adx);
      intros Hr; inversion Hr; subst r'; apply accounted_append;
      cbn [cumulative_pnl trade_results equity_curve];
      [exact Hlen | lia | exact Hsum | exact Hlen | lia | exact Hsum].
Qed.

Lemma run_rows_accounted (strategy_settings : StrategySettings)
  (rows : list Bar) (k : nat) (r r' : Run) :
  accounted k r -> run_rows strategy_settings rows r = Returns r' ->
  accounted (k + List.length rows) r'.
Proof.
  revert k r. induction rows as [|row rest IH]; intros k r Hacc; cbn [run_rows].
  - intros Hr; inversion Hr; subst r'. cbn. rewrite Nat.add_0_r. exact Hacc.
  - destruct (bar_step strategy_settings r row) as [|r1] eqn:Hstep; [discriminate|].
    intros Hrest. cbn [List.length]. rewrite Nat.add_succ_r.
    apply (IH (S k) r1); [|exact Hrest].
    apply (bar_step_accounted strategy_settings k r r1 row Hacc Hstep).
Qed.

(** A backtest that returns has appended one equity point per row to the
    initial 0, has closed at most as many trades as there are rows, and its
    last equity point is the sum of the trade results, which is the
    [total_profit] of the report. *)
Theorem backtest_equity_accounts_for_trades (strategy_settings : StrategySettings)
  (rows : list Bar) (r : Run) :
  run_backtest strategy_settings rows = Returns r ->
  List.length (equity_curve r) = S (List.length rows)
  /\ (List.length (trade_results r) <= List.length rows)%nat
  /\ total_trades (generate_report r) = List.length (trade_results r)
  /\ List.last (equity_curve r) 0 == total_profit (generate_report r).
Proof.
  unfold run_backtest. intros Hrun.
  assert (Hacc : accounted (0 + List.length rows) r).
  { destruct rows as [|row rest]; [discriminate|].
    apply (run_rows_accounted strategy_settings (row :: rest) 0 start r);
      [|exact Hrun].
    unfold accounted, start. cbn. split; [reflexivity|]. split; [lia|].
    split; reflexivity. }
  destruct Hacc as (Hlen & Htr & Hsum & Hlast). cbn [Nat.add] in *.
  split; [exact Hlen|]. split; [exact Htr|]. split; [reflexivity|].
  cbn [generate_report total_profit]. rewrite Hlast. exact Hsum.
Qed.

Lemma backtest_equity_accounts_for_trades_witness :
  exists r,
    run_backtest (BacktestFacts.comparison_settings 20)
      [BacktestFacts.bar_at 25 100; BacktestFacts.bar_at 25 102] = Returns r
    /\ List.length (equity_curve r) = 3%nat
    /\ List.last (equity_curve r) 0 == total_profit (generate_report r).
Proof.
  eexists. split; [vm_compute; reflexivity|].
  destruct (backtest_equity_accounts_for_trades
              (BacktestFacts.comparison_settings 20)
              [BacktestFacts.bar_at 25 100; BacktestFacts.bar_at 25 102] _
              ltac:(vm_compute; reflexivity))
    as (Hlen & _ & _ & Hlast).
  split; [exact Hlen | exact Hlast].
Defined.

Lemma Qmax_upper (x y : Q) : x <= Qmax x y /\ y <= Qmax x y.
Proof.
  unfold Qmax. destruct (Qgtb y x) eqn:H.
  - apply Qgtb_gt in H. split; [apply Qlt_le_weak; exact H | apply Qle_refl].
  - apply Qgtb_le in H. split; [apply Qle_refl | exact H].
Qed.

Lemma Qmax_either (x y : Q) : Qmax x y = x \/ Qmax x y = y.
Proof. unfold Qmax. destruct (Qgtb y x); [right | left]; reflexivity. Qed.

(** The state of the drawdown loop after the points [curve]. *)
Definition drawdown_after (curve : list Q) : option Q * Q :=
  List.fold_left drawdown_step curve (None, 0).

Definition point (curve : list Q) (i : nat) : Q := List.nth i curve 0.

(** The peak is the largest point so far, the drawdown the largest drop from
    a point to a later one. *)
Definition drawdown_invariant (curve : list Q) (state : option Q * Q) : Prop :=
  0 <= snd state
  /\ match fst state with
     | None => curve = []
     | Some peak =>
         (forall i, (i < List.length curve)%nat -> point curve i <= peak)
         /\ exists i, (i < List.length curve)%nat /\ point curve i == peak
     end
  /\ (forall i j, (i <= j < List.length curve)%nat ->
                  point curve i - point curve j <= snd state)
  /\ (snd state == 0
      \/ exists i j, (i <= j < List.length curve)%nat
                     /\ point curve i - point curve j == snd state).

Lemma point_snoc_old (curve : list Q) (x : Q) (i : nat) :
  (i < List.length curve)%nat -> point (curve ++ [x]) i = point curve i.
Proof. intros H. unfold point. apply List.app_nth1. exact H. Qed.

Lemma point_snoc_new (curve : list Q) (x : Q) :
  point (curve ++ [x]) (List.length curve) = x.
Proof. unfold point. rewrite List.nth_middle. reflexivity. Qed.

Lemma drawdown_step_invariant (curve : list Q) (state : option Q * Q) (x : Q) :
  drawdown_invariant curve state ->
  drawdown_invariant (curve ++ [x]) (drawdown_step state x).
Proof.
  destruct state as [peak dd]. unfold drawdown_invariant.
  cbn [fst snd drawdown_step]. intros (Hdd & Hpeak & Hall & Hsome).
  rewrite List.length_app. cbn [List.length].
  set (peak' := match peak with None => x | Some p => Qmax p x end).
  assert (Hx : x <= peak').
  { subst peak'. destruct peak as [p|]; [apply Qmax_upper | apply Qle_refl]. }
  assert (Hold : forall i, (i < List.length curve)%nat -> point curve i <= peak').
  { intros i Hi. subst peak'. destruct peak as [p|].
    - destruct Hpeak as (Hle & _).
      apply Qle_trans with p; [apply Hle; exact Hi | apply Qmax_upper].
    - subst curve. cbn in Hi. lia. }
  assert (Hattained : exists i, (i < List.length curve + 1)%nat
                                /\ point (curve ++ [x]) i == peak').
  { subst peak'. destruct peak as [p|].
    - destruct (Qmax_either p x) as [-> | ->].
      + destruct Hpeak as (_ & i & Hi & Hp). exists i. split; [lia|].
        rewrite point_snoc_old by exact Hi. exact Hp.
      + exists (List.length curve). split; [lia|].
        rewrite point_snoc_new. reflexivity.
    - exists (List.length curve). split; [lia|].
      rewrite point_snoc_new. reflexivity. }
  destruct (Qmax_upper dd (peak' - x)) as (Hu1 & Hu2).
  split; [apply Qle_trans with dd; assumption|].
  split.
  { split; [|exact Hattained].
    intros i Hi. destruct (Nat.eq_dec i (List.length curve)) as [->|Hne].
    - rewrite point_snoc_new. exact Hx.
    - rewrite point_snoc_old by lia. apply Hold. lia. }
  split.
  { intros i j Hij. destruct (Nat.eq_dec j (List.length curve)) as [->|Hne].
    - rewrite point_snoc_new.
      apply Qle_trans with (peak' - x); [|exact Hu2].
      destruct (Nat.eq_dec i (List.length curve)) as [->|Hne].
      + rewrite point_snoc_new. lra.
      + rewrite point_snoc_old by lia.
        assert (point curve i <= peak') by (apply Hold; lia). lra.
    - rewrite !point_snoc_old by lia.
      apply Qle_trans with dd; [apply Hall; lia | exact Hu1]. }
  destruct (Qmax_either dd (peak' - x)) as [-> | ->].
  - destruct Hsome as [Hz | (i & j & Hij & Heq)]; [left; exact Hz|].
    right. exists i, j. split; [lia|].
    rewrite !point_snoc_old by lia. exact Heq.
  - right. destruct Hattained as (i & Hi & Hp).
    exists i, (List.length curve). split; [lia|].
    rewrite point_snoc_new, Hp. reflexivity.
Qed.

Lemma drawdown_after_invariant (curve : list Q) :
  drawdown_invariant curve (drawdown_after curve).
Proof.
  induction curve as [|x curve IH] using List.rev_ind.
  - unfold drawdown_invariant, drawdown_after. cbn.
    split; [apply Qle_refl|]. split; [reflexivity|].
    split; [intros i j H; lia | left; reflexivity].
  - unfold drawdown_after. rewrite List.fold_left_app. cbn [List.fold_left].
    apply drawdown_step_invariant. exact IH.
Qed.

(** The [max_drawdown] of the report is the largest drop of the equity
    curve from a point to a later point: no such drop exceeds it, and it is
    0 or the drop between two points of the curve. *)
Theorem max_drawdown_is_largest_drop (r : Run) :
  0 <= max_drawdown (generate_report r)
  /\ (forall i j, (i <= j < List.length (equity_curve r))%nat ->
        List.nth i (equity_curve r) 0 - List.nth j (equity_curve r) 0
        <= max_drawdown (generate_report r))
  /\ (max_drawdown (generate_report r) == 0
      \/ exists i j, (i <= j < List.length (equity_curve r))%nat
           /\ List.nth i (equity_curve r) 0 - List.nth j (equity_curve r) 0
              == max_drawdown (generate_report r)).
Proof.
  destruct (drawdown_after_invariant (equity_curve r)) as (H0 & _ & Hall & Hsome).
  cbn [generate_report max_drawdown].
  split; [exact H0|]. split; [exact Hall | exact Hsome].
Qed.

Lemma sum_from (xs : list Q) (a : Q) :
  List.fold_left Qplus xs a == a + sum xs.
Proof.
  unfold sum. revert a. induction xs as [|x xs IH]; intros a; cbn [List.fold_left].
  - lra.
  - rewrite (IH (a + x)), (IH (0 + x)). lra.
Qed.

Lemma sum_nonneg (xs : list Q) :
  List.Forall (fun x => 0 <= x) xs -> 0 <= sum xs.
Proof.
  induction 1 as [|x xs Hx _ IH].
  - apply Qle_refl.
  - unfold sum. cbn [List.fold_left]. rewrite sum_from. lra.
Qed.

Lemma sum_nonpos (xs : list Q) :
  List.Forall (fun x => x <= 0) xs -> sum xs <= 0.
Proof.
  induction 1 as [|x xs Hx _ IH].
  - apply Qle_refl.
  - unfold sum. cbn [List.fold_left]. rewrite sum_from. lra.
Qed.

Lemma len_nonneg (xs : list Q) : 0 <= len xs.
Proof.
  unfold len. change 0 with (inject_Z 0). rewrite <- Zle_Qle. lia.
Qed.

Lemma len_pos (x : Q) (xs : list Q) : 0 < len (x :: xs).
Proof.
  unfold len. change 0 with (inject_Z 0). rewrite <- Zlt_Qlt.
  cbn [List.length]. lia.
Qed.

Lemma ratio_nonneg (a b : Q) : 0 <= a -> 0 < b -> 0 <= a / b.
Proof.
  intros Ha Hb. apply Qle_shift_div_l; [exact Hb|]. rewrite Qmult_0_l. exact Ha.
Qed.

(** The rates of the report: the win rate is a percentage, the average
    profit is not negative and the average loss not positive, the profit
    factor is not negative; wins and losses together are at most
    [total_trades], a trade that closed at exactly 0 being neither. *)
Theorem report_rates_in_range (r : Run) :
  0 <= win_rate (generate_report r) <= 100
  /\ 0 <= average_profit (generate_report r)
  /\ average_loss (generate_report r) <= 0
  /\ 0 <= profit_factor (generate_report r)
  /\ (List.length (List.filter (fun x => Qgtb x 0) (trade_results r))
      + List.length (List.filter (fun x => Qltb x 0) (trade_results r))
      <= total_trades (generate_report r))%nat.
Proof.
  cbn [generate_report win_rate average_profit average_loss profit_factor
       total_trades].
  set (results := trade_results r).
  assert (Hwins : 0 <= sum (List.filter (fun x => Qgtb x 0) results)).
  { apply sum_nonneg. apply List.Forall_forall. intros x Hx.
    apply List.filter_In in Hx. destruct Hx as (_ & Hx).
    apply Qgtb_gt in Hx. apply Qlt_le_weak. exact Hx. }
  assert (Hlosses : sum (List.filter (fun x => Qltb x 0) results) <= 0).
  { apply sum_nonpos. apply List.Forall_forall. intros x Hx.
    apply List.filter_In in Hx. destruct Hx as (_ & Hx).
    apply Qltb_lt in Hx. apply Qlt_le_weak. exact Hx. }
  split; [|split; [|split; [|split]]].
  - destruct results as [|x xs] eqn:Hres; [split; [apply Qle_refl | discriminate]|].
    cbn [List.length]. rewrite <- Hres.
    assert (Hpos : 0 < len results) by (rewrite Hres; apply len_pos).
    assert (Hle : len (List.filter (fun x => Qgtb x 0) results) <= len results).
    { unfold len. rewrite <- Zle_Qle. apply inj_le. apply List.filter_length_le. }
    pose proof (len_nonneg (List.filter (fun x => Qgtb x 0) results)) as Hnn.
    assert (Hratio : 0 <= len (List.filter (fun x => Qgtb x 0) results) / len results
                     /\ len (List.filter (fun x => Qgtb x 0) results) / len results <= 1).
    { split; [apply ratio_nonneg; assumption|].
      apply Qle_shift_div_r; [exact Hpos|]. rewrite Qmult_1_l. exact Hle. }
    split; lra.
  - destruct (List.filter (fun x => Qgtb x 0) results) as [|x xs];
      [apply Qle_refl|].
    apply ratio_nonneg; [exact Hwins | apply len_pos].
  - destruct (List.filter (fun x => Qltb x 0) results) as [|x xs];
      [apply Qle_refl|].
    apply Qle_shift_div_r; [apply len_pos|]. rewrite Qmult_0_l. exact Hlosses.
  - destruct (Qgtb (Qabs (sum (List.filter (fun x => Qltb x 0) results))) 0) eqn:Hg;
      [|apply Qle_refl].
    apply Qgtb_gt in Hg. apply ratio_nonneg; assumption.
  - clearbody results. clear Hwins Hlosses.
    induction results as [|x xs IH]; [cbn; lia|].
    cbn [List.filter List.length].
    destruct (Qgtb x 0) eqn:Hg, (Qltb x 0) eqn:Hl; cbn [List.length]; try lia.
    apply Qgtb_gt in Hg. apply Qltb_lt in Hl. lra.
Qed.

End BacktestReportFacts.

(** ** Bot manager: the statistics over a sequence of reports *)

Module ManagerFacts.
Import Risk Manager.
Import Worker(TradeReport, report_pair, report_pnl, report_mode, report_direction).

(** The manager after the workers have reported [reports], oldest first. *)
Definition record_all (reports : list TradeReport) (m : BotManager) : BotManager :=
  List.fold_left
    (fun m t => fst (record_trade (report_pair t) (report_pnl t)
                       (report_mode t) (report_direction t) m))
    reports m.

(** The PnL values reported for [pair]. *)
Definition results_of (pair : string) (reports : list TradeReport) : list Q :=
  List.map report_pnl
    (List.filter (fun t => String.eqb (report_pair t) pair) reports).

Fixpoint total (results : list Q) : Q :=
  match results with
  | [] => 0
  | pnl :: rest => pnl + total rest
  end.

Definition count (p : Q -> bool) (results : list Q) : Z :=
  Z.of_nat (List.length (List.filter p results)).

(** A counter of the entry of [pair], 0 while there is no entry. *)
Definition counter (f : PairStatistics -> Z) (pair : string) (m : BotManager) : Z :=
  match statistics m !! pair with Some stats => f stats | None => 0%Z end.

Definition booked_pnl (pair : string) (m : BotManager) : Q :=
  match statistics m !! pair with Some stats => pnl_usdt stats | None => 0 end.

Lemma record_trade_other (pair other : string) (pnl : Q) (mode direction : string)
  (m : BotManager) :
  other <> pair ->
  statistics (fst (record_trade pair pnl mode direction m)) !! other
  = statistics m !! other.
Proof.
  intros Hne. unfold record_trade, _ensure_statistics.
  destruct (register_trade_result (risk_manager m) pnl) as [risk' stop].
  cbn [fst statistics].
  destruct (statistics m !! pair) as [stats|] eqn:Hl.
  - rewrite Hl. rewrite lookup_insert_ne by congruence. reflexivity.
  - rewrite lookup_insert_eq. rewrite !lookup_insert_ne by congruence. reflexivity.
Qed.

Lemma record_trade_same (pair : string) (pnl : Q) (mode direction : string)
  (m : BotManager) :
  exists stats,
    statistics (fst (record_trade pair pnl mode direction m)) !! pair = Some stats
    /\ trades stats = (counter trades pair m + 1)%Z
    /\ win_trades stats
       = (counter win_trades pair m + if Qgeb pnl 0 then 1 else 0)%Z
    /\ loss_trades stats
       = (counter loss_trades pair m + if Qgeb pnl 0 then 0 else 1)%Z
    /\ pnl_usdt stats == booked_pnl pair m + pnl
    /\ Manager.mode stats = mode /\ Manager.direction stats = direction.
Proof.
  unfold record_trade, _ensure_statistics, counter, booked_pnl.
  destruct (register_trade_result (risk_manager m) pnl) as [risk' stop].
  cbn [fst statistics].
  destruct (statistics m !! pair) as [stats|] eqn:Hl.
  - rewrite Hl, lookup_insert_eq. eexists. split; [reflexivity|].
    cbn [trades win_trades loss_trades pnl_usdt Manager.mode Manager.direction].
    destruct (Qgeb pnl 0); repeat split; try lia; reflexivity.
  - rewrite !lookup_insert_eq. eexists. split; [reflexivity|].
    cbn [trades win_trades loss_trades pnl_usdt Manager.mode Manager.direction].
    destruct (Qgeb pnl 0); repeat split; try lia; reflexivity.
Qed.

Lemma record_all_keeps_entry (reports : list TradeReport) (pair : string)
  (m : BotManager) :
  statistics m !! pair <> None ->
  statistics (record_all reports m) !! pair <> None.
Proof.
  revert m. induction reports as [|t rest IH]; intros m Hm; [exact Hm|].
  change (record_all (t :: rest) m)
    with (record_all rest
            (fst (record_trade (report_pair t) (report_pnl t)
                    (report_mode t) (report_direction t) m))).
  apply IH.
  destruct (String.eqb_spec pair (report_pair t)) as [Heq|Hne].
  - destruct (record_trade_same (report_pair t) (report_pnl t)
                (report_mode t) (report_direction t) m) as (stats & Hs & _).
    rewrite Heq, Hs. discriminate.
  - rewrite record_trade_other by exact Hne. exact Hm.
Qed.

(** The statistics of a pair count the trades reported for it: after any
    sequence of reports, [trades] has grown by their number, [win_trades] by
    the number of those with a PnL of 0 or more, [loss_trades] by the number
    of those with a negative PnL, and [pnl_usdt] by their sum; the counters
    of a pair stay apart from the reports of the other pairs, and an entry
    exists as soon as one trade was reported. *)
Theorem statistics_count_reports (reports : list TradeReport) (pair : string)
  (m : BotManager) :
  counter trades pair (record_all reports m)
  = (counter trades pair m
     + Z.of_nat (List.length (results_of pair reports)))%Z
  /\ counter win_trades pair (record_all reports m)
     = (counter win_trades pair m
        + count (fun pnl => Qgeb pnl 0) (results_of pair reports))%Z
  /\ counter loss_trades pair (record_all reports m)
     = (counter loss_trades pair m
        + count (fun pnl => Qltb pnl 0) (results_of pair reports))%Z
  /\ booked_pnl pair (record_all reports m)
     == booked_pnl pair m + total (results_of pair reports)
  /\ (results_of pair reports <> [] ->
      statistics (record_all reports m) !! pair <> None).
Proof.
  revert m. induction reports as [|t rest IH]; intros m.
  - unfold record_all, results_of, count. cbn.
    repeat split; try lia; [lra | congruence].
  - change (record_all (t :: rest) m)
      with (record_all rest
              (fst (record_trade (report_pair t) (report_pnl t)
                      (report_mode t) (report_direction t) m))).
    set (m1 := fst (record_trade (report_pair t) (report_pnl t)
                      (report_mode t) (report_direction t) m)).
    destruct (IH m1) as (Ht & Hw & Hl & Hp & He).
    unfold results_of in *. cbn [List.filter].
    destruct (String.eqb (report_pair t) pair) eqn:Hpair.
    + apply String.eqb_eq in Hpair.
      destruct (record_trade_same (report_pair t) (report_pnl t)
                  (report_mode t) (report_direction t) m)
        as (stats & Hs & Hst & Hsw & Hsl & Hsp & _).
      fold m1 in Hs. rewrite Hpair in *.
      assert (Hc : forall f, counter f pair m1 = f stats)
        by (intros f; unfold counter; rewrite Hs; reflexivity).
      assert (Hb : booked_pnl pair m1 = pnl_usdt stats)
        by (unfold booked_pnl; rewrite Hs; reflexivity).
      rewrite !Hc in *. rewrite Hb in Hp.
      cbn [List.map List.length total]. unfold count in *. cbn [List.filter].
      assert (Hsign : Qltb (report_pnl t) 0 = negb (Qgeb (report_pnl t) 0)).
      { unfold Qltb, Qgeb. reflexivity. }
      rewrite Hsign.
      split; [rewrite Ht, Hst; lia|].
      split; [rewrite Hw, Hsw; destruct (Qgeb (report_pnl t) 0);
              cbn [List.length]; lia|].
      split; [rewrite Hl, Hsl; destruct (Qgeb (report_pnl t) 0);
              cbn [negb List.length]; lia|].
      split; [rewrite Hp, Hsp; lra|].
      intros _. apply record_all_keeps_entry. fold m1. rewrite Hs. discriminate.
    + apply String.eqb_neq in Hpair.
      assert (Hsame : statistics m1 !! pair = statistics m !! pair)
        by (apply record_trade_other; congruence).
      unfold counter, booked_pnl in *. rewrite Hsame in *.
      split; [exact Ht|]. split; [exact Hw|]. split; [exact Hl|].
      split; [exact Hp | exact He].
Qed.

Lemma record_all_snoc (reports : list TradeReport) (t : TradeReport)
  (m : BotManager) :
  record_all (reports ++ [t])%list m
  = fst (record_trade (report_pair t) (report_pnl t) (report_mode t)
           (report_direction t) (record_all reports m)).
Proof. unfold record_all. rewrite List.fold_left_app. reflexivity. Qed.

Lemma record_trade_risk (pair : string) (pnl : Q) (mode direction : string)
  (m : BotManager) :
  risk_manager (fst (record_trade pair pnl mode direction m))
  = fst (register_trade_result (risk_manager m) pnl)
  /\ snd (record_trade pair pnl mode direction m)
     = snd (register_trade_result (risk_manager m) pnl).
Proof.
  unfold record_trade.
  destruct (register_trade_result (risk_manager m) pnl) as [risk' stop].
  split; reflexivity.
Qed.

Lemma record_all_risk (reports : list TradeReport) :
  risk_manager (record_all reports new_manager)
  = RiskStreak.register_all initialize (List.map report_pnl reports).
Proof.
  induction reports as [|t reports IH] using List.rev_ind; [reflexivity|].
  rewrite record_all_snoc, List.map_app. cbn [List.map].
  rewrite RiskStreak.register_all_snoc.
  destruct (record_trade_risk (report_pair t) (report_pnl t) (report_mode t)
              (report_direction t) (record_all reports new_manager)) as (-> & _).
  rewrite IH. reflexivity.
Qed.

(** The loss streak is kept over all pairs together: the report of a trade
    asks to stop all pairs exactly when it and the two reports before it,
    of whatever pairs, are losses. *)
Theorem stop_all_after_three_losses_on_any_pairs (reports : list TradeReport)
  (t : TradeReport) :
  snd (record_trade (report_pair t) (report_pnl t) (report_mode t)
         (report_direction t) (record_all reports new_manager)) = true
  <-> (3 <= RiskStreak.trailing_losses
              (List.map report_pnl (reports ++ [t])%list))%nat.
Proof.
  destruct (record_trade_risk (report_pair t) (report_pnl t) (report_mode t)
              (report_direction t) (record_all reports new_manager)) as (_ & ->).
  rewrite record_all_risk, List.map_app. cbn [List.map].
  rewrite RiskStreak.trailing_losses_snoc.
  pose proof (RiskStreak.consecutive_losses_is_trailing_run
                (List.map report_pnl reports)) as Hc.
  unfold register_trade_result. cbn [snd].
  destruct (Qltb (report_pnl t) 0).
  - rewrite Hc, Z.leb_le. lia.
  - cbn. split; [discriminate | lia].
Qed.

End ManagerFacts.

(** ** Pair worker: the loop, its flags and its accounts *)

Module WorkerLoopFacts.
Import Strategy Feed Orders Worker.

Ltac attributes :=
  cbn [pair_name mode strategy_settings strategy running candles
       _last_candle_version position_open order_in_progress direction
       entry_price take_profit_price stop_loss_price safety_orders_used
       total_qty total_cost average_price last_order_usdt
       _safety_order_in_progress break_even_armed break_even_price
       _futures_leverage _futures_margin_mode _last_position_sync
       _pending_strategy_settings _last_close_timestamp _last_close_price
       needs_resync trades_closed
       set_mode set_strategy_settings set_strategy set_running set_candles
       set_last_candle_version set_position_open set_order_in_progress
       set_direction set_entry_price set_take_profit_price
       set_stop_loss_price set_safety_orders_used set_total_qty
       set_total_cost set_average_price set_last_order_usdt
       set_safety_order_in_progress set_break_even_armed
       set_break_even_price set_futures_leverage set_futures_margin_mode
       set_last_position_sync set_pending_strategy_settings
       set_last_close_timestamp set_last_close_price set_needs_resync
       set_trades_closed _recalculate_sl _recalculate_tp
       _reset_position_state _is_futures_mode done raised finally fst snd] in *.

Lemma refresh_protection_orders_accounts (w : PairWorker) :
  WorkerFacts.accounts (refresh_protection_orders w) = WorkerFacts.accounts w.
Proof.
  unfold refresh_protection_orders.
  destruct (negb (_is_futures_mode w) || negb (position_open w)); reflexivity.
Qed.

(** What a fill leaves alone. *)
Lemma apply_fill_bookkeeping (fill : Fill) (w : PairWorker) :
  order_in_progress (fst (apply_fill fill w)) = order_in_progress w
  /\ _safety_order_in_progress (fst (apply_fill fill w))
     = _safety_order_in_progress w
  /\ safety_orders_used (fst (apply_fill fill w)) = safety_orders_used w
  /\ strategy_settings (fst (apply_fill fill w)) = strategy_settings w
  /\ trades_closed (fst (apply_fill fill w)) = trades_closed w.
Proof.
  unfold apply_fill. attributes.
  destruct (Qeqb (total_qty w + quantity fill) 0);
    [attributes; repeat split|].
  match goal with
  | |- context [if ?c then _ else _] => destruct c
  end;
    [unfold refresh_protection_orders;
     match goal with
     | |- context [if ?c then _ else _] => destruct c
     end|];
    attributes;
    (split; [reflexivity|]); (split; [reflexivity|]);
    (split; [reflexivity|]); split; reflexivity.
Qed.

Lemma apply_fill_positive (fill : Fill) (w : PairWorker) :
  0 < quantity fill -> 0 <= total_qty w ->
  snd (apply_fill fill w) = Normal
  /\ position_open (fst (apply_fill fill w)) = true
  /\ total_qty (fst (apply_fill fill w)) = total_qty w + quantity fill
  /\ average_price (fst (apply_fill fill w))
     = total_cost (fst (apply_fill fill w)) / total_qty (fst (apply_fill fill w)).
Proof.
  intros Hq Hw.
  assert (Hne : Qeqb (total_qty w + quantity fill) 0 = false).
  { apply Qeqb_neq. intros H. lra. }
  unfold apply_fill. attributes. rewrite Hne.
  match goal with
  | |- context [if ?c then _ else _] => destruct c
  end;
    [unfold refresh_protection_orders;
     match goal with
     | |- context [if ?c then _ else _] => destruct c
     end|];
    attributes;
    (split; [reflexivity|]); (split; [reflexivity|]); split; reflexivity.
Qed.

Lemma obtain_fill_reads (feed : WebSocketManager) (exchange : Exchange)
  (usdt_amount v : Q) (b : bool) (w : PairWorker) :
  obtain_fill feed exchange usdt_amount
    (set_last_order_usdt v (set_order_in_progress b w))
  = obtain_fill feed exchange usdt_amount w.
Proof. reflexivity. Qed.

(** [_open_order_with_usdt] when no order is in progress. *)
Lemma open_order_result (feed : WebSocketManager) (exchange : Exchange)
  (usdt_amount : Q) (w : PairWorker) :
  order_in_progress w = false ->
  _open_order_with_usdt feed exchange usdt_amount w
  = match obtain_fill feed exchange usdt_amount w with
    | Raises =>
        (set_order_in_progress false
           (set_last_order_usdt usdt_amount (set_order_in_progress true w)),
         Raised)
    | Returns None =>
        (set_order_in_progress false
           (set_last_order_usdt usdt_amount (set_order_in_progress true w)),
         Normal)
    | Returns (Some fill) =>
        (set_order_in_progress false
           (fst (apply_fill fill
                   (set_last_order_usdt usdt_amount
                      (set_order_in_progress true w)))),
         snd (apply_fill fill
                (set_last_order_usdt usdt_amount
                   (set_order_in_progress true w))))
    end.
Proof.
  intros Hbusy. unfold _open_order_with_usdt. rewrite Hbusy.
  rewrite obtain_fill_reads.
  destruct (obtain_fill feed exchange usdt_amount w) as [|[fill|]]; reflexivity.
Qed.

(** [_open_order_with_usdt] keeps the runtime invariants whenever the fill
    it obtains, if any, has a positive quantity; it then raises only if
    the exchange call itself raised, and it leaves the order flag as it
    found it. *)
Theorem positive_fill_keeps_invariants (feed : WebSocketManager)
  (exchange : Exchange) (usdt_amount : Q) (w : PairWorker) :
  runtime_invariants w ->
  0 <= total_qty w ->
  (forall fill, obtain_fill feed exchange usdt_amount w = Returns (Some fill) ->
                0 < quantity fill) ->
  let r := _open_order_with_usdt feed exchange usdt_amount w in
  runtime_invariants (fst r)
  /\ 0 <= total_qty (fst r)
  /\ (snd r = Raised -> obtain_fill feed exchange usdt_amount w = Raises)
  /\ order_in_progress (fst r) = order_in_progress w.
Proof.
  intros Hinv Hqty Hfill. cbv zeta.
  destruct (order_in_progress w) eqn:Hbusy.
  { unfold _open_order_with_usdt. rewrite Hbusy. attributes.
    split; [exact Hinv|]. split; [exact Hqty|].
    split; [discriminate | exact Hbusy]. }
  rewrite open_order_result by exact Hbusy.
  destruct (obtain_fill feed exchange usdt_amount w) as [|[fill|]].
  - attributes. split; [exact Hinv|]. split; [exact Hqty|].
    split; reflexivity.
  - specialize (Hfill fill eq_refl).
    pose proof (apply_fill_positive fill
                  (set_last_order_usdt usdt_amount (set_order_in_progress true w))
                  Hfill Hqty) as Hpos.
    pose proof (apply_fill_bookkeeping fill
                  (set_last_order_usdt usdt_amount (set_order_in_progress true w)))
      as Hkeep.
    generalize dependent (apply_fill fill
               (set_last_order_usdt usdt_amount (set_order_in_progress true w))).
    intros filled (Hn & Ho & Hq & Ha) (_ & _ & Hused & Hset & _).
    attributes.
    split; [|split; [rewrite Hq; lra | split; [congruence | reflexivity]]].
    unfold runtime_invariants. attributes.
    split; [split; [intros _; rewrite Hq; lra | intros _; exact Ho]|].
    split; [intros _; rewrite Ha; reflexivity|].
    rewrite Hused, Hset. apply Hinv.
  - attributes. split; [exact Hinv|]. split; [exact Hqty|].
    split; [discriminate | reflexivity].
Qed.

(** A Paper worker with a base order of 25 USDT. *)
Definition paper_worker : PairWorker :=
  new_worker "BTCUSDT" "Spot"
    (WorkerFacts.scenario_settings "Paper" "Spot" "Long" false true
       25 (1 # 10) 0 20 3).

Lemma paper_worker_invariants : runtime_invariants paper_worker.
Proof.
  unfold runtime_invariants. split; [|split].
  - split; intros H; vm_compute in H; discriminate H.
  - intros H. vm_compute in H. discriminate H.
  - vm_compute. discriminate.
Qed.

Lemma positive_fill_keeps_invariants_witness :
  runtime_invariants
    (fst (_open_order_with_usdt (WorkerFacts.feed_at 100 [100])
            WorkerFacts.unreachable_exchange 25 paper_worker))
  /\ 0 <= total_qty
            (fst (_open_order_with_usdt (WorkerFacts.feed_at 100 [100])
                    WorkerFacts.unreachable_exchange 25 paper_worker)).
Proof.
  destruct (positive_fill_keeps_invariants (WorkerFacts.feed_at 100 [100])
              WorkerFacts.unreachable_exchange 25 paper_worker)
    as (Hinv & Hqty & _).
  - exact paper_worker_invariants.
  - vm_compute. discriminate.
  - intros fill H. vm_compute in H. inversion H. vm_compute. reflexivity.
  - split; [exact Hinv | exact Hqty].
Defined.

(** What [_open_order_with_usdt] leaves alone, whether it fills, returns
    early or raises. *)
Lemma open_order_bookkeeping (feed : WebSocketManager) (exchange : Exchange)
  (usdt_amount : Q) (w : PairWorker) :
  order_in_progress (fst (_open_order_with_usdt feed exchange usdt_amount w))
  = order_in_progress w
  /\ _safety_order_in_progress
       (fst (_open_order_with_usdt feed exchange usdt_amount w))
     = _safety_order_in_progress w
  /\ safety_orders_used (fst (_open_order_with_usdt feed exchange usdt_amount w))
     = safety_orders_used w
  /\ strategy_settings (fst (_open_order_with_usdt feed exchange usdt_amount w))
     = strategy_settings w
  /\ trades_closed (fst (_open_order_with_usdt feed exchange usdt_amount w))
     = trades_closed w.
Proof.
  destruct (order_in_progress w) eqn:Hbusy.
  { unfold _open_order_with_usdt. rewrite Hbusy. attributes.
    split; [exact Hbusy|]. repeat split. }
  rewrite open_order_result by exact Hbusy.
  destruct (obtain_fill feed exchange usdt_amount w) as [|[fill|]];
    [attributes; repeat split| |attributes; repeat split].
  pose proof (apply_fill_bookkeeping fill
                (set_last_order_usdt usdt_amount (set_order_in_progress true w)))
    as Hkeep.
  generalize dependent (apply_fill fill
             (set_last_order_usdt usdt_amount (set_order_in_progress true w))).
  intros filled (_ & Hsafety & Hused & Hset & Htrades).
  attributes.
  split; [reflexivity|]. split; [exact Hsafety|]. split; [exact Hused|].
  split; [exact Hset | exact Htrades].
Qed.

(** One call of [_process_dca] uses at most one safety order, and only
    while fewer than [safety_orders_count] are used; it reports no trade,
    keeps the settings, and leaves both in-flight flags as it found them,
    also when the order or the log line raises. *)
Theorem safety_orders_stay_within_count (feed : WebSocketManager)
  (exchange : Exchange) (w : PairWorker) :
  let r := _process_dca feed exchange w in
  (safety_orders_used (fst r) = safety_orders_used w
   \/ (safety_orders_used (fst r) = (safety_orders_used w + 1)%Z
       /\ (safety_orders_used w < safety_orders_count (strategy_settings w))%Z))
  /\ strategy_settings (fst r) = strategy_settings w
  /\ trades_closed (fst r) = trades_closed w
  /\ order_in_progress (fst r) = order_in_progress w
  /\ _safety_order_in_progress (fst r) = _safety_order_in_progress w.
Proof.
  cbv zeta. unfold _process_dca.
  destruct (position_open w) eqn:Hopen; cbn [negb orb];
    [|attributes; repeat split; left; reflexivity].
  destruct (_safety_order_in_progress w) eqn:Hsafe; cbn [orb];
    [attributes; split; [left; reflexivity|]; split; [reflexivity|];
     split; [reflexivity|]; split; [reflexivity | exact Hsafe]|].
  destruct (order_in_progress w) eqn:Hbusy;
    [attributes; split; [left; reflexivity|]; split; [reflexivity|];
     split; [reflexivity|]; split; [exact Hbusy | exact Hsafe]|].
  destruct (safety_orders_count (strategy_settings w) <=? safety_orders_used w)%Z
    eqn:Hcount;
    [attributes; split; [left; reflexivity|]; split; [reflexivity|];
     split; [reflexivity|]; split; [exact Hbusy | exact Hsafe]|].
  apply Z.leb_gt in Hcount.
  destruct (price_of (prices feed) (pair_name w)) as [price|];
    [|attributes; split; [left; reflexivity|]; split; [reflexivity|];
      split; [reflexivity|]; split; [exact Hbusy | exact Hsafe]].
  destruct (Qleb (average_price w) 0);
    [attributes; split; [left; reflexivity|]; split; [reflexivity|];
     split; [reflexivity|]; split; [exact Hbusy | exact Hsafe]|].
  match goal with
  | |- context [if negb ?c then _ else _] => destruct c
  end; cbn [negb];
    [|attributes; split; [left; reflexivity|]; split; [reflexivity|];
      split; [reflexivity|]; split; [exact Hbusy | exact Hsafe]].
  attributes.
  pose proof (open_order_bookkeeping feed exchange
                (last_order_usdt w * volume_multiplier (strategy_settings w))
                (set_safety_order_in_progress true w)) as Hkeep.
  generalize dependent (_open_order_with_usdt feed exchange
                (last_order_usdt w * volume_multiplier (strategy_settings w))
                (set_safety_order_in_progress true w)).
  intros [w2 outcome] (Hb2 & _ & Hused & Hset & Htrades).
  attributes.
  destruct outcome; cbn [and_then]; attributes;
    [|split; [left; exact Hused|]; split; [exact Hset|];
      split; [exact Htrades|]; split; [congruence | reflexivity]].
  destruct (position_open w2); cbn [negb]; attributes;
    [|split; [left; exact Hused|]; split; [exact Hset|];
      split; [exact Htrades|]; split; [congruence | reflexivity]].
  destruct (take_profit_price w2); attributes;
    [|split; [right; split; [rewrite Hused; reflexivity | exact Hcount]|];
      split; [exact Hset|]; split; [exact Htrades|];
      split; [congruence | reflexivity]].
  repeat match goal with
         | |- context [if ?c then _ else _] => destruct c
         end;
    unfold refresh_protection_orders;
    repeat match goal with
           | |- context [if ?c then _ else _] => destruct c
           end;
    attributes;
    (split; [right; split; [rewrite Hused; reflexivity | exact Hcount]|];
     split; [exact Hset|]; split; [exact Htrades|];
     split; [congruence | reflexivity]).
Qed.

(** No order of the worker is in flight. *)
Definition idle (w : PairWorker) : Prop :=
  order_in_progress w = false /\ _safety_order_in_progress w = false.

Lemma sync_latest_candles_idle (feed : WebSocketManager) (w : PairWorker) :
  idle w -> idle (_sync_latest_candles feed w).
Proof.
  unfold idle, _sync_latest_candles. intros H.
  destruct (default [] (Feed.candles feed !! KStr (pair_name w)));
    attributes; exact H.
Qed.

Lemma open_order_idle (feed : WebSocketManager) (exchange : Exchange)
  (usdt_amount : Q) (w : PairWorker) :
  idle w -> idle (fst (_open_order_with_usdt feed exchange usdt_amount w)).
Proof.
  unfold idle. intros (Hb & Hs).
  destruct (open_order_bookkeeping feed exchange usdt_amount w)
    as (Hb' & Hs' & _).
  split; congruence.
Qed.

Lemma open_initial_position_idle (feed : WebSocketManager)
  (exchange : Exchange) (current_exposure : Q) (w : PairWorker) :
  idle w -> idle (fst (_open_initial_position feed exchange current_exposure w)).
Proof.
  intros Hidle. unfold _open_initial_position.
  destruct (position_open w || order_in_progress w); [exact Hidle|].
  destruct (String.eqb (run_mode (strategy_settings w)) "Backtest");
    [exact Hidle|].
  assert (Hw1 : idle (if _is_futures_mode w
                      then set_direction
                             (upper (futures_position_side (strategy_settings w)))
                             (_ensure_futures_config exchange w)
                      else set_direction "LONG" w)).
  { destruct (_is_futures_mode w); [|exact Hidle].
    unfold _ensure_futures_config.
    destruct (_ || _); [|exact Hidle].
    destruct (set_margin_type_and_leverage exchange); exact Hidle. }
  generalize dependent (if _is_futures_mode w
                      then set_direction
                             (upper (futures_position_side (strategy_settings w)))
                             (_ensure_futures_config exchange w)
                      else set_direction "LONG" w).
  intros w1 Hw1. cbv zeta.
  destruct (calculate_entry_size_usdt _ _ _ _ _ _ _) as [|[base_usdt|]];
    [exact Hw1 | | exact Hw1].
  apply open_order_idle. exact Hw1.
Qed.

Lemma process_closed_candle_idle (ie : IndicatorEngine) (feed : WebSocketManager)
  (now : Q) (exchange : Exchange) (current_exposure : Q) (w : PairWorker) :
  idle w ->
  idle (fst (_process_closed_candle_if_needed ie feed now exchange
               current_exposure w)).
Proof.
  intros Hidle. unfold _process_closed_candle_if_needed. cbv zeta.
  destruct (_ || _); [exact Hidle|].
  destruct (_ <? _)%Z; [exact Hidle|].
  destruct (generate_signal ie _ _) as [strategy' signal].
  destruct (_ && _ && _); [|exact Hidle].
  destruct (_is_entry_blocked feed now _); [exact Hidle|].
  apply open_initial_position_idle. exact Hidle.
Qed.

Lemma process_dca_idle (feed : WebSocketManager) (exchange : Exchange)
  (w : PairWorker) :
  idle w -> idle (fst (_process_dca feed exchange w)).
Proof.
  intros Hidle. unfold _process_dca.
  destruct (_ || _ || _); [exact Hidle|].
  destruct (_ <=? _)%Z; [exact Hidle|].
  destruct (price_of (prices feed) (pair_name w)) as [price|]; [|exact Hidle].
  destruct (Qleb (average_price w) 0); [exact Hidle|].
  match goal with
  | |- context [if negb ?c then _ else _] => destruct c
  end; cbn [negb]; [|exact Hidle].
  cbv zeta.
  assert (Hbusy : order_in_progress (set_safety_order_in_progress true w) = false)
    by apply Hidle.
  pose proof (open_order_bookkeeping feed exchange
                (last_order_usdt (set_safety_order_in_progress true w)
                 * volume_multiplier
                     (strategy_settings (set_safety_order_in_progress true w)))
                (set_safety_order_in_progress true w)) as Hkeep.
  rewrite Hbusy in Hkeep.
  generalize dependent (_open_order_with_usdt feed exchange
                (last_order_usdt (set_safety_order_in_progress true w)
                 * volume_multiplier
                     (strategy_settings (set_safety_order_in_progress true w)))
                (set_safety_order_in_progress true w)).
  intros [w2 outcome] (Hb2 & _). clear Hbusy. unfold idle.
  attributes.
  destruct outcome; cbn [and_then]; attributes; [|split; [exact Hb2 | reflexivity]].
  destruct (position_open w2); cbn [negb]; attributes;
    [|split; [exact Hb2 | reflexivity]].
  destruct (take_profit_price w2); attributes;
    [|split; [exact Hb2 | reflexivity]].
  repeat match goal with
         | |- context [if ?c then _ else _] => destruct c
         end;
    unfold refresh_protection_orders;
    repeat match goal with
           | |- context [if ?c then _ else _] => destruct c
           end;
    attributes; (split; [exact Hb2 | reflexivity]).
Qed.

Lemma close_position_idle (feed : WebSocketManager) (exchange : Exchange)
  (now : Q) (w : PairWorker) :
  idle w -> idle (fst (_close_position feed exchange now w)).
Proof.
  intros Hidle. unfold _close_position.
  destruct (obtain_close feed exchange w) as [|[close_result|]];
    [exact Hidle | | exact Hidle].
  cbv zeta. attributes.
  destruct (_pending_strategy_settings w); split; reflexivity.
Qed.

Ltac branch :=
  match goal with
  | |- idle (fst (if ?c then _ else _)) => destruct c
  end.

Lemma check_break_even_idle (feed : WebSocketManager) (exchange : Exchange)
  (now : Q) (w : PairWorker) :
  idle w -> idle (fst (_check_break_even feed exchange now w)).
Proof.
  intros Hidle. unfold _check_break_even.
  pose proof (close_position_idle feed exchange now w Hidle) as Hclose.
  generalize dependent (_close_position feed exchange now w). intros closed Hclose.
  branch; [exact Hidle|].
  destruct (price_of (prices feed) (pair_name w)) as [price|]; [|exact Hidle].
  cbv zeta.
  assert (Htrigger :
    idle (fst (if break_even_armed w
               then if String.eqb (direction w) "LONG"
                       && Qleb price (break_even_price w)
                    then closed
                    else if String.eqb (direction w) "SHORT"
                            && Qgeb price (break_even_price w)
                    then closed else done w
               else done w))).
  { branch; [|exact Hidle].
    branch; [exact Hclose|].
    branch; [exact Hclose | exact Hidle]. }
  branch; [|exact Htrigger].
  branch; [exact Hidle|].
  branch; [exact Hidle | exact Htrigger].
Qed.

Lemma check_take_profit_idle (feed : WebSocketManager) (exchange : Exchange)
  (now : Q) (w : PairWorker) :
  idle w -> idle (fst (_check_take_profit feed exchange now w)).
Proof.
  intros Hidle. unfold _check_take_profit.
  pose proof (close_position_idle feed exchange now w Hidle) as Hclose.
  generalize dependent (_close_position feed exchange now w). intros closed Hclose.
  destruct (negb (position_open w)); [exact Hidle|].
  destruct (take_profit_price w) as [take_profit|]; [|exact Hidle].
  destruct (price_of (prices feed) (pair_name w)) as [price|]; [|exact Hidle].
  destruct (_ && _); [exact Hclose|].
  destruct (_ && _); [exact Hclose | exact Hidle].
Qed.

Lemma periodic_position_sync_idle (exchange : Exchange) (now : Q)
  (w : PairWorker) :
  idle w -> idle (fst (_periodic_position_sync exchange now w)).
Proof.
  intros Hidle. unfold _periodic_position_sync.
  destruct (Qltb _ 30); [exact Hidle|].
  destruct (get_position exchange) as [|pos]; [exact Hidle|].
  cbv zeta.
  destruct (_ && Qeqb _ 0); [split; reflexivity|].
  destruct (_ && _ && _); exact Hidle.
Qed.

Lemma and_then_idle (r : result) (k : PairWorker -> result) :
  idle (fst r) -> (forall w, idle w -> idle (fst (k w))) ->
  idle (fst (and_then r k)).
Proof.
  destruct r as [w outcome]. intros Hr Hk.
  destruct outcome; [apply Hk; exact Hr | exact Hr].
Qed.

(** An iteration of the loop that starts with no order in flight ends with
    no order in flight: whatever the feed and the exchange answer, and
    whether the iteration ends normally or by an exception, both in-flight
    flags are released, so the next iteration is not locked out. *)
Theorem iteration_releases_order_flags (ie : IndicatorEngine) (t : Tick)
  (w : PairWorker) :
  order_in_progress w = false ->
  _safety_order_in_progress w = false ->
  order_in_progress (fst (run_loop_iteration ie t w)) = false
  /\ _safety_order_in_progress (fst (run_loop_iteration ie t w)) = false.
Proof.
  intros Hbusy Hsafe. change (idle (fst (run_loop_iteration ie t w))).
  assert (Hidle : idle w) by (split; assumption).
  unfold run_loop_iteration.
  apply and_then_idle; [apply sync_latest_candles_idle; exact Hidle|].
  intros w1 H1.
  apply and_then_idle; [apply process_closed_candle_idle; exact H1|].
  intros w2 H2.
  apply and_then_idle; [apply process_dca_idle; exact H2|].
  intros w3 H3.
  apply and_then_idle; [apply check_break_even_idle; exact H3|].
  intros w4 H4.
  apply and_then_idle; [apply check_take_profit_idle; exact H4|].
  intros w5 H5.
  apply periodic_position_sync_idle. exact H5.
Qed.

Lemma iteration_releases_order_flags_witness :
  snd (run_loop_iteration
         (StrategyFacts.constant_indicators (Some 25) (Some 90) (Some 25) None)
         {| feed := WorkerFacts.feed_at 100 [100]; now := 1;
            current_exposure := 0;
            entry_exchange := WorkerFacts.funded_exchange;
            dca_exchange := WorkerFacts.unreachable_exchange;
            break_even_exchange := WorkerFacts.unreachable_exchange;
            take_profit_exchange := WorkerFacts.unreachable_exchange;
            sync_exchange := WorkerFacts.unreachable_exchange |}
         WorkerFacts.zero_size_worker) = Raised
  /\ order_in_progress
       (fst (run_loop_iteration
               (StrategyFacts.constant_indicators (Some 25) (Some 90) (Some 25) None)
               {| feed := WorkerFacts.feed_at 100 [100]; now := 1;
                  current_exposure := 0;
                  entry_exchange := WorkerFacts.funded_exchange;
                  dca_exchange := WorkerFacts.unreachable_exchange;
                  break_even_exchange := WorkerFacts.unreachable_exchange;
                  take_profit_exchange := WorkerFacts.unreachable_exchange;
                  sync_exchange := WorkerFacts.unreachable_exchange |}
               WorkerFacts.zero_size_worker)) = false.
Proof.
  split; [vm_compute; reflexivity|].
  destruct (iteration_releases_order_flags
              (StrategyFacts.constant_indicators (Some 25) (Some 90) (Some 25) None)
              {| feed := WorkerFacts.feed_at 100 [100]; now := 1;
                 current_exposure := 0;
                 entry_exchange := WorkerFacts.funded_exchange;
                 dca_exchange := WorkerFacts.unreachable_exchange;
                 break_even_exchange := WorkerFacts.unreachable_exchange;
                 take_profit_exchange := WorkerFacts.unreachable_exchange;
                 sync_exchange := WorkerFacts.unreachable_exchange |}
              WorkerFacts.zero_size_worker) as (Hbusy & _);
    [reflexivity | reflexivity | exact Hbusy].
Defined.

(** What the periodic position sync keeps. *)
Lemma position_sync_preserves (exchange : Exchange) (now : Q)
  (w : PairWorker) :
  runtime_invariants w ->
  (0 <= safety_orders_count (strategy_settings w))%Z ->
  snd (_periodic_position_sync exchange now w) = Normal
  /\ runtime_invariants (fst (_periodic_position_sync exchange now w))
  /\ trades_closed (fst (_periodic_position_sync exchange now w))
     = trades_closed w
  /\ _last_close_timestamp (fst (_periodic_position_sync exchange now w))
     = _last_close_timestamp w
  /\ (now - _last_position_sync w < 30 ->
      fst (_periodic_position_sync exchange now w) = w).
Proof.
  intros Hinv Hcount. unfold _periodic_position_sync.
  destruct (Qltb (now - _last_position_sync w) 30) eqn:Hrate.
  { attributes. repeat split; try assumption; apply Hinv. }
  apply Qltb_ge in Hrate.
  assert (Hlate : now - _last_position_sync w < 30 ->
                  forall w', w' = w) by (intros H; exfalso; lra).
  destruct (get_position exchange) as [|pos].
  { attributes. split; [reflexivity|]. split; [exact Hinv|].
    split; [reflexivity|]. split; [reflexivity|]. intros H. apply Hlate, H. }
  attributes.
  destruct (position_open w) eqn:Hopen; cbn [andb].
  - destruct (Qeqb (Qabs (default 0 (positionAmt pos))) 0) eqn:Hzero.
    + attributes. split; [reflexivity|].
      split; [apply (WorkerFacts.reset_position_state_invariants
                       (set_last_position_sync now w)); exact Hcount|].
      split; [reflexivity|]. split; [reflexivity|]. intros H. apply Hlate, H.
    + apply Qeqb_neq in Hzero.
      assert (Hreal : 0 < Qabs (default 0 (positionAmt pos))).
      { destruct (Qlt_le_dec 0 (Qabs (default 0 (positionAmt pos))))
          as [Hp|Hn]; [exact Hp|].
        exfalso. apply Hzero. apply Qle_antisym; [exact Hn | apply Qabs_nonneg]. }
      destruct (_is_futures_mode _ && Qgtb _ _).
      * attributes. split; [reflexivity|].
        split.
        { unfold runtime_invariants. attributes.
          split; [split; [intros _; exact Hreal | intros _; exact Hopen]|].
          split; [|apply Hinv].
          intros _. field. intros Hq. apply Hzero. exact Hq. }
        split; [reflexivity|]. split; [reflexivity|]. intros H. apply Hlate, H.
      * attributes. split; [reflexivity|]. split; [exact Hinv|].
        split; [reflexivity|]. split; [reflexivity|]. intros H. apply Hlate, H.
  - attributes. split; [reflexivity|]. split; [exact Hinv|].
    split; [reflexivity|]. split; [reflexivity|]. intros H. apply Hlate, H.
Qed.


(** Reading the attributes of the worker whose sync time was just set. *)
Ltac after_sync_stamp now w :=
  change (position_open (set_last_position_sync now w)) with (position_open w);
  change (_is_futures_mode (set_last_position_sync now w))
    with (_is_futures_mode w);
  change (total_qty (set_last_position_sync now w)) with (total_qty w);
  change (average_price (set_last_position_sync now w)) with (average_price w).

(** The periodic position sync never raises and keeps the runtime
    invariants, whatever the exchange answers.  It reports no trade and
    starts no cooldown, and within 30 seconds of the last sync it does
    nothing.  When it is due it records the time of the sync and then:
    if the exchange call raises, or the worker holds no position, nothing
    else changes; a local position of which the exchange reports a
    quantity of zero is dropped by [_reset_position_state]; a futures
    position whose quantity differs from the reported one by more than
    [1e-6] takes the reported quantity, the reported entry price (the old
    average price when that is missing or zero) as its average price,
    their product as its cost, and a take-profit price recomputed from
    them; in the remaining cases (spot, or no such difference) nothing else
    changes. *)
Theorem position_sync_keeps_invariants (exchange : Exchange) (now : Q)
  (w : PairWorker) :
  runtime_invariants w ->
  (0 <= safety_orders_count (strategy_settings w))%Z ->
  let r := _periodic_position_sync exchange now w in
  let synced := set_last_position_sync now w in
  snd r = Normal
  /\ runtime_invariants (fst r)
  /\ trades_closed (fst r) = trades_closed w
  /\ _last_close_timestamp (fst r) = _last_close_timestamp w
  /\ (now - _last_position_sync w < 30 -> fst r = w)
  /\ (30 <= now - _last_position_sync w ->
      (get_position exchange = Raises -> fst r = synced)
      /\ forall pos,
           get_position exchange = Returns pos ->
           let real := Qabs (default 0 (positionAmt pos)) in
           let entry := default (average_price w) (entryPrice pos) in
           (position_open w = false -> fst r = synced)
           /\ (position_open w = true -> real == 0 ->
               fst r = _reset_position_state synced)
           /\ (position_open w = true -> ~ real == 0 ->
               _is_futures_mode w = true ->
               1 # 1000000 < Qabs (real - total_qty w) ->
               fst r
               = _recalculate_tp
                   (set_total_cost (entry * real)
                      (set_average_price entry (set_total_qty real synced)))
               /\ position_open (fst r) = true
               /\ total_qty (fst r) = real
               /\ average_price (fst r) = entry
               /\ total_cost (fst r) = entry * real
               /\ take_profit_price (fst r)
                  = Some (if String.eqb (direction w) "LONG"
                          then entry
                               * (1 + take_profit_pct (strategy_settings w) / 100)
                          else entry
                               * (1 - take_profit_pct (strategy_settings w) / 100)))
           /\ (position_open w = true -> ~ real == 0 ->
               (_is_futures_mode w = false
                \/ Qabs (real - total_qty w) <= 1 # 1000000) ->
               fst r = synced)).
Proof.
  intros Hinv Hcount. cbv zeta.
  destruct (position_sync_preserves exchange now w Hinv Hcount)
    as (Hnormal & Hkept & Htrades & Hclose & Hearly).
  split; [exact Hnormal|]. split; [exact Hkept|]. split; [exact Htrades|].
  split; [exact Hclose|]. split; [exact Hearly|].
  intros Hdue. apply Qltb_ge in Hdue.
  unfold _periodic_position_sync. rewrite Hdue. cbv zeta.
  split; [intros Hraises; rewrite Hraises; reflexivity|].
  intros pos Hpos. rewrite Hpos. after_sync_stamp now w.
  split; [intros Hflat; rewrite Hflat; reflexivity|].
  split.
  { intros Hopen Hzero. apply Qeqb_eq in Hzero.
    rewrite Hopen, Hzero. reflexivity. }
  split.
  - intros Hopen Hzero Hfutures Hdiffers.
    apply Qeqb_neq in Hzero. apply Qgtb_gt in Hdiffers.
    rewrite Hopen, Hzero, Hfutures, Hdiffers. cbn [andb fst done].
    split; [reflexivity|].
    split; [exact Hopen|]. split; [reflexivity|]. split; [reflexivity|].
    split; reflexivity.
  - intros Hopen Hzero Hsame. apply Qeqb_neq in Hzero.
    rewrite Hopen, Hzero. cbn [andb].
    destruct Hsame as [Hspot | Hclose_enough].
    + rewrite Hspot. reflexivity.
    + apply Qgtb_le in Hclose_enough. rewrite Hclose_enough, andb_false_r.
      reflexivity.
Qed.

Lemma dca_worker_invariants : runtime_invariants WorkerFacts.dca_worker.
Proof.
  unfold runtime_invariants. split; [|split].
  - split; intros _; [vm_compute; reflexivity | reflexivity].
  - intros _. vm_compute. reflexivity.
  - vm_compute. discriminate.
Qed.

(** The exchange reports half a coin entered at 90 where the worker holds
    a quarter. *)
Definition exchange_holding_more : Exchange := {|
  place_order := Raises;
  get_order_status := fun _ => Raises;
  get_position := Returns {| positionAmt := Some (1 # 2); entryPrice := Some 90 |};
  futures_get_mark_price := None;
  get_balance := Raises;
  set_margin_type_and_leverage := Raises
|}.

Lemma position_sync_keeps_invariants_witness :
  runtime_invariants
    (fst (_periodic_position_sync exchange_holding_more 100
            WorkerFacts.dca_worker))
  /\ total_qty
       (fst (_periodic_position_sync exchange_holding_more 100
               WorkerFacts.dca_worker)) = Qabs (1 # 2)
  /\ average_price
       (fst (_periodic_position_sync exchange_holding_more 100
               WorkerFacts.dca_worker)) = 90.
Proof.
  destruct (position_sync_keeps_invariants exchange_holding_more 100
              WorkerFacts.dca_worker dca_worker_invariants)
    as (_ & Hinv & _ & _ & _ & Hdue).
  - vm_compute. discriminate.
  - split; [exact Hinv|].
    destruct Hdue as (_ & Hanswer); [vm_compute; discriminate|].
    destruct (Hanswer {| positionAmt := Some (1 # 2); entryPrice := Some 90 |}
                eq_refl) as (_ & _ & Hreplaced & _).
    destruct Hreplaced as (_ & _ & Hqty & Havg & _).
    + reflexivity.
    + vm_compute. discriminate.
    + reflexivity.
    + vm_compute. reflexivity.
    + split; [exact Hqty | exact Havg].
Defined.

End WorkerLoopFacts.

(** ** Pair worker: settings changes, the manual close, restarts *)

Module WorkerControlFacts.
Import Strategy Feed Orders Worker WorkerControl.
Import WorkerLoopFacts.

(** A change of settings while a position is open waits for the close: the
    settings and the strategy stay as they were, and the next
    [_close_position] that closes installs the new ones and forgets the
    pending copy; a [_close_position] that does not close keeps them
    pending.  The [mode] attribute is not deferred: the manager assigns it
    at once. *)
Theorem settings_change_waits_for_close (settings : StrategySettings)
  (feed : WebSocketManager) (exchange : Exchange) (now : Q) (w : PairWorker) :
  position_open w = true ->
  let w1 := update_pair_strategy_settings settings w in
  let r := _close_position feed exchange now w1 in
  strategy_settings w1 = strategy_settings w
  /\ strategy w1 = strategy w
  /\ mode w1 = Strategy.mode settings
  /\ (position_open (fst r) = false ->
      strategy_settings (fst r) = settings
      /\ strategy (fst r) = new_strategy settings
      /\ _pending_strategy_settings (fst r) = None)
  /\ (position_open (fst r) = true ->
      strategy_settings (fst r) = strategy_settings w
      /\ _pending_strategy_settings (fst r) = Some settings).
Proof.
  intros Hopen. cbv zeta.
  unfold update_pair_strategy_settings, update_settings.
  attributes. rewrite Hopen.
  split; [reflexivity|]. split; [reflexivity|]. split; [reflexivity|].
  unfold _close_position.
  destruct (obtain_close feed exchange _) as [|[close_result|]].
  - attributes. rewrite Hopen. split; [discriminate|]. intros _. split; reflexivity.
  - attributes. split; [intros _|discriminate]. repeat split.
  - attributes. rewrite Hopen. split; [discriminate|]. intros _. split; reflexivity.
Qed.

Lemma settings_change_waits_for_close_witness :
  strategy_settings
    (update_pair_strategy_settings default_settings WorkerFacts.dca_worker)
  = strategy_settings WorkerFacts.dca_worker
  /\ mode (update_pair_strategy_settings default_settings WorkerFacts.dca_worker)
     = "Spot".
Proof.
  destruct (settings_change_waits_for_close default_settings
              (WorkerFacts.feed_at 101 [100]) WorkerFacts.unreachable_exchange 1
              WorkerFacts.dca_worker ltac:(reflexivity)) as (Hs & _ & Hm & _).
  split; [exact Hs | exact Hm].
Defined.

(** A manual close that sends a closing order leaves the worker flat and
    reports one trade with a PnL of exactly 0, whatever the position was
    worth; the manager books that report as a winning trade and it ends a
    loss streak.  Pending settings are not installed by this path.  When no
    closing order is sent the worker is left as it was. *)
Theorem manual_close_books_zero_pnl (feed : WebSocketManager)
  (exchange : Exchange) (now : Q) (w : PairWorker) :
  let w' := close_position_now feed exchange now w in
  (OrdersControl.close_position_now exchange (mode w) = true ->
   WorkerFacts.flat w'
   /\ trades_closed w'
      = {| report_pair := pair_name w; report_pnl := 0;
           report_mode := mode w; report_direction := direction w |}
        :: trades_closed w
   /\ _last_close_timestamp w' = now
   /\ strategy_settings w' = strategy_settings w
   /\ _pending_strategy_settings w' = _pending_strategy_settings w
   /\ forall m : Manager.BotManager,
        let booked := Manager.record_trade (pair_name w) 0 (mode w) (direction w) m in
        ManagerFacts.counter Manager.win_trades (pair_name w) (fst booked)
        = (ManagerFacts.counter Manager.win_trades (pair_name w) m + 1)%Z
        /\ Risk.consecutive_losses (Manager.risk_manager (fst booked)) = 0%Z
        /\ snd booked = false)
  /\ (OrdersControl.close_position_now exchange (mode w) = false -> w' = w).
Proof.
  cbv zeta. unfold close_position_now.
  destruct (OrdersControl.close_position_now exchange (mode w)).
  - split; [intros _|discriminate]. cbn [negb].
    split; [apply WorkerFacts.reset_position_state_flat|].
    split; [reflexivity|]. split; [reflexivity|]. split; [reflexivity|].
    split; [reflexivity|]. intros m.
    destruct (ManagerFacts.record_trade_same (pair_name w) 0 (mode w)
                (direction w) m) as (stats & Hs & _ & Hw & _).
    destruct (ManagerFacts.record_trade_risk (pair_name w) 0 (mode w)
                (direction w) m) as (Hr & Hstop).
    split; [|split].
    + unfold ManagerFacts.counter at 1. rewrite Hs, Hw. reflexivity.
    + rewrite Hr. reflexivity.
    + rewrite Hstop. reflexivity.
  - split; [discriminate|]. intros _. reflexivity.
Qed.

Lemma manual_close_books_zero_pnl_witness :
  List.map report_pnl
    (trades_closed
       (close_position_now (WorkerFacts.feed_at 90 [100])
          (WorkerFacts.answering_exchange
             {| status := "FILLED"; executedQty := None;
                cummulativeQuoteQty := None; avgPrice := None |} 1)
          7 (WorkerFacts.holding "LONG" 1 100 100
               (new_worker "BTCUSDT" "Spot" default_settings))))
  = [0].
Proof.
  destruct (manual_close_books_zero_pnl (WorkerFacts.feed_at 90 [100])
              (WorkerFacts.answering_exchange
                 {| status := "FILLED"; executedQty := None;
                    cummulativeQuoteQty := None; avgPrice := None |} 1)
              7 (WorkerFacts.holding "LONG" 1 100 100
                   (new_worker "BTCUSDT" "Spot" default_settings)))
    as (Hclosed & _).
  destruct (Hclosed ltac:(vm_compute; reflexivity)) as (_ & Ht & _).
  rewrite Ht. reflexivity.
Defined.

(** The accounts of a worker survive a restart.  A fresh worker to which
    the saved runtime state is applied has the position flag, direction
    (for an upper-case, non-empty direction), quantity, cost, average
    price, safety-order count, break-even state and close time of the
    worker that saved it, and with them its runtime invariants; it is
    marked for a resync.  The size of the last order and the stop-loss
    price are not part of the saved state: the restored worker has the
    values of [__init__]. *)
Theorem restart_restores_accounts (w : PairWorker) :
  let w' := apply_runtime_state (get_runtime_state w)
              (new_worker (pair_name w) (mode w) (strategy_settings w)) in
  WorkerFacts.accounts w' = WorkerFacts.accounts w
  /\ running w' = running w
  /\ direction w' = upper (text_or "LONG" (Some (direction w)))
  /\ break_even_armed w' = break_even_armed w
  /\ break_even_price w' = break_even_price w
  /\ _last_close_timestamp w' = _last_close_timestamp w
  /\ take_profit_price w' = nonzero (default 0 (take_profit_price w))
  /\ needs_resync w' = true
  /\ last_order_usdt w' = 0
  /\ stop_loss_price w' = None
  /\ (runtime_invariants w -> runtime_invariants w').
Proof.
  cbv zeta.
  assert (Hacc : WorkerFacts.accounts
            (apply_runtime_state (get_runtime_state w)
               (new_worker (pair_name w) (mode w) (strategy_settings w)))
          = WorkerFacts.accounts w) by reflexivity.
  split; [exact Hacc|].
  do 9 (split; [reflexivity|]).
  intros Hinv. exact Hinv.
Qed.

End WorkerControlFacts.

(** ** Pair worker: what the two exits book *)

Module WorkerExitFacts.
Import Strategy Feed Orders Worker.
Import WorkerLoopFacts.

(** The PnL of closing the whole of a LONG position at [price]. *)
Lemma close_pnl_long (w : PairWorker) (price : Q) :
  direction w = "LONG" ->
  0 < total_qty w ->
  average_price w == total_cost w / total_qty w ->
  close_pnl w price (total_qty w)
  == total_qty w
     * (price * (1 - commission_pct (strategy_settings w) / 100)
        - average_price w).
Proof.
  intros Hdir Hqty Havg. unfold close_pnl. rewrite Hdir.
  cbn [String.eqb Ascii.eqb Bool.eqb]. rewrite Havg. field.
  intros H. rewrite H in Hqty. apply (Qlt_irrefl 0 Hqty).
Qed.

(** What a Paper close reports. *)
Lemma paper_close_reports (feed : WebSocketManager) (exchange : Exchange)
  (now price : Q) (w : PairWorker) :
  run_mode (strategy_settings w) = "Paper" ->
  price_of (prices feed) (pair_name w) = Some price ->
  exists report,
    trades_closed (fst (_close_position feed exchange now w))
    = report :: trades_closed w
    /\ report_pnl report = close_pnl w price (total_qty w)
    /\ position_open (fst (_close_position feed exchange now w)) = false.
Proof.
  intros Hmode Hprice. unfold _close_position, obtain_close.
  rewrite Hmode, Hprice. cbn [String.eqb Ascii.eqb Bool.eqb].
  cbv zeta. attributes.
  destruct (_pending_strategy_settings w); eexists;
    (split; [reflexivity|]; split; reflexivity).
Qed.

(** A take-profit exit does not book a loss.  For a LONG Paper position
    whose accounts are consistent and whose target is the one
    [_recalculate_tp] sets, [_check_take_profit] either leaves the worker
    alone or closes it and reports a PnL that is not negative, provided the
    take-profit percentage covers the exit commission:
    [(1 + take_profit_pct/100) * (1 - commission_pct/100) >= 1].  It closes
    exactly when the position is open and the ticker has reached the
    target. *)
Theorem take_profit_exit_books_no_loss (feed : WebSocketManager)
  (exchange : Exchange) (now target : Q) (w : PairWorker) :
  run_mode (strategy_settings w) = "Paper" ->
  direction w = "LONG" ->
  0 < total_qty w ->
  0 <= average_price w ->
  average_price w == total_cost w / total_qty w ->
  take_profit_price w = Some target ->
  target == average_price w * (1 + take_profit_pct (strategy_settings w) / 100) ->
  commission_pct (strategy_settings w) <= 100 ->
  1 <= (1 + take_profit_pct (strategy_settings w) / 100)
       * (1 - commission_pct (strategy_settings w) / 100) ->
  let r := _check_take_profit feed exchange now w in
  (fst r = w
   /\ ~ (position_open w = true
         /\ exists price, price_of (prices feed) (pair_name w) = Some price
                          /\ target <= price))
  \/ (exists report price,
        trades_closed (fst r) = report :: trades_closed w
        /\ 0 <= report_pnl report
        /\ position_open (fst r) = false
        /\ position_open w = true
        /\ price_of (prices feed) (pair_name w) = Some price
        /\ target <= price).
Proof.
  intros Hmode Hdir Hqty Havg0 Havg Htp Htarget Hcomm Hcover. cbv zeta.
  unfold _check_take_profit. rewrite Htp, Hdir.
  cbn [String.eqb Ascii.eqb Bool.eqb andb].
  destruct (position_open w) eqn:Hopen; cbn [negb].
  2:{ left. split; [reflexivity|]. intros (H & _). discriminate H. }
  destruct (price_of (prices feed) (pair_name w)) as [price|] eqn:Hprice.
  2:{ left. split; [reflexivity|]. intros (_ & p & H & _). discriminate H. }
  destruct (Qgeb price target) eqn:Hreach.
  2:{ left. split; [reflexivity|]. intros (_ & p & H & Hp).
      inversion H; subst p.
      apply Qgeb_ge in Hp. rewrite Hp in Hreach. discriminate Hreach. }
  right. apply Qgeb_ge in Hreach.
  destruct (paper_close_reports feed exchange now price w Hmode Hprice)
    as (report & Htrades & Hpnl & Hflat).
  exists report, price.
  split; [exact Htrades|]. split; [|split; [exact Hflat|split; [reflexivity|]]].
  - rewrite Hpnl, (close_pnl_long w price Hdir Hqty Havg).
    set (c := commission_pct (strategy_settings w) / 100) in *.
    set (t := take_profit_pct (strategy_settings w) / 100) in *.
    assert (Hc : 0 <= 1 - c).
    { subst c. assert (commission_pct (strategy_settings w) / 100 <= 1).
      { apply Qle_shift_div_r; [reflexivity | lra]. }
      lra. }
    assert (H1 : target * (1 - c) <= price * (1 - c))
      by (apply Qmult_le_compat_r; assumption).
    assert (H2 : average_price w * 1 <= average_price w * ((1 + t) * (1 - c))).
    { rewrite !(Qmult_comm (average_price w)).
      apply Qmult_le_compat_r; assumption. }
    rewrite Htarget in H1.
    apply Qmult_le_0_compat; [apply Qlt_le_weak; exact Hqty|]. lra.
  - split; [reflexivity | exact Hreach].
Qed.

(** A Paper worker holding one coin bought for 100, the ticker at 102. *)
Definition paper_long : PairWorker :=
  WorkerFacts.holding "LONG" 1 100 100 paper_worker.

Lemma take_profit_exit_books_no_loss_witness :
  exists report,
    trades_closed
      (fst (_check_take_profit (WorkerFacts.feed_at 102 [100])
              WorkerFacts.unreachable_exchange 7 paper_long))
    = [report]
    /\ 0 <= report_pnl report.
Proof.
  destruct (take_profit_exit_books_no_loss (WorkerFacts.feed_at 102 [100])
              WorkerFacts.unreachable_exchange 7 (100 / 1 * (1 + 1 / 100))
              paper_long)
    as [(_ & Hnot) | (report & price & Htrades & Hpnl & _)].
  - reflexivity.
  - reflexivity.
  - vm_compute. reflexivity.
  - vm_compute. discriminate.
  - vm_compute. reflexivity.
  - reflexivity.
  - vm_compute. reflexivity.
  - vm_compute. discriminate.
  - vm_compute. discriminate.
  - exfalso. apply Hnot. split; [reflexivity|].
    exists 102. split; [reflexivity|]. vm_compute. discriminate.
  - exists report. split; [exact Htrades | exact Hpnl].
Defined.

(** A break-even exit books no profit.  For a LONG Paper position with
    consistent accounts, armed, its break-even price not above the average
    price (every fill and the arming set it to the average price), and a
    ticker that is not negative, [_check_break_even] either leaves the
    worker alone or closes it and reports a PnL that is not positive: the
    entry commission is inside the average price and the exit commission
    comes on top. *)
Theorem break_even_exit_books_no_profit (feed : WebSocketManager)
  (exchange : Exchange) (now : Q) (w : PairWorker) :
  run_mode (strategy_settings w) = "Paper" ->
  direction w = "LONG" ->
  0 < total_qty w ->
  average_price w == total_cost w / total_qty w ->
  0 <= commission_pct (strategy_settings w) ->
  break_even_armed w = true ->
  break_even_price w <= average_price w ->
  (forall price, price_of (prices feed) (pair_name w) = Some price -> 0 <= price) ->
  let r := _check_break_even feed exchange now w in
  fst r = w
  \/ exists report,
       trades_closed (fst r) = report :: trades_closed w
       /\ report_pnl report <= 0
       /\ position_open (fst r) = false.
Proof.
  intros Hmode Hdir Hqty Havg Hcomm Harmed Hbe Hticker. cbv zeta.
  unfold _check_break_even. rewrite Harmed, Hdir.
  cbn [String.eqb Ascii.eqb Bool.eqb andb negb].
  destruct (negb (_is_futures_mode w) || negb (position_open w));
    [left; reflexivity|].
  destruct (price_of (prices feed) (pair_name w)) as [price|] eqn:Hprice;
    [|left; reflexivity].
  destruct (Qleb price (break_even_price w)) eqn:Hhit; [|left; reflexivity].
  right. apply Qleb_le in Hhit.
  destruct (paper_close_reports feed exchange now price w Hmode Hprice)
    as (report & Htrades & Hpnl & Hflat).
  exists report. split; [exact Htrades|]. split; [|exact Hflat].
  rewrite Hpnl, (close_pnl_long w price Hdir Hqty Havg).
  pose proof (Hticker price eq_refl) as Hp.
  set (c := commission_pct (strategy_settings w) / 100) in *.
  assert (Hc : 0 <= c).
  { subst c. apply Qle_shift_div_l; [reflexivity | lra]. }
  assert (Hpc : 0 <= price * c) by (apply Qmult_le_0_compat; assumption).
  assert (Hneg : price * (1 - c) - average_price w <= 0) by lra.
  assert (Hflip : 0 <= total_qty w * - (price * (1 - c) - average_price w)).
  { apply Qmult_le_0_compat; [apply Qlt_le_weak; exact Hqty | lra]. }
  lra.
Qed.

(** The same position in futures mode, armed, the ticker back at 99. *)
Definition armed_long : PairWorker :=
  set_break_even_armed true
    (WorkerFacts.holding "LONG" 1 100 100
       (new_worker "BTCUSDT" "Futures"
          (WorkerFacts.scenario_settings "Paper" "Futures" "Long" true true
             25 (1 # 10) 0 20 3))).

Lemma break_even_exit_books_no_profit_witness :
  exists report,
    trades_closed
      (fst (_check_break_even (WorkerFacts.feed_at 99 [100])
              WorkerFacts.unreachable_exchange 7 armed_long))
    = [report]
    /\ report_pnl report <= 0.
Proof.
  assert (Hclosed :
    fst (_check_break_even (WorkerFacts.feed_at 99 [100])
           WorkerFacts.unreachable_exchange 7 armed_long) <> armed_long).
  { intros H. apply (f_equal position_open) in H. vm_compute in H.
    discriminate H. }
  destruct (break_even_exit_books_no_profit (WorkerFacts.feed_at 99 [100])
              WorkerFacts.unreachable_exchange 7 armed_long)
    as [Hsame | (report & Htrades & Hpnl & _)].
  - reflexivity.
  - reflexivity.
  - vm_compute. reflexivity.
  - vm_compute. reflexivity.
  - vm_compute. discriminate.
  - reflexivity.
  - vm_compute. discriminate.
  - intros price H. vm_compute in H. inversion H. vm_compute. discriminate.
  - contradiction.
  - exists report. split; [exact Htrades | exact Hpnl].
Defined.

End WorkerExitFacts.
